(** * SigText: the message-signature verification workflow

    A shallow embedding of the verification pipeline of the SigText
    application: the two signature extractors ([SMSService.parseSMSMessage]
    and [SupabaseVerificationService.parseSMSMessage]), the sender resolver,
    the remote verifier with its local stand-in, the result persister and the
    cache synchroniser ([DataSyncService]).

    Strings are JavaScript strings restricted to the code units 0..255
    (ISO-8859-1), kept as lists of [ascii]; [length] is the JavaScript
    [.length].  Asynchronous functions are modelled by explicit state passing
    over a [World]; what the hosted backend, the session and the device
    storage answer is an argument of the function that asks. *)

From Stdlib Require Import String Ascii List Bool Arith Lia ZArith.
Import ListNotations.

Set Implicit Arguments.

Definition text := list ascii.

Definition lit (s : string) : text := list_ascii_of_string s.

(** ** JavaScript string primitives *)

Module JS.

Definition code (c : ascii) : nat := nat_of_ascii c.

Definition between (lo hi : nat) (c : ascii) : bool :=
  (lo <=? code c) && (code c <=? hi).

(** WhiteSpace and LineTerminator code units below 256: TAB, LF, VT, FF, CR,
    SP and NBSP.  These are what [String.prototype.trim] strips. *)
Definition isWhiteSpace (c : ascii) : bool :=
  between 9 13 c || (code c =? 32) || (code c =? 160).

Fixpoint trimStart (s : text) : text :=
  match s with
  | c :: s' => if isWhiteSpace c then trimStart s' else s
  | [] => []
  end.

Definition trimEnd (s : text) : text := rev (trimStart (rev s)).

Definition trim (s : text) : text := trimEnd (trimStart s).

(** [toLowerCase] on one code unit: A-Z, and the Latin-1 capitals
    U+00C0..U+00DE except the multiplication sign U+00D7. *)
Definition lowerChar (c : ascii) : ascii :=
  if between 65 90 c || (between 192 222 c && negb (code c =? 215))
  then ascii_of_nat (code c + 32) else c.

Definition toLowerCase (s : text) : text := map lowerChar s.

Definition asciiUpper (c : ascii) : ascii :=
  if between 97 122 c then ascii_of_nat (code c - 32) else c.

Definition asciiLower (c : ascii) : ascii :=
  if between 65 90 c then ascii_of_nat (code c + 32) else c.

Definition eqbChar (a b : ascii) : bool := Ascii.eqb a b.

Fixpoint startsWith (p s : text) : bool :=
  match p, s with
  | [], _ => true
  | a :: p', b :: s' => eqbChar a b && startsWith p' s'
  | _ :: _, [] => false
  end.

(** [s.indexOf(p)]: the first offset at which [p] occurs in [s]. *)
Fixpoint indexOf (p s : text) : option nat :=
  if startsWith p s then Some 0
  else match s with
       | [] => None
       | _ :: s' => option_map S (indexOf p s')
       end.

Definition includes (p s : text) : bool :=
  match indexOf p s with Some _ => true | None => false end.

(** [s.replace(p, r)] with a string pattern [p]: only the first occurrence
    is replaced. *)
Definition replace (p r s : text) : text :=
  match indexOf p s with
  | Some i => firstn i s ++ r ++ skipn (i + length p) s
  | None => s
  end.

Definition substring (a b : nat) (s : text) : text := firstn (b - a) (skipn a s).

(** A JavaScript condition on a string: the empty string is falsy. *)
Definition truthy (s : text) : bool :=
  match s with [] => false | _ :: _ => true end.

End JS.

(** ** Regular expressions

    The fragment the five signature patterns are written in: literal
    characters, a character class under a greedy bounded repetition, and
    capture groups.  [match_here] is the backtracking matcher at one offset,
    [exec] the leftmost search of [String.prototype.match] for a pattern
    without the [g] flag. *)

Module Regex.

Inductive node : Type :=
| Lit (c : ascii)
| Rep (cls : list (ascii * ascii)) (lo : nat) (hi : option nat)
| GroupOpen
| GroupClose.

Record RegExp : Type := mkRegExp {
  source : text;
  ignoreCase : bool;
  nodes : list node
}.

Record MatchArray : Type := mkMatch {
  index : nat;
  whole : text;          (* match[0] *)
  groups : list text     (* match[1], match[2], ... *)
}.

Definition group (k : nat) (m : MatchArray) : text := nth (k - 1) (groups m) [].

Definition inRanges (cls : list (ascii * ascii)) (c : ascii) : bool :=
  existsb (fun r => JS.between (JS.code (fst r)) (JS.code (snd r)) c) cls.

(** Under the [i] flag a character matches when its canonical form equals
    the canonical form of a member; for the 7-bit patterns used here that is
    the character itself or its other 7-bit case. *)
Definition charMatches (ic : bool) (p x : ascii) : bool :=
  if ic then JS.eqbChar (JS.asciiUpper p) (JS.asciiUpper x) else JS.eqbChar p x.

Definition classMatches (ic : bool) (cls : list (ascii * ascii)) (x : ascii) : bool :=
  if ic
  then inRanges cls x || inRanges cls (JS.asciiUpper x) || inRanges cls (JS.asciiLower x)
  else inRanges cls x.

Definition capOf (hi : option nat) (k : nat) : bool :=
  match hi with Some h => k <? h | None => true end.

(** Length of the longest run of class characters at the head of [s], not
    beyond the upper bound of the quantifier. *)
Fixpoint runLength (ok : ascii -> bool) (hi : option nat) (k : nat) (s : text) : nat :=
  match s with
  | x :: s' => if ok x && capOf hi k then S (runLength ok hi (S k) s') else 0
  | [] => 0
  end.

(** Greedy choice with backtracking: try [k], [k-1], ..., [lo]. *)
Fixpoint firstDown (A : Type) (f : nat -> option A) (lo k : nat) : option A :=
  if k <? lo then None
  else match f k with
       | Some r => Some r
       | None => match k with
                 | 0 => None
                 | S k' => firstDown f lo k'
                 end
       end.

Definition shift (k : nat) (r : option (nat * list nat)) : option (nat * list nat) :=
  match r with
  | Some (n, marks) => Some (k + n, map (Nat.add k) marks)
  | None => None
  end.

Definition mark (r : option (nat * list nat)) : option (nat * list nat) :=
  match r with
  | Some (n, marks) => Some (n, 0 :: marks)
  | None => None
  end.

(** [match_here ic pat s = Some (n, marks)]: the pattern matches the first
    [n] characters of [s]; [marks] are the offsets of the group parentheses,
    in the order they are met. *)
Fixpoint match_here (ic : bool) (pat : list node) (s : text) : option (nat * list nat) :=
  match pat with
  | [] => Some (0, [])
  | Lit c :: pat' =>
      match s with
      | x :: s' => if charMatches ic c x then shift 1 (match_here ic pat' s') else None
      | [] => None
      end
  | Rep cls lo hi :: pat' =>
      firstDown (fun k => shift k (match_here ic pat' (skipn k s)))
                lo (runLength (classMatches ic cls) hi 0 s)
  | GroupOpen :: pat' => mark (match_here ic pat' s)
  | GroupClose :: pat' => mark (match_here ic pat' s)
  end.

Fixpoint captures (w : text) (marks : list nat) : list text :=
  match marks with
  | o :: c :: rest => JS.substring o c w :: captures w rest
  | _ => []
  end.

Fixpoint search (ic : bool) (pat : list node) (s : text) (i : nat) : option MatchArray :=
  match match_here ic pat s with
  | Some (n, marks) =>
      Some {| index := i; whole := firstn n s; groups := captures (firstn n s) marks |}
  | None =>
      match s with
      | [] => None
      | _ :: s' => search ic pat s' (S i)
      end
  end.

(** [s.match(re)] *)
Definition exec (re : RegExp) (s : text) : option MatchArray :=
  search (ignoreCase re) (nodes re) s 0.

Definition test (re : RegExp) (s : text) : bool :=
  match exec re s with Some _ => true | None => false end.

Definition lits (s : string) : list node := map Lit (lit s).

Definition range (a b : string) : ascii * ascii :=
  (hd "000"%char (lit a), hd "000"%char (lit b)).

Definition one (a : string) : ascii * ascii := range a a.

(** [0-9a-fA-F] *)
Definition hexClass : list (ascii * ascii) :=
  [range "0" "9"; range "a" "f"; range "A" "F"].

(** [A-Za-z0-9+/=] *)
Definition base64Class : list (ascii * ascii) :=
  [range "A" "Z"; range "a" "z"; range "0" "9"; one "+"; one "/"; one "="].

(** [a-z0-9] *)
Definition didMethodClass : list (ascii * ascii) :=
  [range "a" "z"; range "0" "9"].

(** [a-zA-Z0-9._-] *)
Definition didIdClass : list (ascii * ascii) :=
  [range "a" "z"; range "A" "Z"; range "0" "9"; one "."; one "_"; one "-"].

(** /\[SIG:([0-9a-fA-F]{64,})\]/i *)
Definition reSIG : RegExp :=
  mkRegExp (lit "\[SIG:([0-9a-fA-F]{64,})\]") true
    (lits "[SIG:" ++ [GroupOpen; Rep hexClass 64 None; GroupClose] ++ lits "]").

(** /\[SIGNATURE:([A-Za-z0-9+/=]{64,})\]/i *)
Definition reSIGNATURE : RegExp :=
  mkRegExp (lit "\[SIGNATURE:([A-Za-z0-9+/=]{64,})\]") true
    (lits "[SIGNATURE:" ++ [GroupOpen; Rep base64Class 64 None; GroupClose] ++ lits "]").

(** /\[WEB3SIG:0x([0-9a-fA-F]{128,})\]/i *)
Definition reWEB3SIG : RegExp :=
  mkRegExp (lit "\[WEB3SIG:0x([0-9a-fA-F]{128,})\]") true
    (lits "[WEB3SIG:0x" ++ [GroupOpen; Rep hexClass 128 None; GroupClose] ++ lits "]").

(** /\[ETH:0x([0-9a-fA-F]{130})\]/i *)
Definition reETH : RegExp :=
  mkRegExp (lit "\[ETH:0x([0-9a-fA-F]{130})\]") true
    (lits "[ETH:0x" ++ [GroupOpen; Rep hexClass 130 (Some 130); GroupClose] ++ lits "]").

(** /\[DID:(did:[a-z0-9]+:[a-zA-Z0-9._-]+)#SIG:([0-9a-fA-F]{64,})\]/i *)
Definition reDID : RegExp :=
  mkRegExp (lit "\[DID:(did:[a-z0-9]+:[a-zA-Z0-9._-]+)#SIG:([0-9a-fA-F]{64,})\]") true
    (lits "[DID:"
       ++ [GroupOpen] ++ lits "did:" ++ [Rep didMethodClass 1 None] ++ lits ":"
       ++ [Rep didIdClass 1 None; GroupClose]
       ++ lits "#SIG:" ++ [GroupOpen; Rep hexClass 64 None; GroupClose] ++ lits "]").

End Regex.

(** ** services/SMSService: the signature extractor of the SMS screen *)

Module SMSService.
Import Regex.

Record ParsedSMS : Type := mkParsedSMS {
  originalMessage : text;
  extractedContent : text;
  signature : option text;
  sender : option text;
  timestamp : Z;
  phoneNumber : option text;
  signatureBlock : option text
}.

Record SMSSignaturePattern : Type := mkPattern {
  name : text;
  pattern : RegExp;
  extractor : MatchArray -> text
}.

Definition standard_hex : SMSSignaturePattern :=
  mkPattern (lit "standard_hex") reSIG (fun m => group 1 m).

Definition base64_signature : SMSSignaturePattern :=
  mkPattern (lit "base64_signature") reSIGNATURE (fun m => group 1 m).

Definition web3_signature : SMSSignaturePattern :=
  mkPattern (lit "web3_signature") reWEB3SIG (fun m => lit "0x" ++ group 1 m).

Definition did_signature : SMSSignaturePattern :=
  mkPattern (lit "did_signature") reDID (fun m => group 2 m).

Definition ethereum_signature : SMSSignaturePattern :=
  mkPattern (lit "ethereum_signature") reETH (fun m => lit "0x" ++ group 1 m).

Definition signaturePatterns : list SMSSignaturePattern :=
  [standard_hex; base64_signature; web3_signature; did_signature; ethereum_signature].

(** The [for ... of] loop with its [break]: the state is
    (signature, extractedContent, signatureBlock). *)
Fixpoint tryPatterns (ps : list SMSSignaturePattern) (messageText : text)
  : option text * text * option text :=
  match ps with
  | [] => (None, messageText, None)
  | p :: ps' =>
      match exec (pattern p) messageText with
      | Some m =>
          (Some (extractor p m),
           JS.trim (JS.replace (whole m) [] messageText),
           Some (whole m))
      | None => tryPatterns ps' messageText
      end
  end.

(** [now] is what [Date.now()] answers. *)
Definition parseSMSMessage (now : Z) (messageText : text) (sender : option text) : ParsedSMS :=
  let '(signature, extractedContent, signatureBlock) :=
    tryPatterns signaturePatterns messageText in
  {| originalMessage := messageText;
     extractedContent := extractedContent;
     signature := signature;
     sender := sender;
     timestamp := now;
     phoneNumber := sender;
     signatureBlock := signatureBlock |}.

Definition containsValidSignature (messageText : text) : bool :=
  existsb (fun p => test (pattern p) messageText) signaturePatterns.

End SMSService.

(** ** lib/supabase: the client of the hosted backend and its stand-in *)

Module Supabase.

Inductive jsonv : Type :=
| JNull
| JBool (b : bool)
| JNum (z : Z)
| JStr (s : text).

(** A JSON object used as a details blob: fields in the order written. *)
Definition blob := list (text * jsonv).

Definition textEqb (a b : text) : bool :=
  if list_eq_dec ascii_dec a b then true else false.

Fixpoint field (k : text) (b : blob) : option jsonv :=
  match b with
  | [] => None
  | (k', v) :: b' => if textEqb k k' then Some v else field k b'
  end.

Record PgError : Type := mkError {
  code : option text;
  message : option text
}.

(** The [{ data, error }] object every client call answers with. *)
Record Reply (A : Type) : Type := mkReply {
  data : option A;
  error : option PgError
}.

(** How a promise settles. *)
Inductive completion (A : Type) : Type :=
| Fulfilled (a : A)
| Rejected (e : text).

Arguments Rejected {A} e.

(** What goes wrong between the client and the hosted backend on one call:
    nothing, an error object in the reply, or a rejected promise. *)
Inductive fault : Type :=
| NoFault
| Refused (e : PgError)
| Threw (e : text).

Inductive rowid : Type :=
| Uuid (n : nat)                  (* gen_random_uuid() *)
| MockId (tag : text) (stamp : Z) (* 'mock-msg-' + Date.now() *).

Record User : Type := mkUser { user_id : text }.

Record Organization : Type := mkOrganization {
  org_id : text;
  org_name : text;
  wallet_address : text;
  org_verification_status : text;
  metadata : blob
}.

(** [Partial<VerifiedMessage>] as the client fills it in. *)
Record MessageData : Type := mkMessageData {
  organization_id : option text;
  message_content : text;
  signature : text;
  sender_address : text;
  verification_status : text;
  verification_details : option blob;
  message_hash : option text;
  verified_at : option Z
}.

Record VerifiedMessage : Type := mkVerifiedMessage {
  id : rowid;
  row : MessageData;
  created_at : Z
}.

(** [Partial<MessageVerificationAttempt>] *)
Record AttemptData : Type := mkAttemptData {
  message_id : rowid;
  attempted_by : option text;
  verification_method : text;
  success : bool;
  verification_data : blob
}.

Record MessageVerificationAttempt : Type := mkAttempt {
  attempt_id : rowid;
  attempt : AttemptData;
  attempt_created_at : Z
}.

(** One row of what [verify_message_signature] returns. *)
Record VerificationRow : Type := mkVerificationRow {
  is_valid : bool;
  v_organization_id : option text;
  v_organization_name : option text;
  v_verification_details : option blob
}.

Record World : Type := mkWorld {
  supabaseUrl : option text;      (* process.env.EXPO_PUBLIC_SUPABASE_URL *)
  session : option User;          (* the signed-in user, if any *)
  clock : Z;                      (* Date.now() *)
  organizations : list Organization;
  verified_messages : list VerifiedMessage;
  message_verification_attempts : list MessageVerificationAttempt;
  next_uuid : nat;
  console : list text
}.

(** State and exceptions: an asynchronous function run to completion. *)
Definition M (A : Type) : Type := World -> completion A * World.

Definition ret (A : Type) (a : A) : M A := fun w => (Fulfilled a, w).

Definition throw (A : Type) (e : text) : M A := fun w => (Rejected e, w).

Definition bind (A B : Type) (m : M A) (k : A -> M B) : M B :=
  fun w =>
    match m w with
    | (Fulfilled a, w') => k a w'
    | (Rejected e, w') => (Rejected e, w')
    end.

Definition tryCatch (A : Type) (m : M A) (handler : text -> M A) : M A :=
  fun w =>
    match m w with
    | (Fulfilled a, w') => (Fulfilled a, w')
    | (Rejected e, w') => handler e w'
    end.

Definition get : M World := fun w => (Fulfilled w, w).

Definition consoleError (line : text) : M unit :=
  fun w =>
    (Fulfilled tt,
     mkWorld (supabaseUrl w) (session w) (clock w) (organizations w)
             (verified_messages w) (message_verification_attempts w)
             (next_uuid w) (console w ++ [line])).

Declare Scope js_scope.
Delimit Scope js_scope with js.
Notation "x <- m ;; k" := (bind m (fun x => k))
  (at level 61, m at next level, right associativity) : js_scope.
Notation "m ;;; k" := (bind m (fun _ => k))
  (at level 61, right associativity) : js_scope.
Open Scope js_scope.

(** [!supabaseUrl] is false *)
Definition configured (w : World) : bool :=
  match supabaseUrl w with
  | Some url => JS.truthy url
  | None => false
  end.

(** [handleSupabaseError(error, operation)] *)
Definition handleSupabaseError (A : Type) (e : PgError) (operation : text) : M (Reply A) :=
  consoleError (lit "Supabase " ++ operation ++ lit " error:") ;;;
  ret (mkReply None
    (Some (mkError None (Some
      match code e with
      | Some c =>
          if textEqb c (lit "PGRST116") then lit "No data found"
          else if textEqb c (lit "23505") then lit "Duplicate entry - record already exists"
          else if textEqb c (lit "42501") then lit "Permission denied - check your access rights"
          else match message e with
               | Some (c0 :: m) => c0 :: m
               | _ => lit "Unknown database error"
               end
      | None =>
          match message e with
          | Some (c0 :: m) => c0 :: m
          | _ => lit "Unknown database error"
          end
      end)))).

(** [verifyMessage(messageContent, signature, senderAddress)].  [rpc] is the
    hosted procedure [verify_message_signature] as the client reaches it:
    what [supabase.rpc] answers when it is called with these three
    arguments. *)
Definition verifyMessage
    (rpc : text -> text -> text -> completion (Reply (list VerificationRow)))
    (messageContent signature senderAddress : text) : M (Reply VerificationRow) :=
  w <- get ;;
  if negb (configured w) then
    ret (mkReply
      (Some {| is_valid := (64 <=? length signature) && (0 <? length messageContent);
               v_organization_id := Some (lit "mock-org-1");
               v_organization_name := Some (lit "Mock Organization");
               v_verification_details := Some
                 [ (lit "timestamp", JNum (clock w));
                   (lit "method", JStr (lit "mock"));
                   (lit "signature_format", JStr (lit "hex"));
                   (lit "message_hash", JStr (JS.substring 0 8 messageContent)) ] |})
      None)
  else
    match rpc messageContent signature senderAddress with
    | Rejected e =>
        handleSupabaseError VerificationRow (mkError None (Some e)) (lit "message verification")
    | Fulfilled r =>
        match error r with
        | Some e => handleSupabaseError VerificationRow e (lit "message verification")
        | None =>
            ret (mkReply
                   match data r with
                   | Some (first :: _) => Some first
                   | _ => None
                   end
                   None)
        end
    end.

(** The constraint [UNIQUE (signature, message_hash)] of [verified_messages]:
    two rows collide when both columns are equal, and a NULL [message_hash]
    equals nothing. *)
Definition collides (d : MessageData) (r : VerifiedMessage) : bool :=
  textEqb (signature d) (signature (row r)) &&
  match message_hash d, message_hash (row r) with
  | Some h, Some h' => textEqb h h'
  | _, _ => false
  end.

Definition setMessages (w : World) (ms : list VerifiedMessage) (n : nat) : World :=
  mkWorld (supabaseUrl w) (session w) (clock w) (organizations w)
          ms (message_verification_attempts w) n (console w).

Definition setAttempts (w : World) (ats : list MessageVerificationAttempt) (n : nat) : World :=
  mkWorld (supabaseUrl w) (session w) (clock w) (organizations w)
          (verified_messages w) ats n (console w).

(** The foreign key [organization_id uuid REFERENCES organizations(id)] of
    [verified_messages]: a row names an organization of the table, or
    none. *)
Definition references (d : MessageData) (orgs : list Organization) : bool :=
  match organization_id d with
  | Some o => existsb (fun org => textEqb (org_id org) o) orgs
  | None => true
  end.

(** [insert into verified_messages]: the insert policy admits the role
    [authenticated] only, the row has to pass the uniqueness constraint and
    the foreign key, and it gets its id and [created_at] defaults. *)
Definition insertVerifiedMessage (d : MessageData) : M (Reply VerifiedMessage) :=
  fun w =>
    match session w with
    | None =>
        (Fulfilled (mkReply None (Some (mkError (Some (lit "42501"))
           (Some (lit "new row violates row-level security policy"))))), w)
    | Some _ =>
        if existsb (collides d) (verified_messages w) then
          (Fulfilled (mkReply None (Some (mkError (Some (lit "23505"))
             (Some (lit "duplicate key value violates unique constraint"))))), w)
        else if negb (references d (organizations w)) then
          (Fulfilled (mkReply None (Some (mkError (Some (lit "23503"))
             (Some (lit "insert or update violates foreign key constraint"))))), w)
        else
          let r := mkVerifiedMessage (Uuid (next_uuid w)) d (clock w) in
          (Fulfilled (mkReply (Some r) None),
           setMessages w (verified_messages w ++ [r]) (S (next_uuid w)))
    end.

(** [insert into message_verification_attempts]: the policy checks
    [attempted_by = auth.uid()]. *)
Definition insertAttempt (d : AttemptData) : M (Reply MessageVerificationAttempt) :=
  fun w =>
    match session w, attempted_by d with
    | Some u, Some by_ =>
        if textEqb (user_id u) by_ then
          let r := mkAttempt (Uuid (next_uuid w)) d (clock w) in
          (Fulfilled (mkReply (Some r) None),
           setAttempts w (message_verification_attempts w ++ [r]) (S (next_uuid w)))
        else
          (Fulfilled (mkReply None (Some (mkError (Some (lit "42501"))
             (Some (lit "new row violates row-level security policy"))))), w)
    | _, _ =>
        (Fulfilled (mkReply None (Some (mkError (Some (lit "42501"))
           (Some (lit "new row violates row-level security policy"))))), w)
    end.

(** [saveVerifiedMessage(messageData)] *)
Definition saveVerifiedMessage (f : fault) (messageData : MessageData)
  : M (Reply VerifiedMessage) :=
  w <- get ;;
  if negb (configured w) then
    ret (mkReply
           (Some (mkVerifiedMessage (MockId (lit "mock-msg-") (clock w)) messageData (clock w)))
           None)
  else
    match f with
    | Threw e => throw _ e
    | Refused e => ret (mkReply None (Some e))
    | NoFault => insertVerifiedMessage messageData
    end.

(** [recordVerificationAttempt(attemptData)] *)
Definition recordVerificationAttempt (f : fault) (attemptData : AttemptData)
  : M (Reply MessageVerificationAttempt) :=
  w <- get ;;
  if negb (configured w) then
    ret (mkReply
           (Some (mkAttempt (MockId (lit "mock-attempt-") (clock w)) attemptData (clock w)))
           None)
  else
    match f with
    | Threw e => throw _ e
    | Refused e => ret (mkReply None (Some e))
    | NoFault => insertAttempt attemptData
    end.

(** [supabase.auth.getUser()], the [user] of its answer. *)
Definition getUser (f : fault) : M (option User) :=
  match f with
  | Threw e => throw _ e
  | Refused _ => ret None
  | NoFault => w <- get ;; ret (session w)
  end.

(** [from('organizations').select('wallet_address')
      .contains('metadata', { phone }).eq('verification_status', 'verified').limit(1)].
    The placeholder project of an unconfigured client serves no rows. *)
Definition selectWalletByPhone (f : fault) (phone : text) : M (Reply (list text)) :=
  w <- get ;;
  match f with
  | Threw e => throw _ e
  | Refused e => ret (mkReply None (Some e))
  | NoFault =>
      if negb (configured w) then
        ret (mkReply None (Some (mkError None (Some (lit "Network request failed")))))
      else
        ret (mkReply
          (Some (firstn 1 (map wallet_address
             (filter (fun o =>
                        match field (lit "phone") (metadata o) with
                        | Some (JStr p) => textEqb p phone
                        | _ => false
                        end
                        && textEqb (org_verification_status o) (lit "verified"))
                     (organizations w)))))
          None)
  end.

End Supabase.

(** ** services/SupabaseVerificationService *)

Module SupabaseVerificationService.
Import Regex Supabase.

Record VerificationResult : Type := mkResult {
  isValid : bool;
  organizationId : option text;
  organizationName : option text;
  verificationDetails : option blob;
  message : option text;
  success : option bool;
  error : option text
}.

Record ParsedMessage : Type := mkParsed {
  content : text;
  signature : text;
  senderAddress : text;
  originalMessage : text;   (* metadata.originalMessage *)
  extractedAt : Z           (* metadata.extractedAt *)
}.

(** What the outside answers during one verification call. *)
Record Env : Type := mkEnv {
  rpc_answer : text -> text -> text -> completion (Reply (list VerificationRow));
  save_fault : fault;
  user_fault : fault;
  record_fault : fault;
  directory_fault : fault
}.

Definition failure (msg : string) : VerificationResult :=
  mkResult false None None None None (Some false) (Some (lit msg)).

(** The array [signaturePatterns] of [parseSMSMessage], in its order. *)
Definition signaturePatterns : list RegExp :=
  [reSIG; reSIGNATURE; reWEB3SIG; reETH; reDID].

(** The loop over the patterns with its [break]; the state is
    (signature, content, senderAddress). *)
Fixpoint tryPatterns (ps : list RegExp) (smsContent : text) : text * text * text :=
  match ps with
  | [] => ([], smsContent, [])
  | pattern :: ps' =>
      match exec pattern smsContent with
      | Some m =>
          let '(signature, senderAddress) :=
            if JS.includes (lit "DID:") (source pattern) then
              (group 2 m, group 1 m)
            else if JS.includes (lit "WEB3SIG:") (source pattern)
                    || JS.includes (lit "ETH:") (source pattern) then
              (lit "0x" ++ group 1 m, [])
            else
              (group 1 m, []) in
          (signature, JS.trim (JS.replace (whole m) [] smsContent), senderAddress)
      | None => tryPatterns ps' smsContent
      end
  end.

Definition parseSMSMessage (now : Z) (smsContent : text) : ParsedMessage :=
  let '(signature, content, senderAddress) := tryPatterns signaturePatterns smsContent in
  mkParsed content signature senderAddress smsContent now.

Definition fallbackAddress : text := lit "0x1111111111111111111111111111111111111111".

(** [resolveSenderAddress(extractedAddress, senderPhone?)]; the answer is a
    string or [null]. *)
Definition resolveSenderAddress (env : Env) (extractedAddress : text)
    (senderPhone : option text) : M (option text) :=
  if JS.truthy extractedAddress
     && (JS.startsWith (lit "did:") extractedAddress
         || JS.startsWith (lit "0x") extractedAddress)
  then ret (Some extractedAddress)
  else
    match senderPhone with
    | Some (c :: phone) =>
        r <- selectWalletByPhone (directory_fault env) (c :: phone) ;;
        match data r with
        | Some (wallet :: _) => ret (Some wallet)
        | _ => ret (Some fallbackAddress)
        end
    | _ => ret (Some fallbackAddress)
    end.

(** [saveVerificationResult(params)] *)
Definition saveVerificationResult (env : Env)
    (messageContent signature senderAddress : text)
    (organizationId : option text) (verificationDetails : option blob)
    (verificationMethod : text) : M unit :=
  tryCatch
    (w <- get ;;
     let messageData :=
       {| organization_id := organizationId;
          message_content := messageContent;
          Supabase.signature := signature;
          sender_address := senderAddress;
          verification_status := lit "verified";
          verification_details := verificationDetails;
          message_hash := None;
          verified_at := Some (clock w) |} in
     saved <- saveVerifiedMessage (save_fault env) messageData ;;
     match Supabase.error saved with
     | Some _ => consoleError (lit "Error saving verified message:")
     | None =>
         user <- getUser (user_fault env) ;;
         match user, data saved with
         | Some u, Some savedMessage =>
             w' <- get ;;
             let attemptData :=
               {| message_id := id savedMessage;
                  attempted_by := Some (user_id u);
                  verification_method := verificationMethod;
                  Supabase.success := true;
                  verification_data :=
                    [ (lit "timestamp", JNum (clock w'));
                      (lit "organization_id",
                       match organizationId with Some o => JStr o | None => JNull end) ] |} in
             recordVerificationAttempt (record_fault env) attemptData ;;;
             ret tt
         | _, _ => ret tt
         end
     end)
    (fun _ => consoleError (lit "Error saving verification result:")).

(** The text a template literal gives an optional string. *)
Definition render (o : option text) : text :=
  match o with Some s => s | None => lit "null" end.

(** [signature.replace(/^0x/, '')] *)
Definition stripHexPrefix (signature : text) : text :=
  if JS.startsWith (lit "0x") signature then skipn 2 signature else signature.

(** [verifyMessageSignature(messageContent, signature, senderAddress, verificationMethod)] *)
Definition verifyMessageSignature (env : Env)
    (messageContent signature senderAddress verificationMethod : text)
  : M VerificationResult :=
  tryCatch
    (let cleanContent := JS.trim messageContent in
     let cleanSignature := JS.toLowerCase (stripHexPrefix signature) in
     let cleanSender := JS.toLowerCase senderAddress in
     r <- verifyMessage (rpc_answer env) cleanContent cleanSignature cleanSender ;;
     match Supabase.error r with
     | Some _ =>
         consoleError (lit "Supabase verification error:") ;;;
         ret (failure "Verification service error")
     | None =>
         match data r with
         | None => ret (failure "No verification result returned")
         | Some verificationResult =>
             (if is_valid verificationResult then
                saveVerificationResult env cleanContent cleanSignature cleanSender
                  (v_organization_id verificationResult)
                  (v_verification_details verificationResult)
                  verificationMethod
              else ret tt) ;;;
             ret {| isValid := is_valid verificationResult;
                    success := Some true;
                    organizationId := v_organization_id verificationResult;
                    organizationName := v_organization_name verificationResult;
                    verificationDetails := v_verification_details verificationResult;
                    message := Some
                      (if is_valid verificationResult
                       then lit "Message verified from "
                              ++ render (v_organization_name verificationResult)
                       else lit "Message verification failed");
                    error := None |}
         end
     end)
    (fun _ =>
       consoleError (lit "Message verification error:") ;;;
       ret (failure "Verification failed due to technical error")).

(** [verifySMSMessage(smsContent, senderPhone?)] *)
Definition verifySMSMessage (env : Env) (smsContent : text) (senderPhone : option text)
  : M VerificationResult :=
  tryCatch
    (w <- get ;;
     let parsed := parseSMSMessage (clock w) smsContent in
     if negb (JS.truthy (signature parsed)) then
       ret (failure "No signature found in SMS message")
     else
       senderAddress <- resolveSenderAddress env (senderAddress parsed) senderPhone ;;
       match senderAddress with
       | Some (c :: address) =>
           verifyMessageSignature env (content parsed) (signature parsed)
             (c :: address) (lit "sms")
       | _ => ret (failure "Could not resolve sender wallet address")
       end)
    (fun _ =>
       consoleError (lit "SMS verification error:") ;;;
       ret (failure "SMS verification failed")).

(** [verifyMessage(content, sender)] *)
Definition verifyMessage (env : Env) (content_ sender : text) : M VerificationResult :=
  tryCatch
    (w <- get ;;
     let parsed := parseSMSMessage (clock w) content_ in
     if negb (JS.truthy (signature parsed)) then
       ret (failure "No signature found in message")
     else
       verifyMessageSignature env (content parsed) (signature parsed)
         (if JS.truthy sender then sender else senderAddress parsed)
         (lit "manual"))
    (fun _ =>
       consoleError (lit "Message verification error:") ;;;
       ret (failure "Message verification failed")).

End SupabaseVerificationService.

(** ** services/DataSyncService: the offline mirror

    JavaScript runs one task at a time and an asynchronous function gives up
    control only at an [await].  A call of [syncData] is therefore a sequence
    of atomic blocks; [pc] names the points at which a call is suspended,
    [invoke] is the block run by the call itself and [resume] the block run
    when the awaited promise settles.  Calls interleave block by block. *)

Module DataSyncService.

Record SyncStatus : Type := mkStatus {
  lastSync : text;
  pendingUploads : nat;
  status_syncInProgress : bool;
  errors : list text
}.

Record Device : Type := mkDevice {
  syncInProgress : bool;            (* this.syncInProgress *)
  storage : list (text * text);     (* AsyncStorage *)
  requests : list text;             (* tables queried over the network, latest last *)
  console : list text;
  clock : text                      (* new Date().toISOString() *)
}.

(** How an awaited promise settles: a query answers [{ data, error }], a
    storage operation just completes, either may reject. *)
Inductive answer : Type :=
| Settles (data : option text) (error : option text)
| Fails (e : text).

Inductive pc : Type :=
| AwaitStatus                              (* getSyncStatus: getItem('lastSync') *)
| AwaitOrganizations                       (* syncOrganizations: the query *)
| AwaitStoreOrganizations (json : text)    (* setItem('cached_organizations', json) *)
| OrganizationsSettled (threw : option text)
| AwaitMessages                            (* syncMessages: the query *)
| AwaitStoreMessages (json : text)         (* setItem('cached_messages', json) *)
| MessagesSettled (threw : option text)
| AwaitStoreLastSync (stamp : text)        (* setItem('lastSync', stamp) *)
| AwaitFinalStatus (errs : list text)      (* getItem('lastSync') after finally *)
| Returned (st : SyncStatus)
| Thrown (e : text).

Fixpoint getItem (k : text) (st : list (text * text)) : option text :=
  match st with
  | [] => None
  | (k', v) :: st' => if Supabase.textEqb k k' then Some v else getItem k st'
  end.

Definition setItem (k v : text) (st : list (text * text)) : list (text * text) :=
  (k, v) :: filter (fun kv => negb (Supabase.textEqb k (fst kv))) st.

Definition setFlag (b : bool) (d : Device) : Device :=
  mkDevice b (storage d) (requests d) (console d) (clock d).

Definition store (k v : text) (d : Device) : Device :=
  mkDevice (syncInProgress d) (setItem k v (storage d)) (requests d) (console d) (clock d).

Definition request (table : text) (d : Device) : Device :=
  mkDevice (syncInProgress d) (storage d) (requests d ++ [table]) (console d) (clock d).

Definition consoleError (line : text) (d : Device) : Device :=
  mkDevice (syncInProgress d) (storage d) (requests d) (console d ++ [line]) (clock d).

(** [x || 'Never'] *)
Definition orNever (v : option text) : text :=
  match v with
  | Some (c :: s) => c :: s
  | _ => lit "Never"
  end.

(** [JSON.stringify(data || [])], the rows being kept as their JSON text. *)
Definition stringify (data : option text) : text :=
  match data with
  | Some json => json
  | None => lit "[]"
  end.

(** The call [syncData()] up to its first [await]. *)
Definition invoke (d : Device) : pc * Device :=
  if syncInProgress d then (AwaitStatus, d)
  else (AwaitOrganizations, request (lit "organizations") (setFlag true d)).

(** The [catch] and [finally] of [syncData], up to the [await] of the
    [return]. *)
Definition caught (e : text) (d : Device) : pc * Device :=
  (AwaitFinalStatus [e], setFlag false (consoleError (lit "Sync error:") d)).

Definition resume (a : answer) (p : pc) (d : Device) : pc * Device :=
  match p with
  | AwaitStatus =>
      match a with
      | Settles _ _ =>
          (Returned (mkStatus (orNever (getItem (lit "lastSync") (storage d))) 0
                              (syncInProgress d) []), d)
      | Fails e => (Thrown e, d)
      end
  | AwaitOrganizations =>
      match a with
      | Settles _ (Some e) =>
          (OrganizationsSettled (Some e), consoleError (lit "Organization sync error:") d)
      | Settles data None => (AwaitStoreOrganizations (stringify data), d)
      | Fails e =>
          (OrganizationsSettled (Some e), consoleError (lit "Organization sync error:") d)
      end
  | AwaitStoreOrganizations json =>
      match a with
      | Settles _ _ => (OrganizationsSettled None, store (lit "cached_organizations") json d)
      | Fails e =>
          (OrganizationsSettled (Some e), consoleError (lit "Organization sync error:") d)
      end
  | OrganizationsSettled None => (AwaitMessages, request (lit "verified_messages") d)
  | OrganizationsSettled (Some e) => caught e d
  | AwaitMessages =>
      match a with
      | Settles _ (Some e) =>
          (MessagesSettled (Some e), consoleError (lit "Messages sync error:") d)
      | Settles data None => (AwaitStoreMessages (stringify data), d)
      | Fails e => (MessagesSettled (Some e), consoleError (lit "Messages sync error:") d)
      end
  | AwaitStoreMessages json =>
      match a with
      | Settles _ _ => (MessagesSettled None, store (lit "cached_messages") json d)
      | Fails e => (MessagesSettled (Some e), consoleError (lit "Messages sync error:") d)
      end
  | MessagesSettled None => (AwaitStoreLastSync (clock d), d)
  | MessagesSettled (Some e) => caught e d
  | AwaitStoreLastSync stamp =>
      match a with
      | Settles _ _ => (AwaitFinalStatus [], setFlag false (store (lit "lastSync") stamp d))
      | Fails e => caught e d
      end
  | AwaitFinalStatus errs =>
      match a with
      | Settles _ _ =>
          (Returned (mkStatus (orNever (getItem (lit "lastSync") (storage d))) 0 false errs), d)
      | Fails e => (Thrown e, d)
      end
  | Returned st => (Returned st, d)
  | Thrown e => (Thrown e, d)
  end.

Definition finished (p : pc) : bool :=
  match p with
  | Returned _ | Thrown _ => true
  | _ => false
  end.

(** One call of [syncData] on its own: the blocks run as the answers in
    [answers] arrive. *)
Fixpoint run (answers : list answer) (p : pc) (d : Device) : pc * Device :=
  match answers with
  | [] => (p, d)
  | a :: rest => let '(p', d') := resume a p d in run rest p' d'
  end.

Definition syncData (answers : list answer) (d : Device) : pc * Device :=
  let '(p, d') := invoke d in run answers p d'.

(** Several calls in flight.  [Invoke] is a new call of [syncData] (by the
    timer of [startAutoSync] or by [forcSync]); [Deliver i a] settles what
    call [i] awaits. *)
Record Config : Type := mkConfig {
  device : Device;
  calls : list pc
}.

Inductive event : Type :=
| Invoke
| Deliver (i : nat) (a : answer).

Fixpoint setNth (A : Type) (i : nat) (x : A) (l : list A) : list A :=
  match l, i with
  | [], _ => []
  | _ :: l', 0 => x :: l'
  | y :: l', S i' => y :: setNth i' x l'
  end.

Definition step (e : event) (c : Config) : Config :=
  match e with
  | Invoke =>
      let '(p, d) := invoke (device c) in mkConfig d (calls c ++ [p])
  | Deliver i a =>
      match nth_error (calls c) i with
      | Some p => let '(p', d) := resume a p (device c) in mkConfig d (setNth i p' (calls c))
      | None => c
      end
  end.

Fixpoint steps (es : list event) (c : Config) : Config :=
  match es with
  | [] => c
  | e :: es' => steps es' (step e c)
  end.

Definition idle (d : Device) : Config := mkConfig (setFlag false d) [].

(** Fetch cycles begun: queries of the organizations table. *)
Definition cycles (d : Device) : nat :=
  length (filter (Supabase.textEqb (lit "organizations")) (requests d)).

Definition messageFetches (d : Device) : nat :=
  length (filter (Supabase.textEqb (lit "verified_messages")) (requests d)).

(** The calls that hold the guard: between setting the flag and the
    [finally]. *)
Definition syncing (p : pc) : bool :=
  match p with
  | AwaitOrganizations | AwaitStoreOrganizations _ | OrganizationsSettled _
  | AwaitMessages | AwaitStoreMessages _ | MessagesSettled _
  | AwaitStoreLastSync _ => true
  | _ => false
  end.

Definition syncingCalls (c : Config) : nat :=
  length (filter syncing (calls c)).

Definition isDelivery (e : event) : bool :=
  match e with
  | Invoke => false
  | Deliver _ _ => true
  end.

(** The events that are not an answer to call [k]. *)
Definition notFor (k : nat) (e : event) : bool :=
  match e with
  | Invoke => true
  | Deliver i _ => negb (Nat.eqb i k)
  end.

(** A bound on the answers a call still waits for. *)
Definition rank (p : pc) : nat :=
  match p with
  | AwaitOrganizations => 8
  | AwaitStoreOrganizations _ => 7
  | OrganizationsSettled _ => 6
  | AwaitMessages => 5
  | AwaitStoreMessages _ => 4
  | MessagesSettled _ => 3
  | AwaitStoreLastSync _ => 2
  | AwaitFinalStatus _ => 1
  | AwaitStatus => 1
  | Returned _ | Thrown _ => 0
  end.

(** The calls that have yet to query the messages table. *)
Definition owesMessages (p : pc) : nat :=
  match p with
  | AwaitOrganizations | AwaitStoreOrganizations _ | OrganizationsSettled None => 1
  | _ => 0
  end.

(** A call that took the guard: it holds the flag while it syncs and has
    cleared it once it is past its [finally]. *)
Definition guardHeld (p : pc) (d : Device) : Prop :=
  match p with
  | AwaitStatus => False
  | AwaitFinalStatus _ | Returned _ | Thrown _ => syncInProgress d = false
  | _ => syncInProgress d = true
  end.

(** Queries of the messages table made or still to come. *)
Definition owed (c : Config) : nat :=
  messageFetches (device c) + list_sum (map owesMessages (calls c)).

(** How far a call that found the flag up can be: waiting for the stored
    status, returned with it, or rejected by the storage. *)
Definition waitsForStatus (p : pc) : Prop :=
  p = AwaitStatus \/
  (exists st, p = Returned st /\ errors st = [] /\ pendingUploads st = 0) \/
  (exists e, p = Thrown e).

End DataSyncService.

(** ** What a pattern denotes

    [Matches ic pat w marks]: the word [w] is in the language of [pat], with
    the group parentheses at the offsets [marks].  The matcher is compared
    with this reading below. *)

Module Language.
Import Regex.

Definition within (hi : option nat) (k : nat) : Prop :=
  match hi with Some h => k <= h | None => True end.

Inductive Matches (ic : bool) : list node -> text -> list nat -> Prop :=
| M_end : Matches ic [] [] []
| M_lit : forall c x pat w marks,
    charMatches ic c x = true ->
    Matches ic pat w marks ->
    Matches ic (Lit c :: pat) (x :: w) (map (Nat.add 1) marks)
| M_rep : forall cls lo hi pat r w marks,
    forallb (classMatches ic cls) r = true ->
    lo <= length r ->
    within hi (length r) ->
    Matches ic pat w marks ->
    Matches ic (Rep cls lo hi :: pat) (r ++ w) (map (Nat.add (length r)) marks)
| M_open : forall pat w marks,
    Matches ic pat w marks -> Matches ic (GroupOpen :: pat) w (0 :: marks)
| M_close : forall pat w marks,
    Matches ic pat w marks -> Matches ic (GroupClose :: pat) w (0 :: marks).

(** The text holds a block of the pattern's language. *)
Definition containsTag (re : RegExp) (s : text) : Prop :=
  exists pre w post marks,
    s = pre ++ w ++ post /\ Matches (ignoreCase re) (nodes re) w marks.

(** The two readings of the content the specification gives.
    [collapseWhitespace] follows the words "whitespace collapsed": every run
    of white space becomes one space and the ends are trimmed.
    [ignoringWhitespace] follows "identical (ignoring whitespace)". *)
Fixpoint collapseRuns (s : text) : text :=
  match s with
  | [] => []
  | c :: s' =>
      if JS.isWhiteSpace c then
        match s' with
        | c' :: _ => if JS.isWhiteSpace c' then collapseRuns s' else " "%char :: collapseRuns s'
        | [] => [" "%char]
        end
      else c :: collapseRuns s'
  end.

Definition collapseWhitespace (s : text) : text := JS.trim (collapseRuns s).

Definition contentAsStated (block s : text) : text :=
  collapseWhitespace (JS.replace block [] s).

Definition ignoringWhitespace (s : text) : text :=
  filter (fun c => negb (JS.isWhiteSpace c)) s.

(** The signature each extractor returns, as the JavaScript value it is.
    [SMSService] declares [signature: string | null]; the verification
    service declares [signature: string] and starts from [''], a value its
    callers test with [!parsed.signature]. *)
Definition smsSignatureValue (m : SMSService.ParsedSMS) : Supabase.jsonv :=
  match SMSService.signature m with
  | Some sg => Supabase.JStr sg
  | None => Supabase.JNull
  end.

Definition serviceSignatureValue (p : SupabaseVerificationService.ParsedMessage)
  : Supabase.jsonv :=
  Supabase.JStr (SupabaseVerificationService.signature p).

(** What the specification says of a message without a recognised tag, for
    the two extractors: a [null] signature, and the input as content once
    white space is ignored. *)
Definition untouchedAsStated (now : Z) (s : text) : Prop :=
  smsSignatureValue (SMSService.parseSMSMessage now s None) = Supabase.JNull /\
  serviceSignatureValue (SupabaseVerificationService.parseSMSMessage now s)
    = Supabase.JNull /\
  ignoringWhitespace (SMSService.extractedContent (SMSService.parseSMSMessage now s None))
    = ignoringWhitespace s /\
  ignoringWhitespace
    (SupabaseVerificationService.content
       (SupabaseVerificationService.parseSMSMessage now s))
    = ignoringWhitespace s.

(** The schemes whose token is given its [0x] back: the test the service
    makes on the source of the pattern. *)
Definition rePrefixed (re : RegExp) : bool :=
  JS.includes (lit "WEB3SIG:") (source re) || JS.includes (lit "ETH:") (source re).

Definition schemePrefix (re : RegExp) : text :=
  if rePrefixed re then lit "0x" else [].

(** The validity rule of the stand-in as the specification words it: on the
    normalised signature and the content as given. *)
Definition validAsStated (content signature : text) : bool :=
  (64 <=? length (JS.toLowerCase (SupabaseVerificationService.stripHexPrefix signature)))
  && (0 <? length content).

(** The class of the last repetition of a pattern: the characters its
    payload is made of. *)
Fixpoint payloadClass (pat : list node) : list (ascii * ascii) :=
  match pat with
  | [] => []
  | Rep cls _ _ :: rest =>
      match payloadClass rest with
      | [] => cls
      | later => later
      end
  | _ :: rest => payloadClass rest
  end.

(** A block [opening ++ payload ++ "]"] whose payload is capture [k + 1]:
    at least [lo] characters of the class [cls], all there are before the
    closing bracket (the character in front of them is not of the class). *)
Definition tagShape (cls : list (ascii * ascii)) (lo k : nat)
    (w : text) (marks : list nat) (opening payload : text) : Prop :=
  w = opening ++ payload ++ lit "]" /\
  lo <= length payload /\
  nth k (captures w marks) [] = payload /\
  forallb (classMatches true cls) payload = true /\
  exists head c, opening = head ++ [c] /\ classMatches true cls c = false.

(** The text around a match. *)
Definition around (m : MatchArray) (s : text) : text :=
  firstn (index m) s ++ skipn (index m + length (whole m)) s.

End Language.

(** ** Sample inputs *)

Module Samples.

Definition hex64 : string :=
  "a1b2c3d4e5f6789012345678901234567890abcdef1234567890abcdef123456".

Definition hex130 : string :=
  "1a2b3c4d5e6f7890123456789abcdef0123456789abcdef0123456789abcdef0123456789abcdef01234567890abcdef0123456789abcdef0123456789abcdef01".

(** One SIG tag in the middle of the text. *)
Definition greeting : text :=
  lit ("Hello [SIG:" ++ hex64 ++ "] world").

(** A SIG tag whose payload is too short. *)
Definition shortTag : text := lit "Hello [SIG:abcd] world ".

(** A DID tag followed by an ETH tag. *)
Definition didThenEth : text :=
  lit ("Alert [DID:did:web:bank.example#SIG:" ++ hex64 ++ "] [ETH:0x" ++ hex130 ++ "]").

(** A device that has never synchronised. *)
Definition handset : DataSyncService.Device :=
  DataSyncService.mkDevice false [] [] [] (lit "2025-01-01T00:00:00.000Z").

(** A device that synchronised the day before. *)
Definition synced : DataSyncService.Device :=
  DataSyncService.mkDevice false [(lit "lastSync", lit "2024-12-31T23:59:59.000Z")]
    [] [] (lit "2025-01-01T00:00:00.000Z").

(** The organizations query fails, the rest is answered. *)
Definition outage : list DataSyncService.answer :=
  [ DataSyncService.Fails (lit "Network request failed");
    DataSyncService.Settles None None;
    DataSyncService.Settles None None ].

(** Every query and every write succeeds. *)
Definition smooth : list DataSyncService.answer :=
  repeat (DataSyncService.Settles (Some (lit "[]")) None) 8.

(** No backend configured: the stand-in answers. *)
Definition offline : Supabase.World :=
  Supabase.mkWorld None None 1700000000000 [] [] [] 0 [].

Definition alice : Supabase.User := Supabase.mkUser (lit "user-alice").

(** A configured backend with a signed-in user and one verified
    organization whose wallet address was left empty. *)
Definition blankWalletOrg : Supabase.Organization :=
  Supabase.mkOrganization (lit "org-7") (lit "Helpdesk") [] (lit "verified")
    [(lit "phone", Supabase.JStr (lit "+15550100"))].

Definition hosted : Supabase.World :=
  Supabase.mkWorld (Some (lit "https://sigtext.supabase.co")) (Some alice)
    1700000000000 [blankWalletOrg] [] [] 0 [].

(** A backend that accepts whatever it is asked, for organization org-1. *)
Definition accepted (message_content signature sender_addr : text)
  : Supabase.completion (Supabase.Reply (list Supabase.VerificationRow)) :=
  Supabase.Fulfilled
    (Supabase.mkReply
       (Some [Supabase.mkVerificationRow true (Some (lit "org-1")) (Some (lit "Acme Bank"))
                (Some [(lit "verification_method", Supabase.JStr (lit "supabase_function"))])])
       None).

Definition quiet : SupabaseVerificationService.Env :=
  SupabaseVerificationService.mkEnv accepted
    Supabase.NoFault Supabase.NoFault Supabase.NoFault Supabase.NoFault.

End Samples.

(** ** What a call leaves behind *)

Module Effects.
Import Supabase.

(** The parts of the world no write of the client touches. *)
Definition sameBackend (w w' : World) : Prop :=
  supabaseUrl w' = supabaseUrl w /\ session w' = session w /\
  clock w' = clock w /\ organizations w' = organizations w.

Definition sameTables (w w' : World) : Prop :=
  verified_messages w' = verified_messages w /\
  message_verification_attempts w' = message_verification_attempts w.

(** What one run of the persister with the row [d] leaves behind: nothing,
    or one VerifiedMessage row [d], with or without one VerificationAttempt
    row that refers to it and names the signed-in user. *)
Definition persisted (save : fault) (d : MessageData) (w w' : World) : Prop :=
  sameTables w w' \/
  (configured w = true /\ save = NoFault /\
   exists vm,
     row vm = d /\
     verified_messages w' = verified_messages w ++ [vm] /\
     (message_verification_attempts w' = message_verification_attempts w \/
      exists at_ u,
        session w = Some u /\
        message_verification_attempts w' = message_verification_attempts w ++ [at_] /\
        message_id (attempt at_) = id vm /\
        attempted_by (attempt at_) = Some (user_id u))).

(** The row the verification service hands to the persister. *)
Definition verifiedRow (w : World) (content signature sender : text)
    (org : option text) (details : option blob) : MessageData :=
  {| organization_id := org;
     message_content := content;
     Supabase.signature := signature;
     sender_address := sender;
     verification_status := lit "verified";
     verification_details := details;
     message_hash := None;
     verified_at := Some (clock w) |}.

(** The sender hints the resolver cannot resolve: an empty hint together
    with no phone number, or with a phone number the directory has no row
    for. *)
Definition unresolvable (directory : fault) (hint : text) (phone : option text)
    (w : World) : Prop :=
  hint = [] /\
  match phone with
  | Some (c :: p) =>
      exists r, selectWalletByPhone directory (c :: p) w = (Fulfilled r, w) /\
                (data r = None \/ data r = Some [])
  | _ => True
  end.

(** A verified organization of the directory registered under [phone]. *)
Definition listedUnder (phone : text) (o : Organization) (w : World) : Prop :=
  In o (organizations w) /\
  field (lit "phone") (metadata o) = Some (JStr phone) /\
  org_verification_status o = lit "verified".

End Effects.

(** ** More of the regular expressions: anchors and replacement *)

Module RegexTools.
Import Regex.

(** Backtracking from [k] down to [lo], for a test. *)
Fixpoint anyDown (f : nat -> bool) (lo k : nat) : bool :=
  if k <? lo then false
  else f k || match k with
              | 0 => false
              | S k' => anyDown f lo k'
              end.

(** [/^pat$/.test(s)]: the pattern has to match from the first character
    to the last. *)
Fixpoint match_to_end (ic : bool) (pat : list node) (s : text) : bool :=
  match pat with
  | [] => match s with [] => true | _ :: _ => false end
  | Lit c :: pat' =>
      match s with
      | x :: s' => charMatches ic c x && match_to_end ic pat' s'
      | [] => false
      end
  | Rep cls lo hi :: pat' =>
      anyDown (fun k => match_to_end ic pat' (skipn k s))
              lo (runLength (classMatches ic cls) hi 0 s)
  | GroupOpen :: pat' => match_to_end ic pat' s
  | GroupClose :: pat' => match_to_end ic pat' s
  end.

(** [s.replace(re, '')] for a pattern without the [g] flag: the first match
    is cut out. *)
Definition removeMatch (re : RegExp) (s : text) : text :=
  match exec re s with
  | Some m => firstn (index m) s ++ skipn (index m + length (whole m)) s
  | None => s
  end.

(** [s.replace(/[cls]/g, '')] *)
Definition removeClass (cls : list (ascii * ascii)) (s : text) : text :=
  filter (fun c => negb (inRanges cls c)) s.

(** [s.replace(/\s+/g, ' ')] *)
Fixpoint squeeze (s : text) : text :=
  match s with
  | [] => []
  | c :: s' =>
      if JS.isWhiteSpace c then
        match s' with
        | c' :: _ => if JS.isWhiteSpace c' then squeeze s' else " "%char :: squeeze s'
        | [] => [" "%char]
        end
      else c :: squeeze s'
  end.

(** White space is single blanks, none next to another. *)
Fixpoint tidy (s : text) : bool :=
  match s with
  | [] => true
  | c :: s' =>
      (if JS.isWhiteSpace c
       then Ascii.eqb c " "
            && match s' with c' :: _ => negb (JS.isWhiteSpace c') | [] => true end
       else true)
      && tidy s'
  end.

(** The characters a node can consume. *)
Definition consumes (ic : bool) (x : ascii) (nd : node) : bool :=
  match nd with
  | Lit c => charMatches ic c x
  | Rep cls _ _ => classMatches ic cls x
  | GroupOpen | GroupClose => false
  end.

(** [\d] *)
Definition digitClass : list (ascii * ascii) := [range "0" "9"].

(** [\s], the code units below 256 *)
Definition spaceClass : list (ascii * ascii) :=
  [ (ascii_of_nat 9, ascii_of_nat 13); (ascii_of_nat 32, ascii_of_nat 32);
    (ascii_of_nat 160, ascii_of_nat 160) ].

End RegexTools.

(** ** services/SMSService: the helpers around the extractor *)

Module SMSTools.
Import Regex RegexTools.

Inductive signatureType : Type := hex | base64 | web3 | ethereum.

(** The table [signatures] of [generateTestSMS]. *)
Definition signatures (t : signatureType) : text :=
  match t with
  | hex =>
      lit "[SIG:a1b2c3d4e5f6789012345678901234567890abcdef1234567890abcdef123456]"
  | base64 =>
      lit "[SIGNATURE:SGVsbG8gV29ybGQgVGhpcyBJcyBBIFRlc3QgU2lnbmF0dXJlIEZvciBEZW1vbnN0cmF0aW9u]"
  | web3 =>
      lit "[WEB3SIG:0x1a2b3c4d5e6f7890123456789abcdef0123456789abcdef0123456789abcdef0123456789abcdef0]"
  | ethereum =>
      lit "[ETH:0x1a2b3c4d5e6f7890123456789abcdef0123456789abcdef0123456789abcdef0123456789abcdef01234567890abcdef0123456789abcdef0123456789abcdef]"
  end.

(** [generateTestSMS(message, signatureType)] *)
Definition generateTestSMS (message : text) (t : signatureType) : text :=
  message ++ lit " " ++ signatures t.

(** [cleanMessageContent(messageText)] *)
Definition cleanMessageContent (messageText : text) : text :=
  JS.trim
    (squeeze
       (fold_left (fun cleaned p => removeMatch (SMSService.pattern p) cleaned)
                  SMSService.signaturePatterns messageText)).

Record SenderInfo : Type := mkSenderInfo {
  phoneNumber : option text;
  displayName : option text;
  isShortCode : option bool
}.

(** [\d\s\-\(\)] *)
Definition phoneClass : list (ascii * ascii) :=
  digitClass ++ spaceClass ++ [one "-"; one "("; one ")"].

(** [\s\-\(\)] *)
Definition separatorClass : list (ascii * ascii) :=
  spaceClass ++ [one "-"; one "("; one ")"].

(** /^\+?[\d\s\-\(\)]+$/ *)
Definition phoneRegex : list node :=
  [Rep [one "+"] 0 (Some 1); Rep phoneClass 1 None].

(** /^\d{3,6}$/ *)
Definition shortCodeRegex : list node := [Rep digitClass 3 (Some 6)].

(** [extractSenderInfo(sender)] *)
Definition extractSenderInfo (sender : text) : SenderInfo :=
  if match_to_end false shortCodeRegex sender then
    mkSenderInfo (Some sender) None (Some true)
  else if match_to_end false phoneRegex sender then
    mkSenderInfo (Some (removeClass separatorClass sender)) None (Some false)
  else
    mkSenderInfo None (Some sender) (Some false).

End SMSTools.

(** ** The hosted procedures of the migration *)

Module Hosted.
Import Regex RegexTools Supabase.

(** A row of [organization_wallets]; [is_active] may be NULL. *)
Record OrganizationWallet : Type := mkWallet {
  ow_organization_id : text;
  ow_wallet_address : text;
  is_active : option bool
}.

(** A row of what [get_organization_by_wallet] returns (the column
    [public_key] is left out). *)
Record WalletRow : Type := mkWalletRow {
  r_id : text;
  r_name : text;
  r_verification_status : text
}.

(** The WHERE clause of [get_organization_by_wallet]. *)
Definition reachable (wallets : list OrganizationWallet) (wallet_addr : text)
    (o : Organization) : bool :=
  textEqb (wallet_address o) wallet_addr
  || existsb (fun ow =>
                textEqb (ow_organization_id ow) (org_id o)
                && textEqb (ow_wallet_address ow) wallet_addr
                && match is_active ow with Some true => true | _ => false end)
             wallets.

(** [get_organization_by_wallet(wallet_addr)] *)
Definition get_organization_by_wallet (orgs : list Organization)
    (wallets : list OrganizationWallet) (wallet_addr : text) : list WalletRow :=
  map (fun o => mkWalletRow (org_id o) (org_name o) (org_verification_status o))
      (filter (reachable wallets wallet_addr) orgs).

(** ^[0-9a-fA-F]{128,}$ *)
Definition signatureFormat : list node := [Rep hexClass 128 None].

(** [verify_message_signature(message_content, signature, sender_addr)]:
    the one row it returns.  [now] is [extract(epoch from now())] and
    [digest] the SHA-256 of the content in hexadecimal. *)
Definition verify_message_signature (now : Z) (digest : text -> text)
    (orgs : list Organization) (wallets : list OrganizationWallet)
    (message_content signature sender_addr : text) : VerificationRow :=
  match filter (fun r => textEqb (r_verification_status r) (lit "verified"))
               (get_organization_by_wallet orgs wallets sender_addr) with
  | [] =>
      mkVerificationRow false None None
        (Some [(lit "error", JStr (lit "Organization not found or not verified"))])
  | org_record :: _ =>
      let verification_result :=
        [ (lit "signature_length", JNum (Z.of_nat (length signature)));
          (lit "message_hash", JStr (digest message_content));
          (lit "verified_at", JNum now);
          (lit "verification_method", JStr (lit "supabase_function")) ] in
      if match_to_end false signatureFormat signature then
        mkVerificationRow true (Some (r_id org_record)) (Some (r_name org_record))
          (Some verification_result)
      else
        mkVerificationRow false (Some (r_id org_record)) (Some (r_name org_record))
          (Some (verification_result
                   ++ [(lit "error", JStr (lit "Invalid signature format"))]))
  end.

(** What [supabase.rpc('verify_message_signature', ...)] answers when the
    call goes through. *)
Definition rpc (now : Z) (digest : text -> text)
    (orgs : list Organization) (wallets : list OrganizationWallet)
    (message_content signature sender_addr : text)
  : completion (Reply (list VerificationRow)) :=
  Fulfilled
    (mkReply
       (Some [verify_message_signature now digest orgs wallets
                message_content signature sender_addr])
       None).

End Hosted.

Module HostedSamples.

(** A verified organization registered under a checksummed address. *)
Definition acme : Supabase.Organization :=
  Supabase.mkOrganization (lit "org-1") (lit "Acme Bank")
    (lit "0x52908400098527886E0F7030069857D2E4169EE7") (lit "verified") [].

Definition registry : Supabase.World :=
  Supabase.mkWorld (Some (lit "https://sigtext.supabase.co")) (Some Samples.alice)
    1700000000000 [acme] [] [] 0 [].

(** The hosted procedure over that table answers the calls. *)
Definition live : SupabaseVerificationService.Env :=
  SupabaseVerificationService.mkEnv
    (Hosted.rpc 0 (fun _ => []) [acme] [])
    Supabase.NoFault Supabase.NoFault Supabase.NoFault Supabase.NoFault.

(** The second organization of [addSampleOrganizations], with an id of the
    kind the table gives. *)
Definition techSolutions : Supabase.Organization :=
  Supabase.mkOrganization (lit "b1f0c7e2-8a4d-4f53-9c1b-2d5e6f708192")
    (lit "Tech Solutions Inc") (lit "0x2222222222222222222222222222222222222222")
    (lit "verified") [].

(** The second message of [addSampleMessages] and its signature, 128
    hexadecimal digits. *)
Definition securityAlert : text := lit "Security alert: New device login detected".

Definition hex128 : string :=
  "1a2b3c4d5e6f7890123456789abcdef0123456789abcdef0123456789abcdef0123456789abcdef01234567890abcdef0123456789abcdef0123456789abcdef".

(** A configured backend that holds the organization, with a signed-in
    user. *)
Definition seeded : Supabase.World :=
  Supabase.mkWorld (Some (lit "https://sigtext.supabase.co")) (Some Samples.alice)
    1700000000000 [techSolutions] [] [] 0 [].

(** The hosted procedure over that table, and writes that go through. *)
Definition backend : SupabaseVerificationService.Env :=
  SupabaseVerificationService.mkEnv
    (Hosted.rpc 1700000000 (fun _ => []) [techSolutions] [])
    Supabase.NoFault Supabase.NoFault Supabase.NoFault Supabase.NoFault.


End HostedSamples.

(** ** The organization lookups of the client and of the service *)

Module Organizations.
Import Supabase Hosted.

(** [getOrganizationByWallet(walletAddress)] of lib/supabase; [rpc] is what
    the hosted procedure [get_organization_by_wallet] answers to this
    call. *)
Definition getOrganizationByWallet (rpc : completion (Reply (list WalletRow)))
    (walletAddress : text) : M (Reply WalletRow) :=
  w <- get ;;
  if negb (configured w) then
    if textEqb walletAddress (lit "0x1111111111111111111111111111111111111111") then
      ret (mkReply
             (Some (mkWalletRow (lit "mock-org-1") (lit "Acme Bank") (lit "verified")))
             None)
    else ret (mkReply None None)
  else
    match rpc with
    | Rejected e => throw _ e
    | Fulfilled r =>
        ret (mkReply
               match data r with
               | Some (first :: _) => Some first
               | _ => None
               end
               (error r))
    end.

(** [getOrganizationInfo(walletAddress)] of the verification service *)
Definition getOrganizationInfo (rpc : completion (Reply (list WalletRow)))
    (walletAddress : text) : M (option WalletRow) :=
  tryCatch
    (r <- getOrganizationByWallet rpc walletAddress ;;
     match error r with
     | Some _ => consoleError (lit "Organization lookup error:") ;;; ret None
     | None => ret (data r)
     end)
    (fun _ => consoleError (lit "Organization info error:") ;;; ret None).

(** [isVerifiedSender(walletAddress)] *)
Definition isVerifiedSender (rpc : completion (Reply (list WalletRow)))
    (walletAddress : text) : M bool :=
  org <- getOrganizationInfo rpc walletAddress ;;
  ret match org with
      | Some o => textEqb (r_verification_status o) (lit "verified")
      | None => false
      end.

(** What [supabase.rpc('get_organization_by_wallet', ...)] answers when the
    call goes through. *)
Definition rpcOrganization (orgs : list Organization)
    (wallets : list OrganizationWallet) (wallet_addr : text)
  : completion (Reply (list WalletRow)) :=
  Fulfilled (mkReply (Some (get_organization_by_wallet orgs wallets wallet_addr)) None).

End Organizations.

(** ** services/DataSyncService: the status, the cache and its removal *)

Module DataSyncTools.
Import DataSyncService.

(** [getSyncStatus()]: the block run when [getItem('lastSync')] settles. *)
Definition getSyncStatus (a : answer) (d : Device) : pc * Device :=
  resume a AwaitStatus d.

(** [forcSync()] *)
Definition forcSync (answers : list answer) (d : Device) : pc * Device :=
  syncData answers d.

(** [AsyncStorage.multiRemove(keys)] *)
Definition multiRemove (keys : list text) (st : list (text * text)) : list (text * text) :=
  filter (fun kv => negb (existsb (Supabase.textEqb (fst kv)) keys)) st.

Definition cacheKeys : list text :=
  [lit "cached_organizations"; lit "cached_messages"; lit "lastSync"].

(** [clearCache()]: the block run when [multiRemove] settles.  The call
    itself never rejects. *)
Definition clearCache (a : answer) (d : Device) : Device :=
  match a with
  | Settles _ _ =>
      mkDevice (syncInProgress d) (multiRemove cacheKeys (storage d))
               (requests d) (console d) (clock d)
  | Fails _ => consoleError (lit "Error clearing cache:") d
  end.

Inductive cacheType : Type := organizations | messages.

Definition typeName (t : cacheType) : text :=
  match t with
  | organizations => lit "organizations"
  | messages => lit "messages"
  end.

(** [getCachedData(type)]: the block run when [getItem] settles.  [parse]
    is [JSON.parse], [None] when it throws, and [empty] the array [[]]. *)
Definition getCachedData (A : Type) (parse : text -> option A) (empty : A)
    (type : cacheType) (a : answer) (d : Device) : A * Device :=
  match a with
  | Settles _ _ =>
      match getItem (lit "cached_" ++ typeName type) (storage d) with
      | Some (c :: cached) =>
          match parse (c :: cached) with
          | Some v => (v, d)
          | None =>
              (empty, consoleError (lit "Error getting cached " ++ typeName type ++ lit ":") d)
          end
      | _ => (empty, d)
      end
  | Fails _ =>
      (empty, consoleError (lit "Error getting cached " ++ typeName type ++ lit ":") d)
  end.

(** Where a call that took the guard stands, against the device [d0] it
    started on. *)
Definition untouched (d0 d : Device) : Prop :=
  storage d = storage d0 /\ requests d = requests d0 ++ [lit "organizations"].

Definition organizationsStored (d0 d : Device) : Prop :=
  exists o,
    storage d = setItem (lit "cached_organizations") o (storage d0) /\
    requests d = requests d0 ++ [lit "organizations"; lit "verified_messages"].

Definition bothStored (d0 d : Device) : Prop :=
  exists o m,
    storage d = setItem (lit "cached_messages") m
                  (setItem (lit "cached_organizations") o (storage d0)) /\
    requests d = requests d0 ++ [lit "organizations"; lit "verified_messages"].

Definition stamped (d0 d : Device) : Prop :=
  exists o m,
    storage d = setItem (lit "lastSync") (clock d0)
                  (setItem (lit "cached_messages") m
                     (setItem (lit "cached_organizations") o (storage d0))) /\
    requests d = requests d0 ++ [lit "organizations"; lit "verified_messages"].

Definition gaveUp (d0 d : Device) : Prop :=
  untouched d0 d \/ organizationsStored d0 d \/ bothStored d0 d.

Definition closing (d0 : Device) (errs : list text) (d : Device) : Prop :=
  (errs = [] /\ stamped d0 d) \/ (exists e, errs = [e] /\ gaveUp d0 d).

Definition progress (d0 : Device) (p : pc) (d : Device) : Prop :=
  clock d = clock d0 /\
  match p with
  | AwaitStatus => False
  | AwaitOrganizations | AwaitStoreOrganizations _ | OrganizationsSettled (Some _) =>
      untouched d0 d
  | OrganizationsSettled None =>
      exists o,
        storage d = setItem (lit "cached_organizations") o (storage d0) /\
        requests d = requests d0 ++ [lit "organizations"]
  | AwaitMessages | AwaitStoreMessages _ | MessagesSettled (Some _) =>
      organizationsStored d0 d
  | MessagesSettled None => bothStored d0 d
  | AwaitStoreLastSync stamp => stamp = clock d0 /\ bothStored d0 d
  | AwaitFinalStatus errs => closing d0 errs d
  | Returned st =>
      closing d0 (errors st) d /\
      lastSync st = orNever (getItem (lit "lastSync") (storage d)) /\
      pendingUploads st = 0 /\ status_syncInProgress st = false
  | Thrown _ => True
  end.

(** What the statuses of the calls of a configuration have in common. *)
Definition wellFormed (p : pc) : Prop :=
  match p with
  | AwaitFinalStatus errs => length errs <= 1
  | Returned st =>
      lastSync st <> [] /\ pendingUploads st = 0 /\ length (errors st) <= 1 /\
      (status_syncInProgress st = true -> errors st = [])
  | _ => True
  end.

End DataSyncTools.

(** ** services/AlgorandService: the address test, the demo hash and the
    stand-in verification *)

Module AlgorandService.
Import Regex RegexTools.

(** ToInt32 *)
Definition toInt32 (z : Z) : Z :=
  ((z + 2147483648) mod 4294967296 - 2147483648)%Z.

(** [x << k] *)
Definition shl (x k : Z) : Z := toInt32 (Z.shiftl (toInt32 x) k).

(** [a & b] *)
Definition band (a b : Z) : Z := Z.land (toInt32 a) (toInt32 b).

(** The body of the loop of [hashMessage]. *)
Definition hashStep (hash : Z) (char : ascii) : Z :=
  let hash := (shl hash 5 - hash + Z.of_nat (JS.code char))%Z in
  band hash hash.

Definition hashValue (message : text) : Z := fold_left hashStep message 0%Z.

Definition hexDigit (z : Z) : ascii :=
  nth (Z.to_nat z) (lit "0123456789abcdef") "0"%char.

Fixpoint hexDigits (fuel : nat) (z : Z) : text :=
  match fuel with
  | 0 => []
  | S fuel' =>
      (if (z <? 16)%Z then [] else hexDigits fuel' (z / 16)%Z)
        ++ [hexDigit (z mod 16)%Z]
  end.

(** [z.toString(16)] for an integer [z >= 0]. *)
Definition toString16 (z : Z) : text :=
  hexDigits (S (Z.to_nat (Z.log2 z))) z.

(** [s.padStart(n, c)] *)
Definition padStart (n : nat) (c : ascii) (s : text) : text :=
  repeat c (n - length s) ++ s.

(** [hashMessage(message)] *)
Definition hashMessage (message : text) : text :=
  padStart 8 "0"%char (toString16 (Z.abs (hashValue message))).

(** [A-Z2-7] *)
Definition base32Class : list (ascii * ascii) := [range "A" "Z"; range "2" "7"].

(** /^[A-Z2-7]{58}$/ *)
Definition algorandAddressRegex : list node := [Rep base32Class 58 (Some 58)].

(** [isValidAddress(address)] *)
Definition isValidAddress (address : text) : bool :=
  if negb (JS.truthy address) then false
  else
    let address := JS.trim address in
    if negb (length address =? 58) then false
    else match_to_end false algorandAddressRegex address.

Record Details : Type := mkDetails {
  algorithm : text;
  messageHash : text;
  verifiedAt : text;
  network : text;
  publicKey : text
}.

Record Verdict : Type := mkVerdict {
  isValid : bool;
  details : Details;
  error : option text
}.

(** [verifyAlgorandMessage(message, signature, publicKey)] once its timer
    has fired; [now] is [new Date().toISOString()] and [network] the
    configured one. *)
Definition verifyAlgorandMessage (now network_ : text)
    (message signature publicKey_ : text) : Verdict :=
  let isValidSignature :=
    (64 <=? length signature) && match_to_end true [Rep hexClass 1 None] signature in
  let isValidKey := 64 <=? length publicKey_ in
  let isValidMessage := 0 <? length message in
  let isValid_ := isValidSignature && isValidKey && isValidMessage in
  mkVerdict isValid_
    (mkDetails (lit "Ed25519") (hashMessage message) now network_
       (JS.substring 0 16 publicKey_ ++ lit "..."))
    (if isValid_ then None
     else Some (lit "Invalid signature format or verification failed")).

(** The number a string of hexadecimal digits denotes. *)
Definition digitValue (c : ascii) : Z :=
  match JS.indexOf [c] (lit "0123456789abcdef") with
  | Some i => Z.of_nat i
  | None => 0%Z
  end.

Definition hexValue (s : text) : Z :=
  fold_left (fun acc c => (16 * acc + digitValue c)%Z) s 0%Z.

(** [0-9a-f] *)
Definition lowerHex : list (ascii * ascii) := [range "0" "9"; range "a" "f"].

(** The polynomial in 31 the loop computes, before it is wrapped. *)
Definition polynomial (message : text) : Z :=
  fold_left (fun h c => (31 * h + Z.of_nat (JS.code c))%Z) message 0%Z.

End AlgorandService.

(** * Properties *)

Unset Implicit Arguments.

(** ** Strings *)

Lemma startsWith_app (p rest : text) : JS.startsWith p (p ++ rest) = true.
Proof.
  induction p as [|a p IH]; simpl; [reflexivity|].
  unfold JS.eqbChar. rewrite Ascii.eqb_refl. exact IH.
Qed.

Lemma startsWith_inv (p s : text) :
  JS.startsWith p s = true -> s = p ++ skipn (length p) s.
Proof.
  revert s. induction p as [|a p IH]; intros s H; simpl in *; [reflexivity|].
  destruct s as [|b s]; [discriminate|].
  apply andb_true_iff in H. destruct H as [Hab H].
  unfold JS.eqbChar in Hab. apply Ascii.eqb_eq in Hab. subst b.
  f_equal. apply IH. exact H.
Qed.

Lemma indexOf_spec (p s : text) (i : nat) :
  JS.indexOf p s = Some i ->
  i <= length s /\ JS.startsWith p (skipn i s) = true /\
  forall j, j < i -> JS.startsWith p (skipn j s) = false.
Proof.
  revert i. induction s as [|c s IH]; intros i H.
  - simpl in H. destruct (JS.startsWith p []) eqn:E; [|discriminate].
    injection H as <-. simpl. repeat split; [lia | exact E | intros j Hj; lia].
  - simpl in H. destruct (JS.startsWith p (c :: s)) eqn:E.
    + injection H as <-. repeat split; [simpl; lia | exact E | intros j Hj; lia].
    + destruct (JS.indexOf p s) as [k|] eqn:Ek; [|discriminate].
      simpl in H. injection H as <-.
      destruct (IH k eq_refl) as (Hk & Hs & Hmin).
      repeat split; [simpl; lia | exact Hs |].
      intros [|j] Hj; [exact E|]. simpl. apply Hmin. lia.
Qed.

Lemma indexOf_found (p s : text) (i : nat) :
  i <= length s -> JS.startsWith p (skipn i s) = true ->
  exists k, JS.indexOf p s = Some k /\ k <= i.
Proof.
  revert i. induction s as [|c s IH]; intros i Hi H.
  - assert (i = 0) by (simpl in Hi; lia). subst i. simpl in *. rewrite H.
    exists 0. split; [reflexivity | lia].
  - simpl. destruct (JS.startsWith p (c :: s)) eqn:E.
    + exists 0. split; [reflexivity | lia].
    + destruct i as [|i]; [simpl in H; congruence|].
      simpl in Hi, H. destruct (IH i) as (k & Hk & Hle); [lia | exact H |].
      rewrite Hk. exists (S k). split; [reflexivity | lia].
Qed.

(** ** The matcher against the language of its pattern *)

Section MatcherFacts.
Import Regex Language.

Lemma firstDown_some (A : Type) (f : nat -> option A) (lo k : nat) (r : A) :
  firstDown f lo k = Some r -> exists j, lo <= j /\ j <= k /\ f j = Some r.
Proof.
  induction k as [|k IH]; simpl.
  - destruct (0 <? lo) eqn:E; [discriminate|]. apply Nat.ltb_ge in E.
    destruct (f 0) eqn:F; [|discriminate]. intros [= <-]. exists 0. auto.
  - destruct (S k <? lo) eqn:E; [discriminate|]. apply Nat.ltb_ge in E.
    destruct (f (S k)) eqn:F.
    + intros [= <-]. exists (S k). auto.
    + intros H. destruct (IH H) as (j & ? & ? & ?). exists j. auto.
Qed.

Lemma firstDown_none (A : Type) (f : nat -> option A) (lo k j : nat) :
  firstDown f lo k = None -> lo <= j -> j <= k -> f j = None.
Proof.
  induction k as [|k IH]; simpl; intros H Hlo Hk.
  - assert (j = 0) by lia. subst j.
    destruct (0 <? lo) eqn:E; [apply Nat.ltb_lt in E; lia|].
    destruct (f 0); [discriminate | reflexivity].
  - destruct (S k <? lo) eqn:E; [apply Nat.ltb_lt in E; lia|].
    destruct (f (S k)) eqn:F; [discriminate|].
    destruct (Nat.eq_dec j (S k)) as [->|Hne]; [exact F|].
    apply IH; [exact H | exact Hlo | lia].
Qed.

Lemma runLength_le (ok : ascii -> bool) (hi : option nat) (k : nat) (s : text) :
  runLength ok hi k s <= length s.
Proof.
  revert k. induction s as [|x s IH]; intros k; simpl; [lia|].
  destruct (ok x && capOf hi k); [specialize (IH (S k)); lia | lia].
Qed.

Lemma runLength_prefix (ok : ascii -> bool) (hi : option nat) (s : text) :
  forall k j, within hi k -> j <= runLength ok hi k s ->
    forallb ok (firstn j s) = true /\ within hi (k + j).
Proof.
  induction s as [|x s IH]; intros k j Hk Hj; simpl in Hj.
  - assert (j = 0) by lia. subst j. rewrite Nat.add_0_r. auto.
  - destruct j as [|j]; [rewrite Nat.add_0_r; auto|].
    destruct (ok x) eqn:Ex; simpl in Hj; [|lia].
    destruct (capOf hi k) eqn:Ec; [|lia].
    destruct (IH (S k) j) as [Hall Hw].
    + destruct hi as [h|]; simpl in *; [apply Nat.ltb_lt in Ec; lia | exact I].
    + lia.
    + simpl. rewrite Ex, Hall. split; [reflexivity|].
      replace (k + S j) with (S k + j) by lia. exact Hw.
Qed.

Lemma runLength_covers (ok : ascii -> bool) (hi : option nat) (r rest : text) :
  forall k, forallb ok r = true -> within hi (k + length r) ->
    length r <= runLength ok hi k (r ++ rest).
Proof.
  induction r as [|x r IH]; intros k Hall Hw; simpl in *; [lia|].
  apply andb_true_iff in Hall. destruct Hall as [Hx Hall]. rewrite Hx. simpl.
  assert (Hc : capOf hi k = true).
  { destruct hi as [h|]; simpl in *; [apply Nat.ltb_lt; lia | reflexivity]. }
  rewrite Hc. apply le_n_S. apply IH; [exact Hall|].
  replace (S k + length r) with (k + S (length r)) by lia. exact Hw.
Qed.

Lemma firstn_plus (A : Type) (j n : nat) (s : list A) :
  firstn (j + n) s = firstn j s ++ firstn n (skipn j s).
Proof.
  revert s. induction j as [|j IH]; intros s; simpl; [reflexivity|].
  destruct s as [|x s]; simpl; [now rewrite firstn_nil | now rewrite IH].
Qed.

Lemma shift_some (k : nat) (r : option (nat * list nat)) (n : nat) (marks : list nat) :
  shift k r = Some (n, marks) ->
  exists n' marks', r = Some (n', marks') /\ n = k + n' /\ marks = map (Nat.add k) marks'.
Proof.
  destruct r as [[n' marks']|]; simpl; [|discriminate].
  intros [= <- <-]. eauto.
Qed.

Lemma mark_some (r : option (nat * list nat)) (n : nat) (marks : list nat) :
  mark r = Some (n, marks) -> exists marks', r = Some (n, marks') /\ marks = 0 :: marks'.
Proof.
  destruct r as [[n' marks']|]; simpl; [|discriminate].
  intros [= <- <-]. eauto.
Qed.

(** What the matcher accepts is a word of the pattern. *)
Lemma match_here_sound (ic : bool) (pat : list node) :
  forall s n marks, match_here ic pat s = Some (n, marks) ->
    n <= length s /\ Matches ic pat (firstn n s) marks.
Proof.
  induction pat as [|nd pat IH]; intros s n marks H.
  - simpl in H. injection H as <- <-. simpl. split; [lia | constructor].
  - destruct nd as [c|cls lo hi| |]; simpl in H.
    + destruct s as [|x s]; [discriminate|].
      destruct (charMatches ic c x) eqn:Ec; [|discriminate].
      apply shift_some in H. destruct H as (n' & marks' & H & -> & ->).
      destruct (IH _ _ _ H) as [Hn HM].
      split; [simpl; lia|]. simpl. now constructor.
    + apply firstDown_some in H. destruct H as (j & Hlo & Hj & H).
      apply shift_some in H. destruct H as (n' & marks' & H & -> & ->).
      destruct (IH _ _ _ H) as [Hn HM].
      pose proof (runLength_le (classMatches ic cls) hi 0 s) as Hlen.
      destruct (runLength_prefix (classMatches ic cls) hi s 0 j) as [Hall Hw];
        [destruct hi; simpl; [lia | exact I] | exact Hj |].
      rewrite length_skipn in Hn.
      split; [lia|].
      rewrite firstn_plus.
      assert (Hl : length (firstn j s) = j) by (rewrite length_firstn; lia).
      rewrite <- Hl at 3.
      constructor; [exact Hall | lia | now rewrite Hl | exact HM].
    + apply mark_some in H. destruct H as (marks' & H & ->).
      destruct (IH _ _ _ H). split; [assumption | now constructor].
    + apply mark_some in H. destruct H as (marks' & H & ->).
      destruct (IH _ _ _ H). split; [assumption | now constructor].
Qed.

(** A text that begins with a word of the pattern is accepted. *)
Lemma match_here_complete (ic : bool) (pat : list node) (w : text) (marks : list nat) :
  Matches ic pat w marks -> forall rest, match_here ic pat (w ++ rest) <> None.
Proof.
  induction 1 as [|c x pat w marks Hc HM IH|cls lo hi pat r w marks Hall Hlo Hhi HM IH
                  |pat w marks HM IH|pat w marks HM IH]; intros rest; simpl.
  - discriminate.
  - rewrite Hc. specialize (IH rest).
    destruct (match_here ic pat (w ++ rest)) as [[n m]|]; [discriminate | congruence].
  - intros Hnone.
    apply (firstDown_none _ _ _ _ (length r)) in Hnone.
    + rewrite <- app_assoc, skipn_app, skipn_all, Nat.sub_diag in Hnone. simpl in Hnone.
      specialize (IH rest).
      destruct (match_here ic pat (w ++ rest)) as [[n m]|]; [discriminate | congruence].
    + exact Hlo.
    + rewrite <- app_assoc. apply runLength_covers; [exact Hall | exact Hhi].
  - specialize (IH rest).
    destruct (match_here ic pat (w ++ rest)) as [[n m]|]; [discriminate | congruence].
  - specialize (IH rest).
    destruct (match_here ic pat (w ++ rest)) as [[n m]|]; [discriminate | congruence].
Qed.

Lemma search_some (ic : bool) (pat : list node) (s : text) :
  forall i m, search ic pat s i = Some m ->
    exists k n marks,
      k <= length s /\ index m = i + k /\
      match_here ic pat (skipn k s) = Some (n, marks) /\
      whole m = firstn n (skipn k s) /\
      groups m = captures (whole m) marks /\
      forall j, j < k -> match_here ic pat (skipn j s) = None.
Proof.
  induction s as [|x s IH]; intros i m H; simpl in H.
  - destruct (match_here ic pat []) as [[n marks]|] eqn:E; [|discriminate].
    injection H as <-. exists 0, n, marks. simpl.
    repeat split; [lia | lia | exact E | intros j Hj; lia].
  - destruct (match_here ic pat (x :: s)) as [[n marks]|] eqn:E.
    + injection H as <-. exists 0, n, marks. simpl.
      repeat split; [lia | lia | exact E | intros j Hj; lia].
    + destruct (IH _ _ H) as (k & n & marks & Hk & Hi & Hm & Hw & Hg & Hmin).
      exists (S k), n, marks. simpl.
      repeat split; [lia | lia | exact Hm | exact Hw | exact Hg |].
      intros [|j] Hj; [exact E|]. simpl. apply Hmin. lia.
Qed.

Lemma search_none (ic : bool) (pat : list node) (s : text) :
  forall i, search ic pat s i = None ->
    forall j, j <= length s -> match_here ic pat (skipn j s) = None.
Proof.
  induction s as [|x s IH]; intros i H j Hj; simpl in H.
  - destruct (match_here ic pat []) as [[n marks]|] eqn:E; [discriminate|].
    assert (j = 0) by (simpl in Hj; lia). subst j. exact E.
  - destruct (match_here ic pat (x :: s)) as [[n marks]|] eqn:E; [discriminate|].
    destruct j as [|j]; [exact E|]. simpl. apply (IH _ H). simpl in Hj. lia.
Qed.

(** A match is a block of the text, in the language of the pattern, and no
    earlier offset begins one. *)
Lemma exec_sound (re : RegExp) (s : text) (m : MatchArray) :
  exec re s = Some m ->
  index m + length (whole m) <= length s /\
  s = firstn (index m) s ++ whole m ++ skipn (index m + length (whole m)) s /\
  exists marks,
    Matches (ignoreCase re) (nodes re) (whole m) marks /\
    groups m = captures (whole m) marks.
Proof.
  unfold exec. intros H.
  apply search_some in H.
  destruct H as (k & n & marks & Hk & Hi & Hm & Hw & Hg & _).
  simpl in Hi. subst k.
  apply match_here_sound in Hm. destruct Hm as [Hn HM].
  rewrite length_skipn in Hn.
  assert (Hl : length (whole m) = n).
  { rewrite Hw, length_firstn, length_skipn. lia. }
  split; [lia|]. split.
  - rewrite Hl, Hw.
    rewrite <- (firstn_skipn (index m) s) at 1. f_equal.
    rewrite <- (firstn_skipn n (skipn (index m) s)) at 1. f_equal.
    rewrite skipn_skipn. f_equal. lia.
  - exists marks. rewrite Hw. split; [exact HM | now rewrite <- Hw].
Qed.

Lemma exec_complete (re : RegExp) (s : text) :
  containsTag re s -> exec re s <> None.
Proof.
  intros (pre & w & post & marks & -> & HM) Hnone.
  unfold exec in Hnone.
  apply (search_none _ _ _ _) with (j := length pre) in Hnone.
  - rewrite skipn_app, skipn_all, Nat.sub_diag in Hnone. simpl in Hnone.
    exact (match_here_complete _ _ _ _ HM post Hnone).
  - rewrite length_app. lia.
Qed.

(** [pattern.test(s)] decides whether the text holds a block of the
    pattern. *)
Lemma test_true_iff (re : RegExp) (s : text) : test re s = true <-> containsTag re s.
Proof.
  unfold test. split.
  - destruct (exec re s) as [m|] eqn:E; [|discriminate]. intros _.
    destruct (exec_sound _ _ _ E) as (_ & Hs & marks & HM & _).
    exists (firstn (index m) s), (whole m), (skipn (index m + length (whole m)) s), marks.
    split; assumption.
  - intros H. apply exec_complete in H. destruct (exec re s); [reflexivity | congruence].
Qed.

(** [s.replace(match[0], '')] removes the matched block itself: the first
    occurrence of its text is the one the pattern found. *)
Lemma replace_match (re : RegExp) (s : text) (m : MatchArray) :
  exec re s = Some m ->
  JS.replace (whole m) [] s =
    firstn (index m) s ++ skipn (index m + length (whole m)) s.
Proof.
  intros H. unfold exec in H.
  destruct (search_some _ _ _ _ _ H) as (k & n & marks & Hk & Hi & Hm & Hw & Hg & Hmin).
  simpl in Hi. subst k.
  assert (Hst : JS.startsWith (whole m) (skipn (index m) s) = true).
  { rewrite Hw. rewrite <- (firstn_skipn n (skipn (index m) s)) at 2.
    apply startsWith_app. }
  destruct (indexOf_found _ _ _ Hk Hst) as (k' & Hk' & Hle).
  unfold JS.replace. rewrite Hk'. simpl.
  destruct (Nat.eq_dec k' (index m)) as [->|Hne]; [reflexivity|].
  exfalso.
  destruct (indexOf_spec _ _ _ Hk') as (_ & Hst' & _).
  apply startsWith_inv in Hst'.
  assert (Hlt : k' < index m) by lia.
  specialize (Hmin _ Hlt). rewrite Hst' in Hmin.
  destruct (match_here_sound _ _ _ _ _ Hm) as [_ HM]. rewrite <- Hw in HM.
  exact (match_here_complete _ _ _ _ HM _ Hmin).
Qed.

End MatcherFacts.

(** ** The shape of a recognised tag *)

Section TagShape.
Import Regex Language.

Lemma firstn_length_app (A : Type) (r t : list A) : firstn (length r) (r ++ t) = r.
Proof.
  rewrite firstn_app, Nat.sub_diag, firstn_all. simpl. apply app_nil_r.
Qed.

Lemma closing_bracket (y : ascii) :
  charMatches true "]"%char y = true -> y = "]"%char.
Proof.
  destruct y as [[] [] [] [] [] [] [] []]; vm_compute; intros H;
    solve [reflexivity | discriminate H].
Qed.

(** The separators in front of a payload are not payload characters. *)
Lemma colon_not_hex (c : ascii) :
  charMatches true ":"%char c = true -> classMatches true hexClass c = false.
Proof.
  destruct c as [[] [] [] [] [] [] [] []]; vm_compute; intros H;
    solve [reflexivity | discriminate H].
Qed.

Lemma colon_not_base64 (c : ascii) :
  charMatches true ":"%char c = true -> classMatches true base64Class c = false.
Proof.
  destruct c as [[] [] [] [] [] [] [] []]; vm_compute; intros H;
    solve [reflexivity | discriminate H].
Qed.

Lemma x_not_hex (c : ascii) :
  charMatches true "x"%char c = true -> classMatches true hexClass c = false.
Proof.
  destruct c as [[] [] [] [] [] [] [] []]; vm_compute; intros H;
    solve [reflexivity | discriminate H].
Qed.

Lemma substring_mid (a r t : text) :
  JS.substring (length a) (length a + length r) (a ++ r ++ t) = r.
Proof.
  unfold JS.substring.
  replace (length a + length r - length a) with (length r) by lia.
  rewrite skipn_app, skipn_all, Nat.sub_diag. simpl. apply firstn_length_app.
Qed.

Ltac invert_matches :=
  repeat match goal with
         | H : Matches _ (_ :: _) _ _ |- _ => inversion H; subst; clear H
         | H : Matches _ [] _ _ |- _ => inversion H; subst; clear H
         end.

Ltac open_pattern H :=
  unfold reSIG, reSIGNATURE, reWEB3SIG, reETH, reDID, lits, lit in H;
  simpl in H; invert_matches;
  match goal with
  | Hc : charMatches true "]"%char _ = true |- _ => apply closing_bracket in Hc; subst
  end.

(** The payload is the capture: it sits between the opening and the
    bracket. *)
Ltac payload_is_capture opening r :=
  simpl nth;
  match goal with
  | |- JS.substring ?o ?c _ = _ =>
      replace o with (length opening)
        by (simpl; rewrite ?length_app; simpl; rewrite ?length_app; simpl; lia);
      replace c with (length opening + length r)
        by (simpl; rewrite ?length_app; simpl; rewrite ?length_app; simpl; lia)
  end;
  exact (substring_mid opening r (lit "]")).

Ltac close_shape head c r sep_lemma :=
  exists (head ++ [c]), r;
  split; [simpl; rewrite <- ?app_assoc; reflexivity|];
  split; [assumption|];
  split; [payload_is_capture (head ++ [c]) r|];
  split; [assumption|];
  exists head, c; split; [reflexivity | apply sep_lemma; assumption].

Lemma shape_SIG (w : text) (marks : list nat) :
  Matches true (nodes reSIG) w marks ->
  exists opening payload, tagShape hexClass 64 0 w marks opening payload.
Proof.
  intros H. open_pattern H.
  match goal with |- context [?a :: ?b :: ?c :: ?d :: ?e :: ?r ++ _] =>
    close_shape [a; b; c; d] e r colon_not_hex end.
Qed.

Lemma shape_SIGNATURE (w : text) (marks : list nat) :
  Matches true (nodes reSIGNATURE) w marks ->
  exists opening payload, tagShape base64Class 64 0 w marks opening payload.
Proof.
  intros H. open_pattern H.
  match goal with
  |- context [?a :: ?b :: ?c :: ?d :: ?e :: ?f :: ?g :: ?h :: ?i :: ?j :: ?k :: ?r ++ _] =>
    close_shape [a; b; c; d; e; f; g; h; i; j] k r colon_not_base64 end.
Qed.

Lemma shape_WEB3SIG (w : text) (marks : list nat) :
  Matches true (nodes reWEB3SIG) w marks ->
  exists opening payload, tagShape hexClass 128 0 w marks opening payload.
Proof.
  intros H. open_pattern H.
  match goal with
  |- context [?a :: ?b :: ?c :: ?d :: ?e :: ?f :: ?g :: ?h :: ?i :: ?j :: ?k :: ?r ++ _] =>
    close_shape [a; b; c; d; e; f; g; h; i; j] k r x_not_hex end.
Qed.

Lemma shape_ETH (w : text) (marks : list nat) :
  Matches true (nodes reETH) w marks ->
  exists opening payload,
    tagShape hexClass 130 0 w marks opening payload /\ length payload = 130.
Proof.
  intros H. open_pattern H.
  match goal with
  |- context [?a :: ?b :: ?c :: ?d :: ?e :: ?f :: ?g :: ?r ++ _] =>
    assert (Hlen : length r = 130)
      by (match goal with Hw : within (Some _) _ |- _ => simpl in Hw; lia end);
    exists [a; b; c; d; e; f; g], r; split; [|exact Hlen];
    split; [reflexivity|];
    split; [assumption|];
    split; [payload_is_capture [a; b; c; d; e; f; g] r|];
    split; [assumption|];
    exists [a; b; c; d; e; f], g; split; [reflexivity | apply x_not_hex; assumption]
  end.
Qed.

Lemma shape_DID (w : text) (marks : list nat) :
  Matches true (nodes reDID) w marks ->
  exists opening payload, tagShape hexClass 64 1 w marks opening payload.
Proof.
  intros H. open_pattern H.
  match goal with
  |- context [?a :: ?b :: ?c :: ?d :: ?e :: ?f :: ?g :: ?h :: ?i ::
                ?r ++ ?j :: ?r0 ++ ?k :: ?l :: ?m :: ?n :: ?o :: ?r1 ++ _] =>
    pose (head := a :: b :: c :: d :: e :: f :: g :: h :: i ::
                    r ++ j :: r0 ++ [k; l; m; n]);
    assert (Hw : a :: b :: c :: d :: e :: f :: g :: h :: i ::
                   r ++ j :: r0 ++ k :: l :: m :: n :: o :: r1 ++ ["]"%char]
                 = (head ++ [o]) ++ r1 ++ lit "]")
      by (unfold head; simpl; rewrite <- !app_assoc; simpl;
          rewrite <- !app_assoc; reflexivity);
    exists (head ++ [o]), r1; rewrite Hw;
    split; [reflexivity|];
    split; [assumption|];
    split; [|split; [assumption|
             exists head, o; split; [reflexivity | apply colon_not_hex; assumption]]]
  end.
  simpl nth.
  match goal with
  | |- JS.substring ?o ?c _ = ?r1 =>
      replace o with (length (head ++ [x13]))
        by (unfold head; simpl; rewrite ?length_app; simpl; rewrite ?length_app;
            simpl; rewrite ?length_app; simpl; lia);
      replace c with (length (head ++ [x13]) + length r1)
        by (unfold head; simpl; rewrite ?length_app; simpl; rewrite ?length_app;
            simpl; rewrite ?length_app; simpl; lia)
  end.
  exact (substring_mid (head ++ [x13]) r1 (lit "]")).
Qed.

End TagShape.

(** ** The two extractors *)

Section Extractors.
Import Regex Language.

Lemma test_false (re : RegExp) (s : text) : test re s = false -> exec re s = None.
Proof.
  unfold test. destruct (exec re s); [discriminate | reflexivity].
Qed.

Lemma sms_skip (p : SMSService.SMSSignaturePattern) ps (s : text) :
  exec (SMSService.pattern p) s = None ->
  SMSService.tryPatterns (p :: ps) s = SMSService.tryPatterns ps s.
Proof.
  intros H. simpl. now rewrite H.
Qed.

Lemma sms_hit (p : SMSService.SMSSignaturePattern) ps (s : text) (m : MatchArray) :
  exec (SMSService.pattern p) s = Some m ->
  SMSService.tryPatterns (p :: ps) s =
    (Some (SMSService.extractor p m), JS.trim (around m s), Some (whole m)).
Proof.
  intros H. cbn [SMSService.tryPatterns]. rewrite H. unfold around.
  now rewrite (replace_match _ _ _ H).
Qed.

Lemma svc_skip (re : RegExp) ps (s : text) :
  exec re s = None ->
  SupabaseVerificationService.tryPatterns (re :: ps) s =
    SupabaseVerificationService.tryPatterns ps s.
Proof.
  intros H. simpl. now rewrite H.
Qed.

Lemma svc_hit (re : RegExp) ps (s : text) (m : MatchArray) :
  exec re s = Some m ->
  SupabaseVerificationService.tryPatterns (re :: ps) s =
    (if JS.includes (lit "DID:") (source re) then group 2 m
     else schemePrefix re ++ group 1 m,
     JS.trim (around m s),
     if JS.includes (lit "DID:") (source re) then group 1 m else []).
Proof.
  intros H. cbn [SupabaseVerificationService.tryPatterns]. rewrite H.
  unfold around, schemePrefix, rePrefixed.
  rewrite (replace_match _ _ _ H).
  destruct (JS.includes (lit "DID:") (source re)); [reflexivity|].
  destruct (JS.includes (lit "WEB3SIG:") (source re) || JS.includes (lit "ETH:") (source re));
    reflexivity.
Qed.

(** In [SMSService] the first pattern of the list that matches decides. *)
Lemma sms_first_match_wins before p after (s : text) (m : MatchArray) :
  SMSService.signaturePatterns = before ++ p :: after ->
  (forall q, In q before -> test (SMSService.pattern q) s = false) ->
  exec (SMSService.pattern p) s = Some m ->
  forall now sender,
    SMSService.signature (SMSService.parseSMSMessage now s sender)
      = Some (SMSService.extractor p m) /\
    SMSService.signatureBlock (SMSService.parseSMSMessage now s sender) = Some (whole m).
Proof.
  intros Hps Hbefore Hm now sender.
  unfold SMSService.parseSMSMessage. rewrite Hps. clear Hps.
  induction before as [|q before IH].
  - simpl app. rewrite (sms_hit _ _ _ _ Hm). simpl. auto.
  - simpl app. rewrite sms_skip.
    + apply IH. intros q' Hq'. apply Hbefore. now right.
    + apply test_false. apply Hbefore. now left.
Qed.

End Extractors.

Section ExtractorClaims.
Import Regex Language.

Lemma tagShape_weaken (cls : list (ascii * ascii)) (lo lo' k : nat)
    (w : text) (marks : list nat) (opening payload : text) :
  lo' <= lo -> tagShape cls lo k w marks opening payload ->
  tagShape cls lo' k w marks opening payload.
Proof.
  intros Hle (Hw & Hlo & Hrest). split; [exact Hw|]. split; [lia | exact Hrest].
Qed.

Lemma payload_of_match (re : RegExp) (s : text) (m : MatchArray)
    (cls : list (ascii * ascii)) (k lo : nat) :
  (forall w marks, Matches (ignoreCase re) (nodes re) w marks ->
     exists opening payload, tagShape cls lo k w marks opening payload) ->
  exec re s = Some m ->
  exists opening payload marks,
    tagShape cls lo k (whole m) marks opening payload /\
    group (S k) m = payload /\
    s = firstn (index m) s ++ whole m ++ skipn (index m + length (whole m)) s.
Proof.
  intros Hshape Hm.
  destruct (exec_sound _ _ _ Hm) as (_ & Hs & marks & HM & Hg).
  destruct (Hshape _ _ HM) as (opening & payload & Hsh).
  exists opening, payload, marks. split; [exact Hsh|]. split; [|exact Hs].
  destruct Hsh as (_ & _ & Hnth & _).
  unfold group. rewrite Hg. simpl. rewrite Nat.sub_0_r. exact Hnth.
Qed.

Lemma shape_ETH_64 (w : text) (marks : list nat) :
  Matches true (nodes reETH) w marks ->
  exists opening payload, tagShape hexClass 64 0 w marks opening payload.
Proof.
  intros H. destruct (shape_ETH _ _ H) as (o & p & Hsh & _).
  exists o, p. apply (tagShape_weaken hexClass 130 64); [lia | exact Hsh].
Qed.

Lemma shape_WEB3SIG_64 (w : text) (marks : list nat) :
  Matches true (nodes reWEB3SIG) w marks ->
  exists opening payload, tagShape hexClass 64 0 w marks opening payload.
Proof.
  intros H. destruct (shape_WEB3SIG _ _ H) as (o & p & Hsh).
  exists o, p. apply (tagShape_weaken hexClass 128 64); [lia | exact Hsh].
Qed.

Ltac others_silent H :=
  repeat match goal with
         | |- context [SMSService.tryPatterns (?q :: _) _] =>
             rewrite (sms_skip q)
               by (apply test_false, H;
                   [simpl; tauto | vm_compute; discriminate])
         | |- context [SupabaseVerificationService.tryPatterns
                         (?q :: _) _] =>
             rewrite (svc_skip q)
               by (first
                     [ apply (test_false (SMSService.pattern SMSService.standard_hex))
                     | apply (test_false (SMSService.pattern SMSService.base64_signature))
                     | apply (test_false (SMSService.pattern SMSService.web3_signature))
                     | apply (test_false (SMSService.pattern SMSService.did_signature))
                     | apply (test_false (SMSService.pattern SMSService.ethereum_signature)) ];
                   apply H; [simpl; tauto | vm_compute; discriminate])
         end.

Ltac single_case p cls k shape Hm Hothers :=
  let opening := fresh "opening" in
  let payload := fresh "payload" in
  let marks := fresh "marks" in
  let Hsh := fresh "Hsh" in
  let Hg := fresh "Hg" in
  let Hs := fresh "Hs" in
  destruct (payload_of_match (SMSService.pattern p) _ _ cls k 64 shape Hm)
    as (opening & payload & marks & Hsh & Hg & Hs);
  destruct Hsh as (Hw & Hlo & _ & Hcls & Hhead);
  exists opening, payload;
  others_silent Hothers;
  rewrite (sms_hit p _ _ _ Hm), (svc_hit (SMSService.pattern p) _ _ _ Hm);
  simpl; simpl in Hg; rewrite Hg; repeat split; assumption.

(** C5 (as amended): a message in which exactly one of the five patterns
    recognises a tag, and that match is [m].  The matched block is a piece
    of the message of the form [opening ++ payload ++ "]"], where the
    payload is at least 64 characters of the scheme's class and all of them
    (the character in front is not of the class); both extractors return
    the payload, behind [0x] for the WEB3SIG and ETH schemes and the
    signature half for DID, and as content the message without the block,
    trimmed at both ends (white space inside the content is left as it
    is). *)
Theorem single_tag_extracted (now : Z) (s : text) (sender : option text)
    (p : SMSService.SMSSignaturePattern) (m : MatchArray) :
  In p SMSService.signaturePatterns ->
  exec (SMSService.pattern p) s = Some m ->
  (forall q, In q SMSService.signaturePatterns ->
             SMSService.name q <> SMSService.name p ->
             test (SMSService.pattern q) s = false) ->
  exists opening payload,
    whole m = opening ++ payload ++ lit "]" /\
    s = firstn (index m) s ++ whole m ++ skipn (index m + length (whole m)) s /\
    64 <= length payload /\
    forallb (classMatches true (payloadClass (nodes (SMSService.pattern p)))) payload
      = true /\
    (exists head c,
       opening = head ++ [c] /\
       classMatches true (payloadClass (nodes (SMSService.pattern p))) c = false) /\
    SMSService.signature (SMSService.parseSMSMessage now s sender)
      = Some (schemePrefix (SMSService.pattern p) ++ payload) /\
    SMSService.extractedContent (SMSService.parseSMSMessage now s sender)
      = JS.trim (around m s) /\
    SMSService.signatureBlock (SMSService.parseSMSMessage now s sender)
      = Some (whole m) /\
    SupabaseVerificationService.signature
      (SupabaseVerificationService.parseSMSMessage now s)
      = schemePrefix (SMSService.pattern p) ++ payload /\
    SupabaseVerificationService.content
      (SupabaseVerificationService.parseSMSMessage now s)
      = JS.trim (around m s).
Proof.
  intros Hin Hm Hothers.
  unfold SMSService.parseSMSMessage, SupabaseVerificationService.parseSMSMessage,
    SMSService.signaturePatterns, SupabaseVerificationService.signaturePatterns.
  simpl in Hin.
  destruct Hin as [<-|[<-|[<-|[<-|[<-|[]]]]]].
  - single_case SMSService.standard_hex hexClass 0 shape_SIG Hm Hothers.
  - single_case SMSService.base64_signature base64Class 0 shape_SIGNATURE Hm Hothers.
  - single_case SMSService.web3_signature hexClass 0 shape_WEB3SIG_64 Hm Hothers.
  - single_case SMSService.did_signature hexClass 1 shape_DID Hm Hothers.
  - single_case SMSService.ethereum_signature hexClass 0 shape_ETH_64 Hm Hothers.
Qed.

End ExtractorClaims.

Section ExtractorClaims2.
Import Regex Language.

Lemma greeting_match :
  exec reSIG Samples.greeting
  = Some {| index := 6;
            whole := lit ("[SIG:" ++ Samples.hex64 ++ "]");
            groups := [lit Samples.hex64] |}.
Proof. vm_compute. reflexivity. Qed.

Lemma single_tag_extracted_witness :
  exists opening payload,
    lit ("[SIG:" ++ Samples.hex64 ++ "]") = opening ++ payload ++ lit "]" /\
    64 <= length payload /\
    SMSService.signature (SMSService.parseSMSMessage 0 Samples.greeting None)
      = Some (schemePrefix reSIG ++ payload) /\
    SMSService.extractedContent (SMSService.parseSMSMessage 0 Samples.greeting None)
      = lit "Hello  world".
Proof.
  destruct (single_tag_extracted 0 Samples.greeting None SMSService.standard_hex
              _ (or_introl eq_refl) greeting_match)
    as (opening & payload & Hw & _ & Hlo & _ & _ & Hsig & Hcontent & _).
  - intros q Hq Hne. simpl in Hq.
    destruct Hq as [<-|[<-|[<-|[<-|[<-|[]]]]]];
      solve [vm_compute; reflexivity | exfalso; apply Hne; reflexivity].
  - exists opening, payload. repeat split; try assumption.
Defined.

(** C5 as it is worded fails: in the sample the words around the tag keep
    the two spaces that surrounded it, whereas collapsing white space would
    leave one. *)
Lemma content_not_collapsed :
  test reSIG Samples.greeting = true /\
  (forall q, In q SMSService.signaturePatterns ->
             SMSService.name q <> SMSService.name SMSService.standard_hex ->
             test (SMSService.pattern q) Samples.greeting = false) /\
  SMSService.extractedContent (SMSService.parseSMSMessage 0 Samples.greeting None)
    = lit "Hello  world" /\
  SupabaseVerificationService.content
    (SupabaseVerificationService.parseSMSMessage 0 Samples.greeting)
    = lit "Hello  world" /\
  contentAsStated (lit ("[SIG:" ++ Samples.hex64 ++ "]")) Samples.greeting
    = lit "Hello world" /\
  SMSService.extractedContent (SMSService.parseSMSMessage 0 Samples.greeting None)
    <> contentAsStated (lit ("[SIG:" ++ Samples.hex64 ++ "]")) Samples.greeting.
Proof.
  split; [vm_compute; reflexivity|].
  split.
  { intros q Hq Hne. simpl in Hq.
    destruct Hq as [<-|[<-|[<-|[<-|[<-|[]]]]]];
      solve [vm_compute; reflexivity | exfalso; apply Hne; reflexivity]. }
  repeat split; try (vm_compute; reflexivity).
  vm_compute. discriminate.
Qed.

(** C6 (as amended): a message in which none of the five patterns
    recognises a tag (a tag whose payload is too short is not recognised).
    [SMSService] returns a [null] signature and no stripped block; the
    verification service, whose signature is a string, returns the empty
    string, and no sender.  Both return the input itself as content, so in
    particular the same text once white space is ignored. *)
Theorem no_tag_untouched (now : Z) (s : text) (sender : option text) :
  (forall p, In p SMSService.signaturePatterns ->
             test (SMSService.pattern p) s = false) ->
  SMSService.signature (SMSService.parseSMSMessage now s sender) = None /\
  SMSService.signatureBlock (SMSService.parseSMSMessage now s sender) = None /\
  SMSService.extractedContent (SMSService.parseSMSMessage now s sender) = s /\
  ignoringWhitespace (SMSService.extractedContent (SMSService.parseSMSMessage now s sender))
    = ignoringWhitespace s /\
  SupabaseVerificationService.signature
    (SupabaseVerificationService.parseSMSMessage now s) = [] /\
  SupabaseVerificationService.senderAddress
    (SupabaseVerificationService.parseSMSMessage now s) = [] /\
  SupabaseVerificationService.content
    (SupabaseVerificationService.parseSMSMessage now s) = s /\
  ignoringWhitespace
    (SupabaseVerificationService.content
       (SupabaseVerificationService.parseSMSMessage now s))
    = ignoringWhitespace s /\
  smsSignatureValue (SMSService.parseSMSMessage now s sender) = Supabase.JNull /\
  serviceSignatureValue (SupabaseVerificationService.parseSMSMessage now s)
    = Supabase.JStr [].
Proof.
  intros Hnone.
  assert (H1 := test_false _ _ (Hnone SMSService.standard_hex (or_introl eq_refl))).
  assert (H2 := test_false _ _
    (Hnone SMSService.base64_signature (or_intror (or_introl eq_refl)))).
  assert (H3 := test_false _ _
    (Hnone SMSService.web3_signature (or_intror (or_intror (or_introl eq_refl))))).
  assert (H4 := test_false _ _
    (Hnone SMSService.did_signature
       (or_intror (or_intror (or_intror (or_introl eq_refl)))))).
  assert (H5 := test_false _ _
    (Hnone SMSService.ethereum_signature
       (or_intror (or_intror (or_intror (or_intror (or_introl eq_refl))))))).
  unfold smsSignatureValue, serviceSignatureValue.
  unfold SMSService.parseSMSMessage, SupabaseVerificationService.parseSMSMessage,
    SMSService.signaturePatterns, SupabaseVerificationService.signaturePatterns.
  rewrite !sms_skip by assumption.
  rewrite !svc_skip by assumption.
  simpl. repeat split; reflexivity.
Qed.

Lemma no_tag_untouched_witness :
  SMSService.signature (SMSService.parseSMSMessage 0 Samples.shortTag None) = None /\
  SMSService.extractedContent (SMSService.parseSMSMessage 0 Samples.shortTag None)
    = Samples.shortTag /\
  SupabaseVerificationService.signature
    (SupabaseVerificationService.parseSMSMessage 0 Samples.shortTag) = [] /\
  SupabaseVerificationService.content
    (SupabaseVerificationService.parseSMSMessage 0 Samples.shortTag) = Samples.shortTag.
Proof.
  destruct (no_tag_untouched 0 Samples.shortTag None)
    as (H1 & _ & H2 & _ & H3 & _ & H4 & _).
  - intros p Hp. simpl in Hp.
    destruct Hp as [<-|[<-|[<-|[<-|[<-|[]]]]]]; vm_compute; reflexivity.
  - repeat split; assumption.
Defined.

(** C6 as it is worded fails for the extractor of the verification
    service: in the sample, whose only tag is too short for every pattern,
    [SMSService] returns [null] but the service returns the empty string,
    which is not [null]. *)
Lemma empty_signature_is_not_null :
  (forall p, In p SMSService.signaturePatterns ->
             test (SMSService.pattern p) Samples.shortTag = false) /\
  smsSignatureValue (SMSService.parseSMSMessage 0 Samples.shortTag None)
    = Supabase.JNull /\
  serviceSignatureValue (SupabaseVerificationService.parseSMSMessage 0 Samples.shortTag)
    = Supabase.JStr [] /\
  ~ untouchedAsStated 0 Samples.shortTag.
Proof.
  split.
  { intros p Hp. simpl in Hp.
    destruct Hp as [<-|[<-|[<-|[<-|[<-|[]]]]]]; vm_compute; reflexivity. }
  split; [vm_compute; reflexivity|].
  split; [vm_compute; reflexivity|].
  intros (_ & Hnull & _). vm_compute in Hnull. discriminate Hnull.
Qed.

End ExtractorClaims2.

Section PriorityOrder.
Import Regex Language.

(** C2: the order of the patterns.  On a message that carries a DID tag and
    an ETH tag (and none of the first three schemes) [SMSService] returns the
    signature half of the DID tag, as the order (a)-(e) has it, while
    [SupabaseVerificationService.parseSMSMessage], whose list has the ETH
    pattern before the DID pattern, returns the ETH token behind [0x] and no
    sender; the two answers differ. *)
Theorem did_and_eth_tags_disagree (now : Z) (s : text) (sender : option text)
    (mD mE : MatchArray) :
  test reSIG s = false ->
  test reSIGNATURE s = false ->
  test reWEB3SIG s = false ->
  exec reDID s = Some mD ->
  exec reETH s = Some mE ->
  SMSService.signature (SMSService.parseSMSMessage now s sender) = Some (group 2 mD) /\
  SupabaseVerificationService.signature
    (SupabaseVerificationService.parseSMSMessage now s) = lit "0x" ++ group 1 mE /\
  SupabaseVerificationService.senderAddress
    (SupabaseVerificationService.parseSMSMessage now s) = [] /\
  lit "0x" ++ group 1 mE <> group 2 mD.
Proof.
  intros H1 H2 H3 HD HE.
  apply test_false in H1, H2, H3.
  unfold SMSService.parseSMSMessage, SupabaseVerificationService.parseSMSMessage,
    SMSService.signaturePatterns, SupabaseVerificationService.signaturePatterns.
  rewrite (sms_skip SMSService.standard_hex) by exact H1.
  rewrite (sms_skip SMSService.base64_signature) by exact H2.
  rewrite (sms_skip SMSService.web3_signature) by exact H3.
  rewrite (sms_hit SMSService.did_signature _ _ _ HD).
  rewrite !svc_skip by assumption.
  rewrite (svc_hit _ _ _ _ HE).
  simpl. repeat split.
  destruct (exec_sound _ _ _ HD) as (_ & _ & marks & HM & Hg).
  destruct (shape_DID _ _ HM) as (opening & payload & _ & _ & Hnth & Hhex & _).
  unfold group. rewrite Hg. simpl. rewrite Hnth.
  intros <-. simpl in Hhex. discriminate Hhex.
Qed.

Lemma did_and_eth_tags_disagree_witness :
  SMSService.signature (SMSService.parseSMSMessage 0 Samples.didThenEth None)
    = Some (lit Samples.hex64) /\
  SupabaseVerificationService.signature
    (SupabaseVerificationService.parseSMSMessage 0 Samples.didThenEth)
    = lit ("0x" ++ Samples.hex130).
Proof.
  destruct (did_and_eth_tags_disagree 0 Samples.didThenEth None
              {| index := 6;
                 whole := lit ("[DID:did:web:bank.example#SIG:" ++ Samples.hex64 ++ "]");
                 groups := [lit "did:web:bank.example"; lit Samples.hex64] |}
              {| index := 102;
                 whole := lit ("[ETH:0x" ++ Samples.hex130 ++ "]");
                 groups := [lit Samples.hex130] |})
    as (H1 & H2 & _); try (vm_compute; reflexivity).
  split; [exact H1 | exact H2].
Defined.

End PriorityOrder.

(** ** The remote verifier, the sender resolver and the persister *)

Section Verification.
Import Supabase SupabaseVerificationService Effects.

Lemma sameBackend_refl w : sameBackend w w.
Proof. repeat split. Qed.

Lemma saveVerifiedMessage_cases (f : fault) (d : MessageData) (w : World) :
  (exists e, saveVerifiedMessage f d w = (Rejected e, w)) \/
  (exists e, saveVerifiedMessage f d w = (Fulfilled (mkReply None (Some e)), w)) \/
  (configured w = false /\ exists r,
     saveVerifiedMessage f d w = (Fulfilled (mkReply (Some r) None), w)) \/
  (configured w = true /\ f = NoFault /\ session w <> None /\
   exists r,
     row r = d /\
     saveVerifiedMessage f d w =
       (Fulfilled (mkReply (Some r) None),
        setMessages w (verified_messages w ++ [r]) (S (next_uuid w)))).
Proof.
  unfold saveVerifiedMessage, bind, get, ret, throw, insertVerifiedMessage.
  destruct (configured w) eqn:Hc; simpl.
  - destruct f as [|e|e]; simpl; eauto.
    destruct (session w) as [u|] eqn:Hs; eauto.
    destruct (existsb (collides d) (verified_messages w)); eauto.
    destruct (references d (organizations w)); simpl; eauto.
    right. right. right. repeat split; try congruence. eexists. split; [|reflexivity]. reflexivity.
  - right. right. left. split; [reflexivity|]. eauto.
Qed.

Lemma recordVerificationAttempt_cases (f : fault) (d : AttemptData) (w : World) :
  (exists c, recordVerificationAttempt f d w = (c, w)) \/
  (configured w = true /\
   exists r u,
     attempt r = d /\ session w = Some u /\ attempted_by d = Some (user_id u) /\
     recordVerificationAttempt f d w =
       (Fulfilled (mkReply (Some r) None),
        setAttempts w (message_verification_attempts w ++ [r]) (S (next_uuid w)))).
Proof.
  unfold recordVerificationAttempt, bind, get, ret, throw, insertAttempt.
  destruct (configured w) eqn:Hc; simpl; eauto.
  destruct f as [|e|e]; simpl; eauto.
  destruct (session w) as [u|] eqn:Hs; eauto.
  destruct (attempted_by d) as [b|] eqn:Hb; eauto.
  unfold textEqb. destruct (list_eq_dec ascii_dec (user_id u) b) as [<-|Hne]; eauto.
  right. split; [reflexivity|]. eexists. exists u. repeat split; eauto.
Qed.

Lemma getUser_cases (f : fault) (w : World) :
  (exists e, getUser f w = (Rejected e, w)) \/
  getUser f w = (Fulfilled None, w) \/
  (exists u, session w = Some u /\ getUser f w = (Fulfilled (Some u), w)).
Proof.
  unfold getUser, bind, get, ret, throw.
  destruct f; simpl; eauto.
  destruct (session w) as [u|] eqn:Hs; eauto.
Qed.

Lemma bind_get (B : Type) (k : World -> M B) (w : World) : bind get k w = k w w.
Proof. reflexivity. Qed.

Lemma bind_fulfilled (A B : Type) (m : M A) (k : A -> M B) (w w' : World) (a : A) :
  m w = (Fulfilled a, w') -> bind m k w = k a w'.
Proof. intros H. unfold bind. now rewrite H. Qed.

Lemma bind_rejected (A B : Type) (m : M A) (k : A -> M B) (w w' : World) (e : text) :
  m w = (Rejected e, w') -> bind m k w = (Rejected e, w').
Proof. intros H. unfold bind. now rewrite H. Qed.

Lemma tryCatch_fulfilled (A : Type) (m : M A) (h : text -> M A) (w w' : World) (a : A) :
  m w = (Fulfilled a, w') -> tryCatch m h w = (Fulfilled a, w').
Proof. intros H. unfold tryCatch. now rewrite H. Qed.

Lemma tryCatch_rejected (A : Type) (m : M A) (h : text -> M A) (w w' : World) (e : text) :
  m w = (Rejected e, w') -> tryCatch m h w = h e w'.
Proof. intros H. unfold tryCatch. now rewrite H. Qed.

Lemma saveVerificationResult_effect (env : Env) (c sg sd : text)
    (org : option text) (det : option blob) (method : text) (w : World) :
  exists w',
    saveVerificationResult env c sg sd org det method w = (Fulfilled tt, w') /\
    sameBackend w w' /\
    persisted (save_fault env) (verifiedRow w c sg sd org det) w w'.
Proof.
  unfold saveVerificationResult.
  set (d := verifiedRow w c sg sd org det).
  destruct (saveVerifiedMessage_cases (save_fault env) d w)
    as [[e H]|[[e H]|[[Hc [r H]]|(Hc & Hf & Hs & r & Hr & H)]]].
  - erewrite tryCatch_rejected
      by (rewrite bind_get; apply bind_rejected; exact H).
    eexists. split; [reflexivity|].
    split; [repeat split | left; repeat split].
  - erewrite tryCatch_fulfilled
      by (rewrite bind_get; erewrite bind_fulfilled by exact H; reflexivity).
    eexists. split; [reflexivity|].
    split; [repeat split | left; repeat split].
  - destruct (getUser_cases (user_fault env) w) as [[e Hu]|[Hu|(u & Hsu & Hu)]].
    + erewrite tryCatch_rejected
        by (rewrite bind_get; erewrite bind_fulfilled by exact H;
            simpl; apply bind_rejected; exact Hu).
      eexists. split; [reflexivity|].
      split; [repeat split | left; repeat split].
    + erewrite tryCatch_fulfilled
        by (rewrite bind_get; erewrite bind_fulfilled by exact H;
            simpl; erewrite bind_fulfilled by exact Hu; reflexivity).
      eexists. split; [reflexivity|].
      split; [repeat split | left; repeat split].
    + set (ad := {| message_id := id r; attempted_by := Some (user_id u);
                    verification_method := method; Supabase.success := true;
                    verification_data :=
                      [ (lit "timestamp", JNum (clock w));
                        (lit "organization_id",
                         match org with Some o => JStr o | None => JNull end) ] |}).
      destruct (recordVerificationAttempt_cases (record_fault env) ad w)
        as [[cc Hr]|(Hc' & _)]; [|congruence].
      destruct cc as [a|e].
      * erewrite tryCatch_fulfilled
          by (rewrite bind_get; erewrite bind_fulfilled by exact H;
              simpl; erewrite bind_fulfilled by exact Hu;
              simpl; rewrite bind_get; erewrite bind_fulfilled by exact Hr; reflexivity).
        eexists. split; [reflexivity|].
        split; [repeat split | left; repeat split].
      * erewrite tryCatch_rejected
          by (rewrite bind_get; erewrite bind_fulfilled by exact H;
              simpl; erewrite bind_fulfilled by exact Hu;
              simpl; rewrite bind_get; apply bind_rejected; exact Hr).
        eexists. split; [reflexivity|].
        split; [repeat split | left; repeat split].
  - set (w1 := setMessages w (verified_messages w ++ [r]) (S (next_uuid w))) in *.
    assert (Hvm : persisted (save_fault env) d w w1 /\ forall w2,
              sameBackend w1 w2 -> verified_messages w2 = verified_messages w1 ->
              (message_verification_attempts w2 = message_verification_attempts w1 \/
               exists at_ u,
                 session w = Some u /\
                 message_verification_attempts w2
                   = message_verification_attempts w1 ++ [at_] /\
                 message_id (attempt at_) = id r /\
                 attempted_by (attempt at_) = Some (user_id u)) ->
              persisted (save_fault env) d w w2).
    { split.
      - right. repeat split; try assumption. exists r. repeat split; try assumption. now left.
      - intros w2 _ Hm Ha. right. repeat split; try assumption.
        exists r. split; [assumption|]. split; [rewrite Hm; reflexivity|].
        destruct Ha as [Ha|(at_ & u & Hu & Ha & Hid & Hby)].
        + left. rewrite Ha. reflexivity.
        + right. exists at_, u. repeat split; try assumption. }
    destruct Hvm as [Hp1 Hp2].
    destruct (getUser_cases (user_fault env) w1) as [[e Hu]|[Hu|(u & Hsu & Hu)]].
    + erewrite tryCatch_rejected
        by (rewrite bind_get; erewrite bind_fulfilled by exact H;
            simpl; apply bind_rejected; exact Hu).
      eexists. split; [reflexivity|].
      split; [repeat split|]. apply Hp2; [repeat split | reflexivity | now left].
    + erewrite tryCatch_fulfilled
        by (rewrite bind_get; erewrite bind_fulfilled by exact H;
            simpl; erewrite bind_fulfilled by exact Hu; reflexivity).
      eexists. split; [reflexivity|].
      split; [repeat split | exact Hp1].
    + set (ad := {| message_id := id r; attempted_by := Some (user_id u);
                    verification_method := method; Supabase.success := true;
                    verification_data :=
                      [ (lit "timestamp", JNum (clock w1));
                        (lit "organization_id",
                         match org with Some o => JStr o | None => JNull end) ] |}).
      destruct (recordVerificationAttempt_cases (record_fault env) ad w1)
        as [[cc Hr']|(Hc' & r' & u' & Hr' & Hu' & Hby & Hrec)].
      * destruct cc as [a|e].
        -- erewrite tryCatch_fulfilled
             by (rewrite bind_get; erewrite bind_fulfilled by exact H;
                 simpl; erewrite bind_fulfilled by exact Hu;
                 simpl; rewrite bind_get; erewrite bind_fulfilled by exact Hr'; reflexivity).
           eexists. split; [reflexivity|].
           split; [repeat split | exact Hp1].
        -- erewrite tryCatch_rejected
             by (rewrite bind_get; erewrite bind_fulfilled by exact H;
                 simpl; erewrite bind_fulfilled by exact Hu;
                 simpl; rewrite bind_get; apply bind_rejected; exact Hr').
           eexists. split; [reflexivity|].
           split; [repeat split|]. apply Hp2; [repeat split | reflexivity | now left].
      * erewrite tryCatch_fulfilled
          by (rewrite bind_get; erewrite bind_fulfilled by exact H;
              simpl; erewrite bind_fulfilled by exact Hu;
              simpl; rewrite bind_get; erewrite bind_fulfilled by exact Hrec; reflexivity).
        eexists. split; [reflexivity|].
        split; [repeat split|]. apply Hp2; [repeat split | reflexivity |].
        right. exists r', u'.
        split; [exact Hu'|]. split; [reflexivity|].
        split; [rewrite Hr'; reflexivity | rewrite Hr'; exact Hby].
Qed.

Lemma verifyMessage_settles
    (rpc : text -> text -> text -> completion (Reply (list VerificationRow)))
    (c sg sd : text) (w : World) :
  exists r w',
    Supabase.verifyMessage rpc c sg sd w = (Fulfilled r, w') /\
    sameBackend w w' /\ sameTables w w' /\
    (Supabase.error r = None -> w' = w).
Proof.
  unfold Supabase.verifyMessage. rewrite bind_get.
  destruct (configured w); simpl.
  - destruct (rpc c sg sd) as [r|e].
    + destruct (Supabase.error r) as [e|] eqn:He.
      * unfold handleSupabaseError, bind, Supabase.consoleError, ret. simpl.
        eexists. eexists. split; [reflexivity|].
        repeat split. discriminate.
      * unfold ret. eexists. eexists. split; [reflexivity|]. repeat split.
    + unfold handleSupabaseError, bind, Supabase.consoleError, ret. simpl.
      eexists. eexists. split; [reflexivity|].
      repeat split. discriminate.
  - unfold ret. eexists. eexists. split; [reflexivity|]. repeat split.
Qed.

Lemma verifyMessage_mock
    (rpc : text -> text -> text -> completion (Reply (list VerificationRow)))
    (c sg sd : text) (w : World) :
  configured w = false ->
  Supabase.verifyMessage rpc c sg sd w =
    (Fulfilled (mkReply
      (Some {| is_valid := (64 <=? length sg) && (0 <? length c);
               v_organization_id := Some (lit "mock-org-1");
               v_organization_name := Some (lit "Mock Organization");
               v_verification_details := Some
                 [ (lit "timestamp", JNum (clock w));
                   (lit "method", JStr (lit "mock"));
                   (lit "signature_format", JStr (lit "hex"));
                   (lit "message_hash", JStr (JS.substring 0 8 c)) ] |})
      None), w).
Proof.
  intros Hc. unfold Supabase.verifyMessage. rewrite bind_get. rewrite Hc. reflexivity.
Qed.

(** The result of [verifyMessageSignature] is fixed by what the hosted
    procedure answers; the persister only decides what is written. *)
Lemma verifyMessageSignature_by_answer
    (rpc : text -> text -> text -> completion (Reply (list VerificationRow)))
    (content sg sender method : text) (w : World) :
  exists r,
    (SupabaseVerificationService.error r = None \/
     SupabaseVerificationService.error r = Some (lit "Verification service error") \/
     SupabaseVerificationService.error r = Some (lit "No verification result returned")) /\
    (isValid r = true ->
       exists v row_,
         Supabase.verifyMessage rpc (JS.trim content)
           (JS.toLowerCase (stripHexPrefix sg)) (JS.toLowerCase sender) w
           = (Fulfilled v, w) /\
         data v = Some row_ /\ Supabase.error v = None /\ is_valid row_ = true /\
         organizationId r = v_organization_id row_ /\
         organizationName r = v_organization_name row_ /\
         verificationDetails r = v_verification_details row_) /\
    forall env, rpc_answer env = rpc ->
      exists w',
        verifyMessageSignature env content sg sender method w = (Fulfilled r, w') /\
        sameBackend w w' /\
        (isValid r = false -> sameTables w w') /\
        (isValid r = true ->
           saveVerificationResult env (JS.trim content)
             (JS.toLowerCase (stripHexPrefix sg)) (JS.toLowerCase sender)
             (organizationId r) (verificationDetails r) method w = (Fulfilled tt, w') /\
           persisted (save_fault env)
             (verifiedRow w (JS.trim content) (JS.toLowerCase (stripHexPrefix sg))
                (JS.toLowerCase sender) (organizationId r) (verificationDetails r))
             w w').
Proof.
  destruct (verifyMessage_settles rpc (JS.trim content)
              (JS.toLowerCase (stripHexPrefix sg)) (JS.toLowerCase sender) w)
    as (v & w0 & Hv & Hb & Ht & Hw0).
  destruct (Supabase.error v) as [e|] eqn:He.
  - exists (failure "Verification service error").
    split; [right; left; reflexivity|].
    split; [intros H; discriminate H|].
    intros env <-. unfold verifyMessageSignature.
    erewrite tryCatch_fulfilled
      by (erewrite bind_fulfilled by exact Hv; rewrite He; reflexivity).
    eexists. split; [reflexivity|].
    split; [exact Hb|]. split; [intros _; exact Ht | intros H; discriminate H].
  - specialize (Hw0 eq_refl). subst w0.
    destruct (data v) as [row_|] eqn:Hd.
    + destruct (is_valid row_) eqn:Hvalid.
      * exists {| isValid := true;
                  success := Some true;
                  organizationId := v_organization_id row_;
                  organizationName := v_organization_name row_;
                  verificationDetails := v_verification_details row_;
                  message := Some (lit "Message verified from "
                                     ++ render (v_organization_name row_));
                  SupabaseVerificationService.error := None |}.
        split; [left; reflexivity|].
        split; [intros _; exists v, row_; repeat split; assumption|].
        intros env <-. unfold verifyMessageSignature.
        destruct (saveVerificationResult_effect env (JS.trim content)
                    (JS.toLowerCase (stripHexPrefix sg)) (JS.toLowerCase sender)
                    (v_organization_id row_) (v_verification_details row_) method w)
          as (w' & Hsave & Hb' & Hp).
        erewrite tryCatch_fulfilled
          by (erewrite bind_fulfilled by exact Hv; rewrite He, Hd, Hvalid;
              erewrite bind_fulfilled by exact Hsave; reflexivity).
        exists w'. split; [reflexivity|].
        split; [exact Hb'|].
        split; [intros H; discriminate H | intros _; split; [exact Hsave | exact Hp]].
      * exists {| isValid := false;
                  success := Some true;
                  organizationId := v_organization_id row_;
                  organizationName := v_organization_name row_;
                  verificationDetails := v_verification_details row_;
                  message := Some (lit "Message verification failed");
                  SupabaseVerificationService.error := None |}.
        split; [left; reflexivity|].
        split; [intros H; discriminate H|].
        intros env <-. unfold verifyMessageSignature.
        erewrite tryCatch_fulfilled
          by (erewrite bind_fulfilled by exact Hv; rewrite He, Hd, Hvalid;
              reflexivity).
        exists w. split; [reflexivity|].
        split; [apply sameBackend_refl|].
        split; [intros _; split; reflexivity | intros H; discriminate H].
    + exists (failure "No verification result returned").
      split; [right; right; reflexivity|].
      split; [intros H; discriminate H|].
      intros env <-. unfold verifyMessageSignature.
      erewrite tryCatch_fulfilled
        by (erewrite bind_fulfilled by exact Hv; rewrite He, Hd; reflexivity).
      exists w. split; [reflexivity|].
      split; [apply sameBackend_refl|].
      split; [intros _; split; reflexivity | intros H; discriminate H].
Qed.

Lemma textEqb_eq (a b : text) : textEqb a b = true <-> a = b.
Proof.
  unfold textEqb. destruct (list_eq_dec ascii_dec a b); split; congruence.
Qed.

Lemma selectWalletByPhone_cases (f : fault) (phone : text) (w : World) :
  (exists e, selectWalletByPhone f phone w = (Rejected e, w)) \/
  (exists e, selectWalletByPhone f phone w = (Fulfilled (mkReply None (Some e)), w)) \/
  (selectWalletByPhone f phone w = (Fulfilled (mkReply (Some []) None), w)) \/
  (exists o, configured w = true /\ listedUnder phone o w /\
     selectWalletByPhone f phone w
       = (Fulfilled (mkReply (Some [wallet_address o]) None), w)).
Proof.
  unfold selectWalletByPhone. rewrite bind_get.
  destruct f as [|e|e]; unfold ret, throw; eauto.
  destruct (configured w) eqn:Hc; simpl; eauto.
  match goal with |- context [filter ?p (organizations w)] =>
    destruct (filter p (organizations w)) as [|o os] eqn:Hf end.
  - simpl. eauto.
  - right. right. right. exists o. split; [reflexivity|]. split; [|reflexivity].
    assert (Hin : In o (o :: os)) by now left.
    rewrite <- Hf in Hin. apply filter_In in Hin. destruct Hin as [Hin Hp].
    apply andb_true_iff in Hp. destruct Hp as [Hphone Hst].
    split; [exact Hin|]. split; [|now apply textEqb_eq].
    unfold listedUnder. change (lit "phone") with ["p"; "h"; "o"; "n"; "e"]%char.
    destruct (field _ (metadata o)) as [[| | |p]|]; try discriminate.
    apply textEqb_eq in Hphone. now subst.
Qed.

Lemma resolveSenderAddress_cases (env : Env) (hint : text) (phone : option text)
    (w : World) :
  (resolveSenderAddress env hint phone w = (Fulfilled (Some hint), w) /\ hint <> [] /\
   (JS.startsWith (lit "did:") hint || JS.startsWith (lit "0x") hint) = true) \/
  resolveSenderAddress env hint phone w = (Fulfilled (Some fallbackAddress), w) \/
  (exists e, resolveSenderAddress env hint phone w = (Rejected e, w)) \/
  (exists p o, phone = Some p /\ configured w = true /\ listedUnder p o w /\
     resolveSenderAddress env hint phone w = (Fulfilled (Some (wallet_address o)), w)).
Proof.
  unfold resolveSenderAddress.
  destruct (JS.truthy hint && _) eqn:Hshape.
  - left. split; [reflexivity|]. apply andb_true_iff in Hshape.
    destruct Hshape as [Ht Hs]. split; [|exact Hs].
    destruct hint; [discriminate | congruence].
  - destruct phone as [[|c p]|]; [now (right; left) | | now (right; left)].
    destruct (selectWalletByPhone_cases (directory_fault env) (c :: p) w)
      as [[e H]|[[e H]|[H|(o & Hc & Hl & H)]]].
    + right. right. left. exists e. now apply bind_rejected.
    + right. left. erewrite bind_fulfilled by exact H. reflexivity.
    + right. left. erewrite bind_fulfilled by exact H. reflexivity.
    + right. right. right. exists (c :: p), o. repeat split; try assumption.
      * apply Hl.
      * apply Hl.
      * apply Hl.
      * erewrite bind_fulfilled by exact H. reflexivity.
Qed.

Lemma failed_save_is_logged (env : Env) (c sg sd : text)
    (org : option text) (det : option blob) (method : text) (w : World) :
  configured w = true -> save_fault env <> NoFault ->
  exists line w',
    saveVerificationResult env c sg sd org det method w = (Fulfilled tt, w') /\
    sameTables w w' /\ console w' = console w ++ [line].
Proof.
  intros Hc Hf. unfold saveVerificationResult.
  set (d := verifiedRow w c sg sd org det).
  assert (Hsave : saveVerifiedMessage (save_fault env) d w
                  = match save_fault env with
                    | Threw e => (Rejected e, w)
                    | Refused e => (Fulfilled (mkReply None (Some e)), w)
                    | NoFault => insertVerifiedMessage d w
                    end).
  { unfold saveVerifiedMessage. rewrite bind_get, Hc. simpl.
    destruct (save_fault env); reflexivity. }
  destruct (save_fault env) as [|e|e]; [congruence| |].
  - erewrite tryCatch_fulfilled
      by (rewrite bind_get; erewrite bind_fulfilled by exact Hsave; reflexivity).
    eexists. eexists. split; [reflexivity|]. split; [split; reflexivity | reflexivity].
  - erewrite tryCatch_rejected
      by (rewrite bind_get; apply bind_rejected; exact Hsave).
    eexists. eexists. split; [reflexivity|]. split; [split; reflexivity | reflexivity].
Qed.

(** What [verifyMessageSignature] writes.  The call always settles with
    a result; when the result is not valid neither table changes; a
    VerificationAttempt row is added only for a signed-in user, together
    with the VerifiedMessage row it refers to; and the result is the same
    whatever happens to the writes (the same answer of the hosted procedure
    gives the same result under any faults of the persister); a write of the
    VerifiedMessage row that fails leaves both tables as they were and one
    line on the console. *)
Theorem persistence_follows_validity (env : Env)
    (content sg sender method : text) (w : World) :
  exists r w',
    verifyMessageSignature env content sg sender method w = (Fulfilled r, w') /\
    (isValid r = false -> sameTables w w') /\
    (verified_messages w' <> verified_messages w ->
       isValid r = true /\
       exists vm, verified_messages w' = verified_messages w ++ [vm]) /\
    (message_verification_attempts w' <> message_verification_attempts w ->
       exists u vm at_,
         session w = Some u /\ isValid r = true /\
         verified_messages w' = verified_messages w ++ [vm] /\
         message_verification_attempts w' = message_verification_attempts w ++ [at_] /\
         message_id (attempt at_) = id vm /\
         attempted_by (attempt at_) = Some (user_id u)) /\
    (forall env', rpc_answer env' = rpc_answer env ->
       fst (verifyMessageSignature env' content sg sender method w) = Fulfilled r) /\
    (configured w = true -> save_fault env <> NoFault -> isValid r = true ->
       sameTables w w' /\ exists line, console w' = console w ++ [line]).
Proof.
  destruct (verifyMessageSignature_by_answer (rpc_answer env) content sg sender method w)
    as (r & _ & _ & Hall).
  destruct (Hall env eq_refl) as (w' & Hrun & _ & Hinvalid & Hvalid).
  exists r, w'. split; [exact Hrun|]. split; [exact Hinvalid|].
  assert (Hcases : sameTables w w' \/
            (isValid r = true /\
             persisted (save_fault env)
               (verifiedRow w (JS.trim content) (JS.toLowerCase (stripHexPrefix sg))
                  (JS.toLowerCase sender) (organizationId r) (verificationDetails r))
               w w')).
  { destruct (isValid r);
      [right; split; [reflexivity | now apply Hvalid] | left; now apply Hinvalid]. }
  split; [|split; [|split]].
  - intros Hne.
    destruct Hcases as [[Hm _]|[Hv [[Hm _]|(_ & _ & vm & _ & Hm & _)]]];
      try (exfalso; apply Hne; exact Hm).
    split; [exact Hv | exists vm; exact Hm].
  - intros Hne.
    destruct Hcases as [[_ Ha]|[Hv [[_ Ha]|(_ & _ & vm & _ & Hm & [Ha|(at_ & u & Hu & Ha & Hid & Hby)])]]];
      try (exfalso; apply Hne; exact Ha).
    exists u, vm, at_. repeat split; assumption.
  - intros env' Henv.
    destruct (Hall env' Henv) as (w'' & Hrun' & _). now rewrite Hrun'.
  - intros Hc Hf Hv. destruct (Hvalid Hv) as [Hsave _].
    destruct (failed_save_is_logged env (JS.trim content)
                (JS.toLowerCase (stripHexPrefix sg)) (JS.toLowerCase sender)
                (organizationId r) (verificationDetails r) method w Hc Hf)
      as (line & w'' & Hsave' & Ht & Hlog).
    rewrite Hsave in Hsave'. injection Hsave' as <-.
    split; [exact Ht | exists line; exact Hlog].
Qed.

(** The stand-in: what [verifyMessageSignature] answers when no backend is
    configured. *)
Lemma verifyMessageSignature_mock (env : Env) (content sg sender method : text) (w : World) :
  configured w = false ->
  exists r w' details,
    verifyMessageSignature env content sg sender method w = (Fulfilled r, w') /\
    isValid r = (64 <=? length (JS.toLowerCase (stripHexPrefix sg)))
                && (0 <? length (JS.trim content)) /\
    organizationId r = Some (lit "mock-org-1") /\
    organizationName r = Some (lit "Mock Organization") /\
    verificationDetails r = Some details /\
    field (lit "method") details = Some (JStr (lit "mock")).
Proof.
  intros Hc.
  pose proof (verifyMessage_mock (rpc_answer env) (JS.trim content)
                (JS.toLowerCase (stripHexPrefix sg)) (JS.toLowerCase sender) w Hc) as Hmock.
  unfold verifyMessageSignature.
  remember ((64 <=? length (JS.toLowerCase (stripHexPrefix sg)))
            && (0 <? length (JS.trim content))) as valid eqn:Hvalid.
  destruct valid.
  - destruct (saveVerificationResult_effect env (JS.trim content)
                (JS.toLowerCase (stripHexPrefix sg)) (JS.toLowerCase sender)
                (Some (lit "mock-org-1"))
                (Some [ (lit "timestamp", JNum (clock w));
                        (lit "method", JStr (lit "mock"));
                        (lit "signature_format", JStr (lit "hex"));
                        (lit "message_hash", JStr (JS.substring 0 8 (JS.trim content))) ])
                method w) as (w1 & Hsave & _).
    eexists. eexists. eexists. split.
    + apply tryCatch_fulfilled.
      erewrite bind_fulfilled by exact Hmock.
      cbn [Supabase.error data is_valid v_organization_id v_organization_name
             v_verification_details].
      erewrite bind_fulfilled by exact Hsave. reflexivity.
    + repeat split.
  - eexists. eexists. eexists. split.
    + apply tryCatch_fulfilled.
      erewrite bind_fulfilled by exact Hmock.
      cbn [Supabase.error data is_valid v_organization_id v_organization_name
             v_verification_details].
      reflexivity.
    + repeat split.
Qed.

(** C3 (as amended): with no backend configured the result is valid exactly
    when the signature, after one leading [0x] is removed and it is
    lower-cased, has at least 64 characters and the content, after trimming,
    is not empty; the organization is the placeholder one and the details
    carry [method = "mock"]. *)
Theorem mock_verdict (env : Env) (content sg sender method : text) (w : World) :
  configured w = false ->
  exists r w' details,
    verifyMessageSignature env content sg sender method w = (Fulfilled r, w') /\
    isValid r = (64 <=? length (JS.toLowerCase (stripHexPrefix sg)))
                && (0 <? length (JS.trim content)) /\
    organizationId r = Some (lit "mock-org-1") /\
    organizationName r = Some (lit "Mock Organization") /\
    verificationDetails r = Some details /\
    field (lit "method") details = Some (JStr (lit "mock")).
Proof.
  exact (verifyMessageSignature_mock env content sg sender method w).
Qed.

Lemma mock_verdict_witness :
  exists r w',
    verifyMessageSignature Samples.quiet (lit "Hello world") (lit ("0x" ++ Samples.hex64))
      fallbackAddress (lit "manual") Samples.offline = (Fulfilled r, w') /\
    isValid r = true /\ organizationName r = Some (lit "Mock Organization").
Proof.
  destruct (mock_verdict Samples.quiet (lit "Hello world") (lit ("0x" ++ Samples.hex64))
              fallbackAddress (lit "manual") Samples.offline eq_refl)
    as (r & w' & details & Hrun & Hvalid & _ & Hname & _).
  exists r, w'. split; [exact Hrun|]. split; [|exact Hname].
  rewrite Hvalid. vm_compute. reflexivity.
Defined.

(** C3 as it is worded fails on a content of white space only: its length is
    positive, yet the call reports the message as not valid. *)
Lemma blank_content_rejected :
  Language.validAsStated (lit " ") (lit Samples.hex64) = true /\
  exists r w',
    verifyMessageSignature Samples.quiet (lit " ") (lit Samples.hex64)
      fallbackAddress (lit "manual") Samples.offline = (Fulfilled r, w') /\
    isValid r = false.
Proof.
  split; [vm_compute; reflexivity|].
  eexists. eexists. split; [vm_compute; reflexivity | reflexivity].
Qed.

(** C1 (as amended): an empty hint with no phone number, or with a phone
    number the directory has no row for, resolves to the fixed fallback
    address; with no backend configured the verification that follows does
    not look at the address: it reports the message valid exactly when the
    normalised signature has at least 64 characters and the trimmed content
    is not empty. *)
Theorem unresolved_sender_falls_back (env : Env) (hint : text) (phone : option text)
    (content sg method : text) (w : World) :
  unresolvable (directory_fault env) hint phone w ->
  resolveSenderAddress env hint phone w = (Fulfilled (Some fallbackAddress), w) /\
  (configured w = false ->
   exists r w',
     verifyMessageSignature env content sg fallbackAddress method w = (Fulfilled r, w') /\
     isValid r = (64 <=? length (JS.toLowerCase (stripHexPrefix sg)))
                 && (0 <? length (JS.trim content))).
Proof.
  intros [-> Hphone]. split.
  - unfold resolveSenderAddress. simpl.
    destruct phone as [[|c p]|]; try reflexivity.
    destruct Hphone as (r & Hr & Hdata).
    erewrite bind_fulfilled by exact Hr.
    destruct Hdata as [-> | ->]; reflexivity.
  - intros Hc.
    destruct (verifyMessageSignature_mock env content sg fallbackAddress method w Hc)
      as (r & w' & _ & Hrun & Hvalid & _).
    exists r, w'. split; assumption.
Qed.

Lemma unresolved_sender_falls_back_witness :
  resolveSenderAddress Samples.quiet [] (Some (lit "+15550199")) Samples.hosted
    = (Fulfilled (Some fallbackAddress), Samples.hosted).
Proof.
  apply (unresolved_sender_falls_back Samples.quiet [] (Some (lit "+15550199"))
           (lit "Hello world") (lit Samples.hex64) (lit "sms") Samples.hosted).
  split; [reflexivity|].
  eexists. split; [vm_compute; reflexivity | right; reflexivity].
Defined.

(** C1 as it is worded fails: with no backend configured, an SMS with an
    empty hint and no phone number is resolved to the fallback address and
    the verification that follows reports it valid. *)
Lemma fallback_sender_is_accepted :
  unresolvable (directory_fault Samples.quiet) [] None Samples.offline /\
  resolveSenderAddress Samples.quiet [] None Samples.offline
    = (Fulfilled (Some fallbackAddress), Samples.offline) /\
  (exists r w',
     verifyMessageSignature Samples.quiet (lit "Hello  world") (lit Samples.hex64)
       fallbackAddress (lit "sms") Samples.offline = (Fulfilled r, w') /\
     isValid r = true) /\
  (exists r w',
     verifySMSMessage Samples.quiet Samples.greeting None Samples.offline
       = (Fulfilled r, w') /\
     isValid r = true).
Proof.
  split; [split; [reflexivity | exact I]|].
  split; [reflexivity|].
  split; eexists; eexists; (split; [vm_compute; reflexivity | reflexivity]).
Qed.

Lemma verifyMessageSignature_error (env : Env) (content sg sender method : text)
    (w : World) :
  exists r w',
    verifyMessageSignature env content sg sender method w = (Fulfilled r, w') /\
    SupabaseVerificationService.error r
      <> Some (lit "Could not resolve sender wallet address").
Proof.
  destruct (verifyMessageSignature_by_answer (rpc_answer env) content sg sender method w)
    as (r & Herr & _ & Hall).
  destruct (Hall env eq_refl) as (w' & Hrun & _).
  exists r, w'. split; [exact Hrun|].
  destruct Herr as [-> | [-> | ->]]; intros H; vm_compute in H; discriminate H.
Qed.

(** C9 (as amended): [resolveSenderAddress] never answers [null].  When it
    returns, it returns the hint itself (which then starts with [did:] or
    [0x]), the wallet address of a verified organization listed under the
    phone number, or the fallback address; otherwise the directory query
    rejected.  In [verifySMSMessage] the branch "Could not resolve sender
    wallet address" is therefore taken only on an empty address, and that
    only comes from a directory row whose wallet address is the empty
    string. *)
Theorem resolver_never_null (env : Env) (hint : text) (phone : option text) (w : World) :
  fst (resolveSenderAddress env hint phone w) <> Fulfilled None /\
  ((exists a,
      resolveSenderAddress env hint phone w = (Fulfilled (Some a), w) /\
      ((a = hint /\
        (JS.startsWith (lit "did:") hint || JS.startsWith (lit "0x") hint) = true) \/
       a = fallbackAddress \/
       exists p o, phone = Some p /\ listedUnder p o w /\ a = wallet_address o)) \/
   (exists e, resolveSenderAddress env hint phone w = (Rejected e, w))) /\
  (forall s r w',
     verifySMSMessage env s phone w = (Fulfilled r, w') ->
     SupabaseVerificationService.error r
       = Some (lit "Could not resolve sender wallet address") ->
     exists p o, phone = Some p /\ listedUnder p o w /\ wallet_address o = []).
Proof.
  split; [|split].
  - destruct (resolveSenderAddress_cases env hint phone w)
      as [[H _]|[H|[[e H]|(p & o & _ & _ & _ & H)]]]; rewrite H; simpl; discriminate.
  - destruct (resolveSenderAddress_cases env hint phone w)
      as [(H & _ & Hshape)|[H|[[e H]|(p & o & Hp & _ & Hl & H)]]].
    + left. exists hint. split; [exact H|]. left. split; [reflexivity | exact Hshape].
    + left. exists fallbackAddress. split; [exact H|]. right. left. reflexivity.
    + right. exists e. exact H.
    + left. exists (wallet_address o). split; [exact H|]. right. right.
      exists p, o. repeat split; try assumption; apply Hl.
  - intros s r w' Hrun Herr.
    set (parsed := parseSMSMessage (clock w) s).
    assert (Hbody : forall r0 w0,
              (senderAddress0 <-
                 resolveSenderAddress env (senderAddress parsed) phone ;;
               match senderAddress0 with
               | Some (c0 :: address) =>
                   verifyMessageSignature env (content parsed)
                     (SupabaseVerificationService.signature parsed)
                     (c0 :: address) (lit "sms")
               | _ => ret (failure "Could not resolve sender wallet address")
               end) w = (Fulfilled r0, w0) ->
              JS.truthy (SupabaseVerificationService.signature parsed) = true ->
              verifySMSMessage env s phone w = (Fulfilled r0, w0)).
    { intros r0 w0 Hb Hsig. unfold verifySMSMessage. apply tryCatch_fulfilled.
      rewrite bind_get. fold parsed. rewrite Hsig. cbn [negb]. exact Hb. }
    destruct (JS.truthy (SupabaseVerificationService.signature parsed)) eqn:Hsig.
    + destruct (resolveSenderAddress_cases env (senderAddress parsed) phone w)
        as [(H & Hne & _)|[H|[[e H]|(p & o & Hp & _ & Hl & H)]]].
      * destruct (senderAddress parsed) as [|c a] eqn:Ha; [congruence|].
        destruct (verifyMessageSignature_error env (content parsed)
                    (SupabaseVerificationService.signature parsed) (c :: a) (lit "sms") w)
          as (r0 & w0 & Hv & Hno).
        rewrite (Hbody r0 w0) in Hrun
          by (try reflexivity; erewrite bind_fulfilled by exact H; exact Hv).
        injection Hrun as <- <-. contradiction.
      * destruct (verifyMessageSignature_error env (content parsed)
                    (SupabaseVerificationService.signature parsed) fallbackAddress
                    (lit "sms") w)
          as (r0 & w0 & Hv & Hno).
        rewrite (Hbody r0 w0) in Hrun
          by (try reflexivity; erewrite bind_fulfilled by exact H; exact Hv).
        injection Hrun as <- <-. contradiction.
      * clear Hbody. unfold verifySMSMessage in Hrun.
        erewrite tryCatch_rejected in Hrun
          by (rewrite bind_get; fold parsed; rewrite Hsig; cbn [negb];
              apply bind_rejected; exact H).
        unfold bind, Supabase.consoleError, ret in Hrun. simpl in Hrun.
        injection Hrun as <- <-. vm_compute in Herr. discriminate Herr.
      * destruct (wallet_address o) as [|c a] eqn:Hw.
        -- exists p, o. repeat split; try assumption; apply Hl.
        -- destruct (verifyMessageSignature_error env (content parsed)
                       (SupabaseVerificationService.signature parsed) (c :: a)
                       (lit "sms") w)
             as (r0 & w0 & Hv & Hno).
           rewrite (Hbody r0 w0) in Hrun
             by (try reflexivity; erewrite bind_fulfilled by exact H; exact Hv).
           injection Hrun as <- <-. contradiction.
    + clear Hbody. unfold verifySMSMessage in Hrun.
      erewrite tryCatch_fulfilled in Hrun
        by (rewrite bind_get; fold parsed; rewrite Hsig; reflexivity).
      injection Hrun as <- <-. vm_compute in Herr. discriminate Herr.
Qed.

(** C9 as it is worded fails: a verified organization whose wallet address
    is the empty string is listed under the sender's phone number; the
    resolver returns that empty address and [verifySMSMessage] takes the
    branch. *)
Lemma blank_wallet_reaches_branch :
  resolveSenderAddress Samples.quiet [] (Some (lit "+15550100")) Samples.hosted
    = (Fulfilled (Some []), Samples.hosted) /\
  verifySMSMessage Samples.quiet Samples.greeting (Some (lit "+15550100")) Samples.hosted
    = (Fulfilled (failure "Could not resolve sender wallet address"), Samples.hosted).
Proof.
  split; vm_compute; reflexivity.
Qed.

Lemma never_collides (d : MessageData) (rows : list VerifiedMessage) :
  message_hash d = None -> existsb (collides d) rows = false.
Proof.
  intros Hd. induction rows as [|r rows IH]; simpl; [reflexivity|].
  rewrite IH. unfold collides. rewrite Hd. now rewrite andb_false_r.
Qed.

Lemma saveVerificationResult_inserts (env : Env) (c sg sd : text)
    (org : option text) (det : option blob) (method : text) (w : World) (u : User) :
  configured w = true -> session w = Some u -> save_fault env = NoFault ->
  references (verifiedRow w c sg sd org det) (organizations w) = true ->
  exists w',
    saveVerificationResult env c sg sd org det method w = (Fulfilled tt, w') /\
    sameBackend w w' /\
    verified_messages w'
      = verified_messages w
        ++ [mkVerifiedMessage (Uuid (next_uuid w)) (verifiedRow w c sg sd org det) (clock w)] /\
    next_uuid w < next_uuid w'.
Proof.
  intros Hc Hs Hf Hfk.
  destruct (saveVerificationResult_effect env c sg sd org det method w)
    as (w' & Hrun & Hb & Hp).
  exists w'. split; [exact Hrun|]. split; [exact Hb|].
  (* the insert itself *)
  assert (Hins : saveVerifiedMessage (save_fault env) (verifiedRow w c sg sd org det) w
                 = (Fulfilled (mkReply (Some (mkVerifiedMessage (Uuid (next_uuid w))
                                   (verifiedRow w c sg sd org det) (clock w))) None),
                    setMessages w
                      (verified_messages w
                       ++ [mkVerifiedMessage (Uuid (next_uuid w))
                             (verifiedRow w c sg sd org det) (clock w)])
                      (S (next_uuid w)))).
  { unfold saveVerifiedMessage. rewrite bind_get, Hc, Hf. simpl.
    unfold insertVerifiedMessage. rewrite Hs.
    rewrite never_collides by reflexivity. rewrite Hfk. reflexivity. }
  revert Hrun. unfold saveVerificationResult.
  set (w1 := setMessages w _ (S (next_uuid w))) in Hins.
  destruct (getUser_cases (user_fault env) w1) as [[e Hu]|[Hu|(u' & Hsu & Hu)]].
  - erewrite tryCatch_rejected
      by (rewrite bind_get; erewrite bind_fulfilled by exact Hins;
          simpl; apply bind_rejected; exact Hu).
    intros [= <-]. simpl. split; [reflexivity | lia].
  - erewrite tryCatch_fulfilled
      by (rewrite bind_get; erewrite bind_fulfilled by exact Hins;
          simpl; erewrite bind_fulfilled by exact Hu; reflexivity).
    intros [= <-]. simpl. split; [reflexivity | lia].
  - set (ad := {| message_id := Uuid (next_uuid w); attempted_by := Some (user_id u');
                  verification_method := method; Supabase.success := true;
                  verification_data :=
                    [ (lit "timestamp", JNum (clock w1));
                      (lit "organization_id",
                       match org with Some o => JStr o | None => JNull end) ] |}).
    destruct (recordVerificationAttempt_cases (record_fault env) ad w1)
      as [[cc Hr']|(Hc' & r' & u'' & Hr' & Hu'' & Hby & Hrec)].
    + destruct cc as [a|e].
      * erewrite tryCatch_fulfilled
          by (rewrite bind_get; erewrite bind_fulfilled by exact Hins;
              simpl; erewrite bind_fulfilled by exact Hu;
              simpl; rewrite bind_get; erewrite bind_fulfilled by exact Hr'; reflexivity).
        intros [= <-]. simpl. split; [reflexivity | lia].
      * erewrite tryCatch_rejected
          by (rewrite bind_get; erewrite bind_fulfilled by exact Hins;
              simpl; erewrite bind_fulfilled by exact Hu;
              simpl; rewrite bind_get; apply bind_rejected; exact Hr').
        intros [= <-]. simpl. split; [reflexivity | lia].
    + erewrite tryCatch_fulfilled
        by (rewrite bind_get; erewrite bind_fulfilled by exact Hins;
            simpl; erewrite bind_fulfilled by exact Hu;
            simpl; rewrite bind_get; erewrite bind_fulfilled by exact Hrec; reflexivity).
      intros [= <-]. simpl. split; [reflexivity | lia].
Qed.

End Verification.

(** ** The cache synchroniser *)

Section Synchronisation.
Import DataSyncService.

Lemma resume_rank (a : answer) (p : pc) (d : Device) :
  rank (fst (resume a p d)) < rank p \/ (rank p = 0 /\ resume a p d = (p, d)).
Proof.
  destruct p as [| |j|[e|]| |j|[e|]|st|errs|st|e]; simpl;
    try (destruct a as [dt [er|]|er]; simpl; auto; lia);
    auto; try (left; lia).
Qed.

Lemma rank_finished (p : pc) : rank p = 0 <-> finished p = true.
Proof.
  destruct p; simpl; split; intros H; try reflexivity; try discriminate; try lia.
Qed.

Lemma run_finishes (answers : list answer) :
  forall p d, rank p <= length answers -> finished (fst (run answers p d)) = true.
Proof.
  induction answers as [|a rest IH]; intros p d Hlen; simpl in *.
  - apply rank_finished. lia.
  - destruct (resume a p d) as [p' d'] eqn:E.
    apply IH.
    destruct (resume_rank a p d) as [Hlt|[H0 Heq]].
    + rewrite E in Hlt. simpl in Hlt. lia.
    + rewrite E in Heq. injection Heq as -> ->. lia.
Qed.

Lemma resume_guardHeld (a : answer) (p : pc) (d : Device) :
  guardHeld p d -> guardHeld (fst (resume a p d)) (snd (resume a p d)).
Proof.
  destruct p as [| |j|[e|]| |j|[e|]|st|errs|st|e]; simpl; intros H;
    try contradiction;
    try (destruct a as [dt [er|]|er]; simpl; auto); auto.
Qed.

Lemma run_guardHeld (answers : list answer) :
  forall p d, guardHeld p d ->
    guardHeld (fst (run answers p d)) (snd (run answers p d)).
Proof.
  induction answers as [|a rest IH]; intros p d H; simpl; [exact H|].
  destruct (resume a p d) as [p' d'] eqn:E.
  apply IH. pose proof (resume_guardHeld a p d H) as H'. now rewrite E in H'.
Qed.

Lemma guardHeld_finished (p : pc) (d : Device) :
  guardHeld p d -> finished p = true -> syncInProgress d = false.
Proof.
  destruct p; simpl; intros H F; try discriminate; exact H.
Qed.

Lemma syncData_started (d : Device) (answers : list answer) :
  syncInProgress d = false ->
  syncData answers d
    = run answers AwaitOrganizations (request (lit "organizations") (setFlag true d)).
Proof.
  intros H. unfold syncData, invoke. now rewrite H.
Qed.

Lemma invoke_idle (d : Device) :
  syncInProgress d = false ->
  invoke d = (AwaitOrganizations, request (lit "organizations") (setFlag true d)).
Proof.
  intros H. unfold invoke. now rewrite H.
Qed.

Lemma cycles_request_organizations (d : Device) :
  cycles (request (lit "organizations") d) = S (cycles d).
Proof.
  unfold cycles. simpl. rewrite filter_app, length_app. simpl. lia.
Qed.

(** C10: a call of [syncData] that starts a sync (the flag was down)
    finishes once its answers have arrived, eight at most, and whenever it
    has finished the flag is down again, whatever the answers were: a query
    or a write that fails leads through [catch] and [finally] like any
    other.  The next call then starts a new fetch cycle. *)
Theorem sync_releases_guard (d : Device) (answers : list answer) :
  syncInProgress d = false ->
  (8 <= length answers -> finished (fst (syncData answers d)) = true) /\
  (finished (fst (syncData answers d)) = true ->
   syncInProgress (snd (syncData answers d)) = false /\
   fst (invoke (snd (syncData answers d))) = AwaitOrganizations /\
   cycles (snd (invoke (snd (syncData answers d))))
     = S (cycles (snd (syncData answers d)))).
Proof.
  intros Hidle. rewrite (syncData_started d answers Hidle).
  set (d0 := request (lit "organizations") (setFlag true d)).
  split.
  - intros Hlen. apply run_finishes. simpl. exact Hlen.
  - intros Hfin.
    assert (Hflag : syncInProgress (snd (run answers AwaitOrganizations d0)) = false).
    { apply (guardHeld_finished (fst (run answers AwaitOrganizations d0))); [|exact Hfin].
      apply run_guardHeld. reflexivity. }
    split; [exact Hflag|].
    rewrite (invoke_idle _ Hflag). split; [reflexivity|].
    cbn [snd]. rewrite cycles_request_organizations. reflexivity.
Qed.

Lemma sync_releases_guard_witness :
  fst (syncData Samples.outage Samples.handset)
    = Returned (mkStatus (lit "Never") 0 false [lit "Network request failed"]) /\
  syncInProgress (snd (syncData Samples.outage Samples.handset)) = false /\
  finished (fst (syncData Samples.smooth Samples.handset)) = true.
Proof.
  destruct (sync_releases_guard Samples.handset Samples.outage eq_refl) as [_ Hout].
  destruct (sync_releases_guard Samples.handset Samples.smooth eq_refl) as [Hsmooth _].
  split; [vm_compute; reflexivity|].
  split; [apply Hout; vm_compute; reflexivity | apply Hsmooth; vm_compute; lia].
Defined.

(** ** Calls in flight together *)

Lemma resume_cycles (a : answer) (p : pc) (d : Device) :
  cycles (snd (resume a p d)) = cycles d.
Proof.
  destruct p as [| |j|[e|]| |j|[e|]|st|errs|st|e]; simpl;
    try (destruct a as [dt [er|]|er]; simpl); try reflexivity.
  all: unfold cycles; simpl; rewrite filter_app, length_app; simpl; lia.
Qed.

Lemma step_deliver_cycles (i : nat) (a : answer) (c : Config) :
  cycles (device (step (Deliver i a) c)) = cycles (device c).
Proof.
  simpl. destruct (nth_error (calls c) i) as [p|]; [|reflexivity].
  pose proof (resume_cycles a p (device c)) as H.
  destruct (resume a p (device c)) as [p' d']. exact H.
Qed.

Lemma steps_deliveries_cycles (es : list event) :
  forallb isDelivery es = true ->
  forall c, cycles (device (steps es c)) = cycles (device c).
Proof.
  induction es as [|e es IH]; intros Hes c; simpl; [reflexivity|].
  simpl in Hes. apply andb_true_iff in Hes. destruct Hes as [He Hes].
  rewrite (IH Hes). destruct e as [|i a]; [discriminate|]. apply step_deliver_cycles.
Qed.

(** A call that finds the flag up only waits for the stored status. *)
Lemma invoke_guarded (d : Device) :
  syncInProgress d = true -> invoke d = (AwaitStatus, d).
Proof.
  intros H. unfold invoke. now rewrite H.
Qed.

Lemma filter_setNth_syncing (i : nat) (p p' : pc) (l : list pc) :
  nth_error l i = Some p ->
  length (filter syncing (setNth i p' l)) + (if syncing p then 1 else 0)
  = length (filter syncing l) + (if syncing p' then 1 else 0).
Proof.
  revert i. induction l as [|q l IH]; intros i H.
  - destruct i; discriminate.
  - destruct i as [|i]; simpl in H.
    + injection H as ->. simpl. destruct (syncing p), (syncing p'); simpl; lia.
    + simpl. specialize (IH i H). destruct (syncing q); simpl; lia.
Qed.

Lemma resume_syncing (a : answer) (p : pc) (d : Device) :
  (syncing p = false ->
     syncing (fst (resume a p d)) = false /\
     syncInProgress (snd (resume a p d)) = syncInProgress d) /\
  (syncing p = true ->
     (syncing (fst (resume a p d)) = true /\
      syncInProgress (snd (resume a p d)) = syncInProgress d) \/
     (syncing (fst (resume a p d)) = false /\
      syncInProgress (snd (resume a p d)) = false)).
Proof.
  destruct p as [| |j|[e|]| |j|[e|]|st|errs|st|e]; simpl; split; intros H;
    try discriminate;
    try (destruct a as [dt [er|]|er]; simpl); auto.
Qed.

(** The guard: at most one call is between taking the flag and its
    [finally], and the flag is up exactly while one is. *)
Lemma mutual_exclusion (es : list event) :
  forall c,
    syncingCalls c = (if syncInProgress (device c) then 1 else 0) ->
    syncingCalls (steps es c)
      = (if syncInProgress (device (steps es c)) then 1 else 0).
Proof.
  induction es as [|e es IH]; intros c Hc; simpl; [exact Hc|].
  apply IH. clear IH. unfold syncingCalls in *.
  destruct e as [|i a]; simpl.
  - unfold invoke. destruct (syncInProgress (device c)) eqn:Hf; simpl.
    + rewrite Hf. rewrite filter_app, length_app. simpl. lia.
    + rewrite filter_app, length_app. simpl. lia.
  - destruct (nth_error (calls c) i) as [p|] eqn:Hp; [|exact Hc].
    pose proof (filter_setNth_syncing i p (fst (resume a p (device c))) (calls c) Hp) as Hn.
    pose proof (resume_syncing a p (device c)) as [Hoff Hon].
    destruct (resume a p (device c)) as [p' d'] eqn:E. simpl in *.
    destruct (syncing p) eqn:Hs.
    + destruct (Hon eq_refl) as [[Hs' Hf']|[Hs' Hf']]; rewrite Hs' in Hn; rewrite Hf'.
      * lia.
      * destruct (syncInProgress (device c)); lia.
    + destruct (Hoff eq_refl) as [Hs' Hf']. rewrite Hs' in Hn. rewrite Hf'. lia.
Qed.

Lemma messageFetches_request_organizations (d : Device) :
  messageFetches (request (lit "organizations") d) = messageFetches d.
Proof.
  unfold messageFetches. simpl. rewrite filter_app, length_app. simpl. lia.
Qed.

Lemma resume_owed (a : answer) (p : pc) (d : Device) :
  messageFetches (snd (resume a p d)) + owesMessages (fst (resume a p d))
  <= messageFetches d + owesMessages p.
Proof.
  destruct p as [| |j|[e|]| |j|[e|]|st|errs|st|e]; simpl;
    try (destruct a as [dt [er|]|er]; simpl); try lia.
  all: unfold messageFetches; simpl; rewrite ?filter_app, ?length_app; simpl; lia.
Qed.

Lemma list_sum_setNth (f : pc -> nat) (i : nat) (p p' : pc) (l : list pc) :
  nth_error l i = Some p ->
  list_sum (map f (setNth i p' l)) + f p = list_sum (map f l) + f p'.
Proof.
  revert i. induction l as [|q l IH]; intros i H.
  - destruct i; discriminate.
  - destruct i as [|i]; simpl in H.
    + injection H as ->. simpl. lia.
    + simpl. specialize (IH i H). lia.
Qed.

Lemma step_owed (e : event) (c : Config) :
  owed (step e c) + cycles (device c) <= owed c + cycles (device (step e c)).
Proof.
  unfold owed. destruct e as [|i a]; simpl.
  - unfold invoke. destruct (syncInProgress (device c)); simpl.
    + rewrite map_app, list_sum_app. simpl. lia.
    + rewrite map_app, list_sum_app, messageFetches_request_organizations,
        cycles_request_organizations. simpl.
      unfold messageFetches, cycles. simpl. lia.
  - destruct (nth_error (calls c) i) as [p|] eqn:Hp; [|lia].
    pose proof (resume_owed a p (device c)) as Ho.
    pose proof (resume_cycles a p (device c)) as Hc.
    pose proof (list_sum_setNth owesMessages i p (fst (resume a p (device c))) (calls c) Hp)
      as Hs.
    destruct (resume a p (device c)) as [p' d']. simpl in *. lia.
Qed.

Lemma steps_owed (es : list event) :
  forall c, owed (steps es c) + cycles (device c) <= owed c + cycles (device (steps es c)).
Proof.
  induction es as [|e es IH]; intros c; simpl; [lia|].
  specialize (IH (step e c)). pose proof (step_owed e c). lia.
Qed.

Lemma setNth_length (A : Type) (i : nat) (x : A) (l : list A) :
  length (setNth i x l) = length l.
Proof.
  revert i. induction l as [|y l IH]; intros [|i]; simpl; auto.
Qed.

Lemma nth_error_setNth_other (A : Type) (i j : nat) (x : A) (l : list A) :
  i <> j -> nth_error (setNth i x l) j = nth_error l j.
Proof.
  revert i j. induction l as [|y l IH]; intros [|i] [|j] H; simpl; auto; try congruence.
Qed.

Lemma nth_error_setNth_same (A : Type) (i : nat) (x y : A) (l : list A) :
  nth_error l i = Some y -> nth_error (setNth i x l) i = Some x.
Proof.
  revert i. induction l as [|z l IH]; intros [|i] H; simpl in *; try discriminate; auto.
Qed.

Lemma resume_waitsForStatus (a : answer) (p : pc) (d : Device) :
  waitsForStatus p ->
  waitsForStatus (fst (resume a p d)) /\ snd (resume a p d) = d.
Proof.
  intros [->|[(st & -> & He & Hp)|(e & ->)]]; simpl.
  - destruct a as [dt er|e]; simpl; split; try reflexivity.
    + right. left. eexists. repeat split.
    + right. right. eexists. reflexivity.
  - split; [|reflexivity]. right. left. exists st. auto.
  - split; [|reflexivity]. right. right. exists e. reflexivity.
Qed.

Lemma steps_deliveries_call (es : list event) (k : nat) :
  forallb isDelivery es = true ->
  forall c p, nth_error (calls c) k = Some p -> waitsForStatus p ->
    exists p', nth_error (calls (steps es c)) k = Some p' /\ waitsForStatus p'.
Proof.
  induction es as [|e es IH]; intros Hes c p Hp Hw; simpl; [eauto|].
  simpl in Hes. apply andb_true_iff in Hes. destruct Hes as [He Hes].
  destruct e as [|i a]; [discriminate|]. simpl.
  destruct (nth_error (calls c) i) as [q|] eqn:Hq; [|eauto].
  destruct (Nat.eq_dec i k) as [->|Hne].
  - rewrite Hp in Hq. injection Hq as <-.
    destruct (resume_waitsForStatus a p (device c) Hw) as [Hw' _].
    destruct (resume a p (device c)) as [p' d'] eqn:E. simpl in Hw'.
    apply (IH Hes _ p'); [|exact Hw'].
    simpl. eapply nth_error_setNth_same. exact Hp.
  - destruct (resume a q (device c)) as [q' d'] eqn:E.
    apply (IH Hes _ p); [|exact Hw].
    simpl. rewrite nth_error_setNth_other by exact Hne. exact Hp.
Qed.

Lemma steps_deliveries_length (es : list event) :
  forallb isDelivery es = true ->
  forall c, length (calls (steps es c)) = length (calls c).
Proof.
  induction es as [|e es IH]; intros Hes c; simpl; [reflexivity|].
  simpl in Hes. apply andb_true_iff in Hes. destruct Hes as [He Hes].
  rewrite (IH Hes). destruct e as [|i a]; [discriminate|]. simpl.
  destruct (nth_error (calls c) i) as [q|]; [|reflexivity].
  destruct (resume a q (device c)) as [q' d']. simpl. apply setNth_length.
Qed.

Lemma steps_app (es1 es2 : list event) (c : Config) :
  steps (es1 ++ es2) c = steps es2 (steps es1 c).
Proof.
  revert c. induction es1 as [|e es IH]; intros c; simpl; [reflexivity | apply IH].
Qed.

(** Answers to other calls leave a call where it is. *)
Lemma steps_leaves_call (es : list event) (k : nat) :
  forallb isDelivery es = true ->
  forallb (notFor k) es = true ->
  forall c p, nth_error (calls c) k = Some p ->
    nth_error (calls (steps es c)) k = Some p.
Proof.
  induction es as [|e es IH]; intros Hes Hk c p Hp; simpl; [exact Hp|].
  simpl in Hes, Hk.
  apply andb_true_iff in Hes. destruct Hes as [He Hes].
  apply andb_true_iff in Hk. destruct Hk as [Hek Hk].
  destruct e as [|i a]; [discriminate|].
  apply (IH Hes Hk). simpl in Hek |- *.
  apply negb_true_iff, Nat.eqb_neq in Hek.
  destruct (nth_error (calls c) i) as [q|]; [|exact Hp].
  destruct (resume a q (device c)) as [q' d']. simpl.
  rewrite nth_error_setNth_other by exact Hek. exact Hp.
Qed.

(** A call that has settled stays as it is. *)
Lemma steps_settled_call (es : list event) (k : nat) :
  forallb isDelivery es = true ->
  forall c p, nth_error (calls c) k = Some p -> finished p = true ->
    nth_error (calls (steps es c)) k = Some p.
Proof.
  induction es as [|e es IH]; intros Hes c p Hp Hfin; simpl; [exact Hp|].
  simpl in Hes. apply andb_true_iff in Hes. destruct Hes as [He Hes].
  destruct e as [|i a]; [discriminate|].
  apply (IH Hes); [|exact Hfin]. simpl.
  destruct (nth_error (calls c) i) as [q|] eqn:Hq; [|exact Hp].
  destruct (Nat.eq_dec i k) as [->|Hne].
  - rewrite Hp in Hq. injection Hq as <-.
    assert (Hsame : resume a p (device c) = (p, device c))
      by (destruct p; try discriminate Hfin; reflexivity).
    rewrite Hsame. simpl. eapply nth_error_setNth_same. exact Hp.
  - destruct (resume a q (device c)) as [q' d']. simpl.
    rewrite nth_error_setNth_other by exact Hne. exact Hp.
Qed.

(** C8: two calls of [syncData] in flight together.  After the first call
    and any answers to it, if the flag is still up when the second call
    comes, that call touches nothing and only waits for the stored status;
    whatever answers then arrive, in whatever order, the two calls have begun
    exactly one fetch cycle and queried the messages at most once, and at
    most one call holds the guard, the flag being up exactly while one
    does.  The second call waits until the storage answers it; it then
    returns the status as the device has it at that moment: the stored time
    of the last sync when there is one and it is not empty, "Never"
    otherwise, no pending uploads, the flag as it stands and no errors (or
    it rejects with the error of the storage), and later answers do not
    change what it returned. *)
Theorem second_call_is_guarded (d : Device) (before after : list event) :
  forallb isDelivery before = true ->
  forallb isDelivery after = true ->
  syncInProgress (device (steps (Invoke :: before) (idle d))) = true ->
  device (step Invoke (steps (Invoke :: before) (idle d)))
    = device (steps (Invoke :: before) (idle d)) /\
  nth_error (calls (step Invoke (steps (Invoke :: before) (idle d)))) 1
    = Some AwaitStatus /\
  cycles (device (steps (Invoke :: before ++ Invoke :: after) (idle d)))
    = S (cycles d) /\
  messageFetches (device (steps (Invoke :: before ++ Invoke :: after) (idle d)))
    <= S (messageFetches d) /\
  (exists p,
     nth_error (calls (steps (Invoke :: before ++ Invoke :: after) (idle d))) 1 = Some p /\
     waitsForStatus p) /\
  (forallb (notFor 1) after = true ->
   nth_error (calls (steps (Invoke :: before ++ Invoke :: after) (idle d))) 1
   = Some AwaitStatus) /\
  (forall pre a post,
     after = pre ++ Deliver 1 a :: post ->
     forallb (notFor 1) pre = true ->
     nth_error (calls (steps (Invoke :: before ++ Invoke :: after) (idle d))) 1
     = Some
         match a with
         | Settles _ _ =>
             Returned
               (mkStatus
                  match getItem (lit "lastSync")
                          (storage (device (steps (Invoke :: before ++ Invoke :: pre)
                                              (idle d)))) with
                  | Some (c :: stamp) => c :: stamp
                  | _ => lit "Never"
                  end
                  0
                  (syncInProgress (device (steps (Invoke :: before ++ Invoke :: pre)
                                             (idle d))))
                  [])
         | Fails e => Thrown e
         end) /\
  syncingCalls (steps (Invoke :: before ++ Invoke :: after) (idle d))
    = (if syncInProgress (device (steps (Invoke :: before ++ Invoke :: after) (idle d)))
       then 1 else 0).
Proof.
  intros Hb Ha Hflag.
  set (c1 := steps (Invoke :: before) (idle d)) in *.
  assert (Hsplit : forall es, steps (Invoke :: before ++ Invoke :: es) (idle d)
                              = steps es (step Invoke c1)).
  { intros es. unfold c1.
    change (Invoke :: before ++ Invoke :: es)
      with ((Invoke :: before) ++ [Invoke] ++ es).
    rewrite !steps_app. reflexivity. }
  assert (Hlen1 : length (calls c1) = 1).
  { unfold c1. simpl. rewrite (steps_deliveries_length before Hb). reflexivity. }
  assert (Hc2 : step Invoke c1 = mkConfig (device c1) (calls c1 ++ [AwaitStatus])).
  { simpl. now rewrite (invoke_guarded _ Hflag). }
  assert (Hnth : nth_error (calls (step Invoke c1)) 1 = Some AwaitStatus).
  { rewrite Hc2. cbn [calls]. rewrite nth_error_app2 by lia. rewrite Hlen1. reflexivity. }
  assert (Hcyc1 : cycles (device c1) = S (cycles d)).
  { unfold c1. simpl. rewrite (steps_deliveries_cycles before Hb).
    cbn [step idle invoke device syncInProgress setFlag].
    rewrite cycles_request_organizations. reflexivity. }
  split; [rewrite Hc2; reflexivity|]. split; [exact Hnth|].
  rewrite !Hsplit.
  assert (Hcyc : cycles (device (steps after (step Invoke c1))) = S (cycles d)).
  { rewrite (steps_deliveries_cycles after Ha). rewrite Hc2. exact Hcyc1. }
  split; [exact Hcyc|]. split; [|split; [|split; [|split]]].
  - rewrite <- Hsplit.
    pose proof (steps_owed (Invoke :: before ++ Invoke :: after) (idle d)) as Ho.
    rewrite Hsplit in *. rewrite Hcyc in Ho. unfold owed in Ho. simpl in Ho.
    unfold cycles, messageFetches in *. simpl in *. lia.
  - apply (steps_deliveries_call after 1 Ha _ AwaitStatus Hnth). now left.
  - intros Hnone. exact (steps_leaves_call after 1 Ha Hnone _ _ Hnth).
  - intros pre a post -> Hpre.
    rewrite Hsplit.
    rewrite forallb_app in Ha. apply andb_true_iff in Ha. destruct Ha as [Hpre' Hpost].
    simpl in Hpost.
    pose proof (steps_leaves_call pre 1 Hpre' Hpre _ _ Hnth) as Hwait.
    rewrite steps_app.
    set (c2 := steps pre (step Invoke c1)) in *.
    change (steps (Deliver 1 a :: post) c2) with (steps post (step (Deliver 1 a) c2)).
    apply (steps_settled_call post 1 Hpost).
    + cbn [step]. rewrite Hwait.
      destruct a as [dt er|e]; cbn [resume calls];
        (eapply nth_error_setNth_same; exact Hwait).
    + destruct a; reflexivity.
  - rewrite <- Hsplit. apply mutual_exclusion. reflexivity.
Qed.

Lemma second_call_is_guarded_witness :
  cycles (device (steps
    (Invoke :: [Deliver 0 (Settles (Some (lit "[]")) None)]
       ++ Invoke :: [Deliver 0 (Settles None None); Deliver 1 (Settles None None);
                     Deliver 0 (Settles (Some (lit "[]")) None)])
    (idle Samples.synced))) = 1 /\
  nth_error (calls (steps
    (Invoke :: [Deliver 0 (Settles (Some (lit "[]")) None)]
       ++ Invoke :: [Deliver 0 (Settles None None); Deliver 1 (Settles None None);
                     Deliver 0 (Settles (Some (lit "[]")) None)])
    (idle Samples.synced))) 1
  = Some (Returned (mkStatus (lit "2024-12-31T23:59:59.000Z") 0 true [])).
Proof.
  destruct (second_call_is_guarded Samples.synced
              [Deliver 0 (Settles (Some (lit "[]")) None)]
              [Deliver 0 (Settles None None); Deliver 1 (Settles None None);
               Deliver 0 (Settles (Some (lit "[]")) None)]
              eq_refl eq_refl eq_refl) as (_ & _ & Hc & _ & _ & _ & Hst & _).
  split; [exact Hc|].
  exact (Hst [Deliver 0 (Settles None None)] (Settles None None)
           [Deliver 0 (Settles (Some (lit "[]")) None)] eq_refl eq_refl).
Defined.

End Synchronisation.

(** ** Anchored patterns *)

Section Anchored.
Import Regex RegexTools Language.

Lemma anyDown_true (f : nat -> bool) (lo k : nat) :
  anyDown f lo k = true <-> exists j, lo <= j /\ j <= k /\ f j = true.
Proof.
  induction k as [|k IH]; simpl.
  - destruct (0 <? lo) eqn:E.
    + apply Nat.ltb_lt in E. split; [discriminate|]. intros (j & ? & ? & _). lia.
    + apply Nat.ltb_ge in E. rewrite orb_false_r. split.
      * intros H. exists 0. auto.
      * intros (j & ? & ? & H). assert (j = 0) by lia. now subst.
  - destruct (S k <? lo) eqn:E.
    + apply Nat.ltb_lt in E. split; [discriminate|]. intros (j & ? & ? & _). lia.
    + apply Nat.ltb_ge in E. rewrite orb_true_iff, IH. split.
      * intros [H|(j & ? & ? & H)]; [exists (S k) | exists j]; auto.
      * intros (j & ? & ? & H).
        destruct (Nat.eq_dec j (S k)) as [->|]; [now left | right; exists j].
        repeat split; auto; lia.
Qed.

(** An anchored test accepts exactly the words of the pattern. *)
Lemma match_to_end_iff (ic : bool) (pat : list node) :
  forall s, match_to_end ic pat s = true <-> exists marks, Matches ic pat s marks.
Proof.
  induction pat as [|nd pat IH]; intros s.
  - simpl. destruct s; split.
    + intros _. exists []. constructor.
    + reflexivity.
    + discriminate.
    + intros (marks & H). inversion H.
  - destruct nd as [c|cls lo hi| |]; simpl.
    + destruct s as [|x s].
      * split; [discriminate | intros (marks & H); inversion H].
      * rewrite andb_true_iff, IH. split.
        -- intros (Hc & marks & H). exists (map (Nat.add 1) marks). now constructor.
        -- intros (marks & H). inversion H; subst. split; [assumption | eauto].
    + rewrite anyDown_true. split.
      * intros (j & Hlo & Hj & H). apply IH in H. destruct H as (marks & H).
        pose proof (runLength_le (classMatches ic cls) hi 0 s) as Hlen.
        destruct (runLength_prefix (classMatches ic cls) hi s 0 j) as [Hall Hw];
          [destruct hi; simpl; [lia | exact I] | exact Hj |].
        assert (Hl : length (firstn j s) = j) by (rewrite length_firstn; lia).
        rewrite <- (firstn_skipn j s).
        exists (map (Nat.add (length (firstn j s))) marks).
        constructor; [exact Hall | lia | now rewrite Hl | exact H].
      * intros (marks & H). inversion H; subst.
        exists (length r). split; [assumption|]. split.
        -- rewrite <- (app_nil_r w) at 1. rewrite app_assoc.
           rewrite <- app_assoc. apply runLength_covers; assumption.
        -- rewrite skipn_app, skipn_all, Nat.sub_diag. simpl. apply IH. eauto.
    + rewrite IH. split; intros (marks & H).
      * exists (0 :: marks). constructor. exact H.
      * inversion H; subst. eauto.
    + rewrite IH. split; intros (marks & H).
      * exists (0 :: marks). constructor. exact H.
      * inversion H; subst. eauto.
Qed.

End Anchored.

(** ** services/SMSService: the sender of an SMS *)

Section SenderInfo.
Import Regex RegexTools Language SMSTools.

Lemma plus_only (c : ascii) : inRanges [one "+"] c = true -> c = "+"%char.
Proof.
  destruct c as [[] [] [] [] [] [] [] []]; vm_compute; intros H;
    solve [reflexivity | discriminate H].
Qed.

Lemma inRanges_app (a b : list (ascii * ascii)) (c : ascii) :
  inRanges (a ++ b) c = inRanges a c || inRanges b c.
Proof. unfold inRanges. apply existsb_app. Qed.

Lemma phone_char (c : ascii) :
  inRanges phoneClass c = true -> inRanges separatorClass c = false ->
  inRanges digitClass c = true.
Proof.
  unfold phoneClass. rewrite inRanges_app. fold separatorClass.
  intros H Hs. rewrite Hs, orb_false_r in H. exact H.
Qed.

Lemma digits_remain (r : text) :
  forallb (inRanges phoneClass) r = true ->
  forallb (inRanges digitClass) (removeClass separatorClass r) = true.
Proof.
  unfold removeClass.
  induction r as [|c r IH]; cbn [forallb filter]; [reflexivity|].
  intros H. apply andb_true_iff in H. destruct H as [Hc Hr].
  destruct (inRanges separatorClass c) eqn:Hs; cbn [negb forallb]; [now apply IH|].
  rewrite (phone_char c Hc Hs). now apply IH.
Qed.

Lemma removeClass_length (cls : list (ascii * ascii)) (s : text) :
  length (removeClass cls s) <= length s.
Proof. apply filter_length_le. Qed.

Lemma shortCode_iff (s : text) :
  match_to_end false shortCodeRegex s = true <->
  (3 <= length s <= 6 /\ forallb (inRanges digitClass) s = true).
Proof.
  rewrite match_to_end_iff. unfold shortCodeRegex. split.
  - intros (marks & H). inversion H; subst.
    match goal with Hm : Matches _ [] _ _ |- _ => inversion Hm; subst end.
    rewrite app_nil_r. simpl in *. auto.
  - intros [Hlen Hall].
    exists (map (Nat.add (length s)) []).
    rewrite <- (app_nil_r s) at 1.
    constructor; [exact Hall | lia | simpl; lia | constructor].
Qed.

(** X1: [extractSenderInfo].  A sender is a short code exactly when it is
    three to six digits, and is then returned as it is; every phone number
    returned is no longer than the sender and is made of digits behind at
    most one leading [+] (white space, dashes and parentheses are gone); a
    sender that is neither is returned as a display name. *)
Theorem sender_is_classified (sender : text) :
  (isShortCode (extractSenderInfo sender) = Some true <->
   (3 <= length sender <= 6 /\ forallb (inRanges digitClass) sender = true)) /\
  (isShortCode (extractSenderInfo sender) = Some true ->
   phoneNumber (extractSenderInfo sender) = Some sender) /\
  (forall p,
     phoneNumber (extractSenderInfo sender) = Some p ->
     displayName (extractSenderInfo sender) = None /\
     length p <= length sender /\
     forallb (inRanges digitClass)
       (match p with
        | c :: rest => if Ascii.eqb c "+" then rest else p
        | [] => p
        end) = true) /\
  (phoneNumber (extractSenderInfo sender) = None ->
   displayName (extractSenderInfo sender) = Some sender).
Proof.
  unfold extractSenderInfo.
  destruct (match_to_end false shortCodeRegex sender) eqn:Hshort.
  - apply shortCode_iff in Hshort. destruct Hshort as [Hlen Hall].
    simpl. split; [split; auto|]. split; [reflexivity|]. split; [|discriminate].
    intros p [= <-]. split; [reflexivity|]. split; [lia|].
    destruct sender as [|c rest]; [reflexivity|].
    destruct (Ascii.eqb c "+") eqn:Hc; [|exact Hall].
    apply Ascii.eqb_eq in Hc. subst c. simpl in Hall. discriminate Hall.
  - assert (Hno : ~ (3 <= length sender <= 6 /\
                     forallb (inRanges digitClass) sender = true)).
    { intros H. apply shortCode_iff in H. congruence. }
    destruct (match_to_end false phoneRegex sender) eqn:Hphone; simpl.
    + split; [split; [discriminate | intros H; contradiction]|].
      split; [discriminate|]. split; [|discriminate].
      intros p [= <-]. split; [reflexivity|]. split; [apply removeClass_length|].
      apply match_to_end_iff in Hphone. destruct Hphone as (marks & H).
      unfold phoneRegex in H. inversion H; subst.
      match goal with Hm : Matches _ [Rep _ _ _] _ _ |- _ => inversion Hm; subst end.
      match goal with Hm : Matches _ [] _ _ |- _ => inversion Hm; subst end.
      rewrite app_nil_r.
      match goal with
      | Hb : forallb (classMatches false phoneClass) ?body = true,
        Hp : forallb (classMatches false [one "+"]) ?plus = true,
        Hw : within (Some 1) (length ?plus) |- _ =>
          pose proof (digits_remain body Hb) as Hd;
          unfold removeClass in *; rewrite filter_app;
          destruct plus as [|c [|c' plus']]; simpl in Hw; [| |lia];
          [ simpl;
            destruct (filter _ body) as [|c rest]; [reflexivity|];
            destruct (Ascii.eqb c "+") eqn:Hc; [|exact Hd];
            apply Ascii.eqb_eq in Hc; subst c; simpl in Hd; discriminate Hd
          | simpl in Hp; rewrite andb_true_r in Hp; apply plus_only in Hp; subst c;
            simpl; exact Hd ]
      end.
    + split; [split; [discriminate | intros H; contradiction]|].
      split; [discriminate|]. split; [discriminate | reflexivity].
Qed.

End SenderInfo.

(** ** services/SMSService: recognising, generating and cleaning *)

Section SmsRoundTrip.
Import Regex RegexTools Language SMSTools.

Lemma tryPatterns_signature (ps : list SMSService.SMSSignaturePattern) (s : text) :
  existsb (fun p => test (SMSService.pattern p) s) ps = true <->
  fst (fst (SMSService.tryPatterns ps s)) <> None.
Proof.
  induction ps as [|p ps IH]; simpl.
  - split; [discriminate | congruence].
  - unfold test at 1. destruct (exec (SMSService.pattern p) s) as [m|]; simpl.
    + split; [discriminate | reflexivity].
    + exact IH.
Qed.

Lemma tryPatterns_block (ps : list SMSService.SMSSignaturePattern) (s : text) :
  fst (fst (SMSService.tryPatterns ps s)) = None <->
  snd (SMSService.tryPatterns ps s) = None.
Proof.
  induction ps as [|p ps IH]; simpl; [tauto|].
  destruct (exec (SMSService.pattern p) s) as [m|]; simpl; [|exact IH].
  split; discriminate.
Qed.

(** X2: [containsValidSignature] holds exactly of the messages from which
    [parseSMSMessage] extracts a signature (and a signature block). *)
Theorem recognised_iff_extracted (now : Z) (messageText : text) (sender : option text) :
  SMSService.containsValidSignature messageText = true <->
  SMSService.signature (SMSService.parseSMSMessage now messageText sender) <> None /\
  SMSService.signatureBlock (SMSService.parseSMSMessage now messageText sender) <> None.
Proof.
  unfold SMSService.containsValidSignature, SMSService.parseSMSMessage.
  rewrite tryPatterns_signature.
  pose proof (tryPatterns_block SMSService.signaturePatterns messageText) as Hb.
  destruct (SMSService.tryPatterns SMSService.signaturePatterns messageText)
    as [[sg ct] bl]. simpl in *.
  split.
  - intros H. split; [exact H|]. intros Hbl. apply H. now apply Hb.
  - tauto.
Qed.

(** The characters of a word are characters its pattern takes. *)
Lemma word_chars (ic : bool) (pat : list node) (w : text) (marks : list nat) :
  Matches ic pat w marks ->
  forall x, In x w -> existsb (consumes ic x) pat = true.
Proof.
  induction 1 as [|c y pat w marks Hc HM IH|cls lo hi pat r w marks Hall Hlo Hhi HM IH
                  |pat w marks HM IH|pat w marks HM IH]; intros x Hx; simpl.
  - destruct Hx.
  - destruct Hx as [<-|Hx]; [now rewrite Hc | rewrite (IH x Hx); apply orb_true_r].
  - apply in_app_or in Hx. destruct Hx as [Hx|Hx].
    + rewrite forallb_forall in Hall. now rewrite (Hall x Hx).
    + rewrite (IH x Hx). apply orb_true_r.
  - auto.
  - auto.
Qed.

Lemma firstn_app_short (A : Type) (n : nat) (a b : list A) :
  n <= length a -> firstn n (a ++ b) = firstn n a.
Proof.
  intros H. rewrite firstn_app. replace (n - length a) with 0 by lia.
  simpl. apply app_nil_r.
Qed.

(** In front of a character no word of the pattern contains, the search
    finds in [a ++ x :: b] what it finds in [a]. *)
Lemma match_here_before_gap (ic : bool) (pat : list node) (x : ascii) (a b : text) :
  existsb (consumes ic x) pat = false ->
  match_here ic pat a = None ->
  match_here ic pat (a ++ x :: b) = None.
Proof.
  intros Hx Ha.
  destruct (match_here ic pat (a ++ x :: b)) as [[n marks]|] eqn:E; [|reflexivity].
  exfalso.
  destruct (match_here_sound _ _ _ _ _ E) as [Hn HM].
  assert (Hle : n <= length a).
  { destruct (Nat.le_gt_cases n (length a)) as [|Hgt]; [assumption|].
    assert (Hin : In x (firstn n (a ++ x :: b))).
    { rewrite firstn_app. apply in_or_app. right.
      destruct (n - length a) as [|k] eqn:Hk; [lia|]. simpl. now left. }
    pose proof (word_chars _ _ _ _ HM x Hin). congruence. }
  rewrite firstn_app_short in HM by exact Hle.
  apply (match_here_complete _ _ _ _ HM (skipn n a)).
  now rewrite firstn_skipn.
Qed.

Lemma search_index (ic : bool) (pat : list node) (s : text) :
  forall i,
    search ic pat s i
    = option_map (fun m => mkMatch (i + index m) (whole m) (groups m))
                 (search ic pat s 0).
Proof.
  induction s as [|x s IH]; intros i; simpl.
  - destruct (match_here ic pat []) as [[n marks]|]; simpl; [|reflexivity].
    now rewrite Nat.add_0_r.
  - destruct (match_here ic pat (x :: s)) as [[n marks]|]; simpl.
    + now rewrite Nat.add_0_r.
    + rewrite (IH (S i)), (IH 1).
      destruct (search ic pat s 0) as [m|]; simpl; [|reflexivity].
      f_equal. f_equal. lia.
Qed.

Lemma search_past_gap (ic : bool) (pat : list node) (x : ascii) (a b : text) :
  existsb (consumes ic x) pat = false ->
  search ic pat a 0 = None ->
  forall i, search ic pat (a ++ x :: b) i = search ic pat b (i + length a + 1).
Proof.
  intros Hx. induction a as [|y a IH]; intros Ha i.
  - assert (Hnil : match_here ic pat [] = None).
    { simpl in Ha. destruct (match_here ic pat []) as [[n m]|];
        [discriminate | reflexivity]. }
    pose proof (match_here_before_gap ic pat x [] b Hx Hnil) as Hg.
    cbn [app] in *. cbn [search]. rewrite Hg. f_equal. simpl. lia.
  - simpl in Ha.
    destruct (match_here ic pat (y :: a)) as [[n m]|] eqn:E; [discriminate|].
    pose proof (match_here_before_gap ic pat x (y :: a) b Hx E) as Hg.
    cbn [app] in *. cbn [search]. rewrite Hg.
    rewrite IH.
    + f_equal. simpl. lia.
    + rewrite search_index in Ha.
      destruct (search ic pat a 0); [discriminate | reflexivity].
Qed.

(** A pattern that finds nothing in the message finds in the generated
    SMS what it finds in the tag appended to it. *)
Lemma exec_generated (re : RegExp) (message tag : text) :
  existsb (consumes (ignoreCase re) " "%char) (nodes re) = false ->
  test re message = false ->
  exec re (message ++ lit " " ++ tag)
  = option_map (fun m => mkMatch (length message + 1 + index m) (whole m) (groups m))
               (exec re tag).
Proof.
  intros Hsp Hno. unfold exec.
  apply test_false in Hno. unfold exec in Hno.
  change (message ++ lit " " ++ tag) with (message ++ " "%char :: tag).
  rewrite (search_past_gap _ _ _ _ _ Hsp Hno 0).
  now rewrite search_index.
Qed.

End SmsRoundTrip.

Section SmsRoundTrip2.
Import Regex RegexTools Language SMSTools.

Lemma trimStart_snoc (s : text) (c : ascii) :
  JS.isWhiteSpace c = true ->
  JS.trimStart (s ++ [c])
  = match JS.trimStart s with
    | [] => []
    | t => t ++ [c]
    end.
Proof.
  intros Hc. induction s as [|x s IH]; simpl.
  - now rewrite Hc.
  - destruct (JS.isWhiteSpace x); [exact IH | reflexivity].
Qed.

Lemma trimEnd_snoc (s : text) (c : ascii) :
  JS.isWhiteSpace c = true -> JS.trimEnd (s ++ [c]) = JS.trimEnd s.
Proof.
  intros Hc. unfold JS.trimEnd. rewrite rev_app_distr. simpl. now rewrite Hc.
Qed.

(** White space at the end does not survive [trim]. *)
Lemma trim_snoc (s : text) (c : ascii) :
  JS.isWhiteSpace c = true -> JS.trim (s ++ [c]) = JS.trim s.
Proof.
  intros Hc. unfold JS.trim. rewrite (trimStart_snoc s c Hc).
  destruct (JS.trimStart s) as [|x t]; [reflexivity|].
  apply (trimEnd_snoc (x :: t) c Hc).
Qed.

Lemma not_recognised (messageText : text) :
  SMSService.containsValidSignature messageText = false ->
  forall p, In p SMSService.signaturePatterns ->
            test (SMSService.pattern p) messageText = false.
Proof.
  unfold SMSService.containsValidSignature. intros H p Hp.
  destruct (test (SMSService.pattern p) messageText) eqn:E; [|reflexivity].
  assert (Ht : existsb (fun q => test (SMSService.pattern q) messageText)
                       SMSService.signaturePatterns = true).
  { apply existsb_exists. exists p. auto. }
  congruence.
Qed.

Lemma around_generated (message tag : text) (groups_ : list text) :
  around (mkMatch (length message + 1 + 0) tag groups_) (message ++ lit " " ++ tag)
  = message ++ lit " ".
Proof.
  unfold around. cbn [index whole].
  change (message ++ lit " " ++ tag) with (message ++ " "%char :: tag).
  replace (message ++ " "%char :: tag) with ((message ++ lit " ") ++ tag)
    by (rewrite <- app_assoc; reflexivity).
  assert (Hl : length (message ++ lit " ") = length message + 1 + 0).
  { rewrite length_app. simpl. lia. }
  rewrite <- Hl.
  rewrite firstn_app, firstn_all, Nat.sub_diag. simpl firstn. rewrite app_nil_r.
  rewrite skipn_app.
  rewrite skipn_all2 by lia.
  replace (length (message ++ lit " ") + length tag - length (message ++ lit " "))
    with (length tag) by lia.
  rewrite skipn_all. rewrite app_nil_r. reflexivity.
Qed.

Ltac generated_exec Hno :=
  repeat match goal with
         | |- context [exec ?re (?message ++ lit " " ++ ?tag)] =>
             rewrite (exec_generated re message tag)
               by (first [ reflexivity
                         | first
                             [ apply (Hno SMSService.standard_hex)
                             | apply (Hno SMSService.base64_signature)
                             | apply (Hno SMSService.web3_signature)
                             | apply (Hno SMSService.did_signature)
                             | apply (Hno SMSService.ethereum_signature) ];
                           simpl; tauto ])
         end.

(** X3: the round trip of [generateTestSMS] and [parseSMSMessage] for the
    [hex] and [base64] types.  From the SMS generated for a message in which
    no signature is recognised, the extractor returns the signature of the
    table, the message itself (trimmed) and the generated block. *)
Theorem generated_sms_round_trip (now : Z) (message : text) (sender : option text)
    (t : signatureType) :
  SMSService.containsValidSignature message = false ->
  t = hex \/ t = base64 ->
  exists payload,
    signatures t
      = (match t with hex => lit "[SIG:" | _ => lit "[SIGNATURE:" end)
        ++ payload ++ lit "]" /\
    SMSService.signature (SMSService.parseSMSMessage now (generateTestSMS message t) sender)
      = Some payload /\
    SMSService.extractedContent
      (SMSService.parseSMSMessage now (generateTestSMS message t) sender)
      = JS.trim message /\
    SMSService.signatureBlock
      (SMSService.parseSMSMessage now (generateTestSMS message t) sender)
      = Some (signatures t).
Proof.
  intros Hnone Ht. pose proof (not_recognised message Hnone) as Hno.
  unfold SMSService.parseSMSMessage, generateTestSMS, SMSService.signaturePatterns.
  destruct Ht as [-> | ->].
  - exists (lit "a1b2c3d4e5f6789012345678901234567890abcdef1234567890abcdef123456").
    split; [vm_compute; reflexivity|].
    assert (Hm : exec reSIG (message ++ lit " " ++ signatures hex)
                 = Some (mkMatch (length message + 1 + 0) (signatures hex)
                           [lit "a1b2c3d4e5f6789012345678901234567890abcdef1234567890abcdef123456"])).
    { generated_exec Hno.
      replace (exec reSIG (signatures hex))
        with (Some (mkMatch 0 (signatures hex)
                [lit "a1b2c3d4e5f6789012345678901234567890abcdef1234567890abcdef123456"]))
        by (vm_compute; reflexivity).
      reflexivity. }
    rewrite (sms_hit SMSService.standard_hex _ _ _ Hm).
    cbn [SMSService.signature SMSService.extractedContent SMSService.signatureBlock
         SMSService.extractor SMSService.standard_hex whole].
    rewrite around_generated. change (lit " ") with [" "%char].
    rewrite (trim_snoc message " "%char eq_refl).
    repeat split.
  - exists (lit "SGVsbG8gV29ybGQgVGhpcyBJcyBBIFRlc3QgU2lnbmF0dXJlIEZvciBEZW1vbnN0cmF0aW9u").
    split; [vm_compute; reflexivity|].
    assert (H1 : exec reSIG (message ++ lit " " ++ signatures base64) = None).
    { generated_exec Hno.
      replace (exec reSIG (signatures base64)) with (@None MatchArray)
        by (vm_compute; reflexivity).
      reflexivity. }
    assert (Hm : exec reSIGNATURE (message ++ lit " " ++ signatures base64)
                 = Some (mkMatch (length message + 1 + 0) (signatures base64)
                           [lit "SGVsbG8gV29ybGQgVGhpcyBJcyBBIFRlc3QgU2lnbmF0dXJlIEZvciBEZW1vbnN0cmF0aW9u"])).
    { generated_exec Hno.
      replace (exec reSIGNATURE (signatures base64))
        with (Some (mkMatch 0 (signatures base64)
                [lit "SGVsbG8gV29ybGQgVGhpcyBJcyBBIFRlc3QgU2lnbmF0dXJlIEZvciBEZW1vbnN0cmF0aW9u"]))
        by (vm_compute; reflexivity).
      reflexivity. }
    rewrite (sms_skip SMSService.standard_hex _ _ H1).
    rewrite (sms_hit SMSService.base64_signature _ _ _ Hm).
    cbn [SMSService.signature SMSService.extractedContent SMSService.signatureBlock
         SMSService.extractor SMSService.base64_signature whole].
    rewrite around_generated. change (lit " ") with [" "%char].
    rewrite (trim_snoc message " "%char eq_refl).
    repeat split.
Qed.


Lemma generated_sms_round_trip_witness :
  SMSService.signature
    (SMSService.parseSMSMessage 0 (generateTestSMS (lit "Your code is 4711") hex) None)
  <> None.
Proof.
  destruct (generated_sms_round_trip 0 (lit "Your code is 4711") None hex)
    as [payload [_ [Hs _]]].
  - vm_compute. reflexivity.
  - left. reflexivity.
  - rewrite Hs. discriminate.
Defined.

(** X4: the [web3] and [ethereum] rows of the table of [generateTestSMS] are
    not tags of the extractor: their payloads have 80 and 128 hexadecimal
    digits, the patterns want at least 128 and exactly 130.  The SMS
    generated from a message without a signature has none either, and the
    extractor returns it whole. *)
Theorem generated_sms_not_recognised (now : Z) (message : text) (sender : option text)
    (t : signatureType) :
  SMSService.containsValidSignature message = false ->
  t = web3 \/ t = ethereum ->
  SMSService.containsValidSignature (generateTestSMS message t) = false /\
  SMSService.signature (SMSService.parseSMSMessage now (generateTestSMS message t) sender)
    = None /\
  SMSService.extractedContent
    (SMSService.parseSMSMessage now (generateTestSMS message t) sender)
    = generateTestSMS message t.
Proof.
  intros Hnone Ht. pose proof (not_recognised message Hnone) as Hno.
  assert (Hex : forall p, In p SMSService.signaturePatterns ->
                  exec (SMSService.pattern p) (generateTestSMS message t) = None).
  { intros p Hp. unfold generateTestSMS.
    simpl in Hp.
    destruct Ht as [-> | ->];
      repeat (destruct Hp as [<- | Hp]; [| ]); try contradiction;
      (rewrite exec_generated; [| reflexivity | apply Hno; simpl; tauto]);
      match goal with
      | |- option_map _ ?e = None =>
          replace e with (@None MatchArray) by (vm_compute; reflexivity)
      end; reflexivity. }
  split.
  - unfold SMSService.containsValidSignature.
    destruct (existsb _ _) eqn:E; [|reflexivity].
    apply existsb_exists in E. destruct E as [p [Hp Htest]].
    unfold test in Htest. now rewrite (Hex p Hp) in Htest.
  - unfold SMSService.parseSMSMessage, SMSService.signaturePatterns.
    rewrite !sms_skip by (apply Hex; simpl; tauto).
    cbn. auto.
Qed.

Lemma generated_sms_not_recognised_witness :
  SMSService.containsValidSignature (generateTestSMS (lit "Your code is 4711") ethereum)
  = false.
Proof.
  apply (generated_sms_not_recognised 0 (lit "Your code is 4711") None ethereum).
  - vm_compute. reflexivity.
  - right. reflexivity.
Defined.

End SmsRoundTrip2.

Section Cleaning.
Import Regex RegexTools Language SMSTools.

Lemma squeeze_head (s : text) :
  match s, squeeze s with
  | [], [] => True
  | c :: _, d :: _ => JS.isWhiteSpace d = JS.isWhiteSpace c
  | _, _ => False
  end.
Proof.
  induction s as [|c s IH]; [exact I|].
  cbn [squeeze]. destruct (JS.isWhiteSpace c) eqn:Ec.
  - destruct s as [|c' s']; [reflexivity|].
    destruct (JS.isWhiteSpace c') eqn:Ec'.
    + destruct (squeeze (c' :: s')) as [|d r]; [contradiction|]. congruence.
    + reflexivity.
  - exact Ec.
Qed.

Lemma squeeze_tidy (s : text) : tidy (squeeze s) = true.
Proof.
  induction s as [|c s IH]; [reflexivity|].
  cbn [squeeze]. destruct (JS.isWhiteSpace c) eqn:Ec.
  - destruct s as [|c' s']; [reflexivity|].
    destruct (JS.isWhiteSpace c') eqn:Ec'; [exact IH|].
    pose proof (squeeze_head (c' :: s')) as Hh. cbn beta iota in Hh.
    cbn [tidy]. rewrite IH.
    destruct (squeeze (c' :: s')) as [|d r]; [destruct Hh|].
    rewrite Hh, Ec'. reflexivity.
  - cbn [tidy]. rewrite Ec, IH. reflexivity.
Qed.

Lemma tidy_squeeze (s : text) : tidy s = true -> squeeze s = s.
Proof.
  induction s as [|c s IH]; [reflexivity|].
  cbn [tidy squeeze]. intros H. apply andb_true_iff in H. destruct H as [Hc Hs].
  rewrite (IH Hs).
  destruct (JS.isWhiteSpace c); [|reflexivity].
  apply andb_true_iff in Hc. destruct Hc as [Hsp Hnext].
  apply Ascii.eqb_eq in Hsp. subst c.
  destruct s as [|c' s']; [reflexivity|].
  apply negb_true_iff in Hnext. rewrite Hnext. reflexivity.
Qed.

Lemma tidy_suffix (a b : text) : tidy (a ++ b) = true -> tidy b = true.
Proof.
  induction a as [|c a IH]; [auto|].
  cbn [app tidy]. intros H. apply andb_true_iff in H. apply IH, H.
Qed.

Lemma tidy_prefix (a b : text) : tidy (a ++ b) = true -> tidy a = true.
Proof.
  induction a as [|c a IH]; [reflexivity|].
  cbn [app tidy]. intros H. apply andb_true_iff in H. destruct H as [Hc Hs].
  rewrite (IH Hs), andb_true_r.
  destruct (JS.isWhiteSpace c); [|reflexivity].
  apply andb_true_iff in Hc. destruct Hc as [Hsp Hnext]. rewrite Hsp.
  destruct a as [|c' a']; [reflexivity|]. exact Hnext.
Qed.

Lemma trimStart_suffix (s : text) : exists a, s = a ++ JS.trimStart s.
Proof.
  induction s as [|c s [a IH]]; [now exists []|].
  cbn [JS.trimStart]. destruct (JS.isWhiteSpace c).
  - exists (c :: a). cbn [app]. now f_equal.
  - now exists [].
Qed.

Lemma trimEnd_prefix (s : text) : exists b, s = JS.trimEnd s ++ b.
Proof.
  unfold JS.trimEnd. destruct (trimStart_suffix (rev s)) as [a Ha].
  exists (rev a). rewrite <- rev_app_distr, <- Ha. now rewrite rev_involutive.
Qed.

Lemma trimStart_length (s : text) : length (JS.trimStart s) <= length s.
Proof.
  destruct (trimStart_suffix s) as [a Ha]. rewrite Ha at 2. rewrite length_app. lia.
Qed.

Lemma trim_length (s : text) : length (JS.trim s) <= length s.
Proof.
  unfold JS.trim. destruct (trimEnd_prefix (JS.trimStart s)) as [b Hb].
  pose proof (trimStart_length s) as H. rewrite Hb in H. rewrite length_app in H. lia.
Qed.

Lemma trimStart_fix (s : text) : JS.trimStart (JS.trimStart s) = JS.trimStart s.
Proof.
  induction s as [|c s IH]; [reflexivity|].
  cbn [JS.trimStart]. destruct (JS.isWhiteSpace c) eqn:Ec; [exact IH|].
  cbn [JS.trimStart]. now rewrite Ec.
Qed.

Lemma trimEnd_fix (s : text) : JS.trimEnd (JS.trimEnd s) = JS.trimEnd s.
Proof.
  unfold JS.trimEnd. rewrite rev_involutive. now rewrite trimStart_fix.
Qed.

(** Cutting white space off the end leaves the front as it is. *)
Lemma trimStart_trimEnd (s : text) :
  JS.trimStart s = s -> JS.trimStart (JS.trimEnd s) = JS.trimEnd s.
Proof.
  intros H. destruct s as [|c s]; [reflexivity|].
  cbn [JS.trimStart] in H.
  destruct (JS.isWhiteSpace c) eqn:Ec.
  - exfalso. pose proof (trimStart_length s) as Hl. rewrite H in Hl. simpl in Hl. lia.
  - destruct (trimEnd_prefix (c :: s)) as [b Hb].
    destruct (JS.trimEnd (c :: s)) as [|d r] eqn:Er.
    + reflexivity.
    + cbn [app] in Hb. injection Hb as <- _. cbn [JS.trimStart]. now rewrite Ec.
Qed.

Lemma trim_fix (s : text) : JS.trim (JS.trim s) = JS.trim s.
Proof.
  unfold JS.trim.
  rewrite (trimStart_trimEnd (JS.trimStart s) (trimStart_fix s)).
  apply trimEnd_fix.
Qed.

Lemma tidy_trim (s : text) : tidy s = true -> tidy (JS.trim s) = true.
Proof.
  intros H. unfold JS.trim.
  destruct (trimStart_suffix s) as [a Ha].
  destruct (trimEnd_prefix (JS.trimStart s)) as [b Hb].
  rewrite Ha in H. apply tidy_suffix in H. rewrite Hb in H. now apply tidy_prefix in H.
Qed.

Lemma squeeze_length (s : text) : length (squeeze s) <= length s.
Proof.
  induction s as [|c s IH]; [simpl; lia|].
  cbn [squeeze]. destruct (JS.isWhiteSpace c).
  - destruct s as [|c' s']; [simpl; lia|].
    destruct (JS.isWhiteSpace c'); simpl in *; lia.
  - simpl. lia.
Qed.

Lemma removeMatch_length (re : RegExp) (s : text) :
  length (removeMatch re s) <= length s.
Proof.
  unfold removeMatch. destruct (exec re s) as [m|]; [|lia].
  rewrite length_app, length_firstn, length_skipn. lia.
Qed.

Lemma fold_removeMatch_length ps (s : text) :
  length (fold_left (fun cleaned p => removeMatch (SMSService.pattern p) cleaned) ps s)
  <= length s.
Proof.
  revert s. induction ps as [|p ps IH]; intros s; [simpl; lia|].
  cbn [fold_left]. specialize (IH (removeMatch (SMSService.pattern p) s)).
  pose proof (removeMatch_length (SMSService.pattern p) s). lia.
Qed.

(** X5: what [cleanMessageContent] returns is in normal form, whatever the
    message: the white space in it is single blanks, none at either end,
    and it is no longer than the message. *)
Theorem cleaned_is_tidy (messageText : text) :
  squeeze (cleanMessageContent messageText) = cleanMessageContent messageText /\
  JS.trim (cleanMessageContent messageText) = cleanMessageContent messageText /\
  (forall c, In c (cleanMessageContent messageText) ->
             JS.isWhiteSpace c = true -> c = " "%char) /\
  length (cleanMessageContent messageText) <= length messageText.
Proof.
  unfold cleanMessageContent.
  set (cut := fold_left _ _ _).
  assert (Ht : tidy (JS.trim (squeeze cut)) = true) by apply tidy_trim, squeeze_tidy.
  repeat split.
  - apply tidy_squeeze, Ht.
  - apply trim_fix.
  - revert Ht. generalize (JS.trim (squeeze cut)). intros s.
    induction s as [|x s IH]; intros Ht c Hin Hc; [contradiction|].
    cbn [tidy] in Ht. apply andb_true_iff in Ht. destruct Ht as [Hx Hs].
    destruct Hin as [<- | Hin]; [|now apply IH].
    rewrite Hc in Hx. apply andb_true_iff in Hx. now apply Ascii.eqb_eq.
  - pose proof (trim_length (squeeze cut)). pose proof (squeeze_length cut).
    pose proof (fold_removeMatch_length SMSService.signaturePatterns messageText).
    fold cut in H1. lia.
Qed.


Lemma squeeze_snoc (s : text) (c : ascii) :
  JS.isWhiteSpace c = true ->
  squeeze (s ++ [c]) = squeeze s \/ squeeze (s ++ [c]) = squeeze s ++ [" "%char].
Proof.
  intros Hc. induction s as [|x s IH].
  - right. simpl. now rewrite Hc.
  - cbn [app squeeze]. destruct (JS.isWhiteSpace x) eqn:Ex.
    + destruct s as [|y s'].
      * left. cbn [app squeeze]. rewrite !Hc. reflexivity.
      * cbn [app] in *. destruct (JS.isWhiteSpace y); [exact IH|].
        destruct IH as [-> | ->]; [now left | now right].
    + destruct IH as [-> | ->]; [now left | now right].
Qed.

Lemma trim_squeeze_snoc (s : text) (c : ascii) :
  JS.isWhiteSpace c = true -> JS.trim (squeeze (s ++ [c])) = JS.trim (squeeze s).
Proof.
  intros Hc. destruct (squeeze_snoc s c Hc) as [-> | ->]; [reflexivity|].
  now apply trim_snoc.
Qed.

Lemma removeMatch_none (re : RegExp) (s : text) :
  exec re s = None -> removeMatch re s = s.
Proof.
  unfold removeMatch. now intros ->.
Qed.

Lemma exec_padded (re : RegExp) (message : text) :
  existsb (consumes (ignoreCase re) " "%char) (nodes re) = false ->
  exec re [] = None ->
  test re message = false ->
  exec re (message ++ lit " ") = None.
Proof.
  intros Ha He Ht. pose proof (exec_generated re message [] Ha Ht) as H.
  rewrite He in H. exact H.
Qed.

Lemma removeMatch_generated (re : RegExp) (message tag : text) :
  existsb (consumes (ignoreCase re) " "%char) (nodes re) = false ->
  test re message = false ->
  (exists groups_, exec re tag = Some (mkMatch 0 tag groups_)) ->
  removeMatch re (message ++ lit " " ++ tag) = message ++ lit " ".
Proof.
  intros Ha Ht [groups_ He]. unfold removeMatch.
  rewrite (exec_generated re message tag Ha Ht), He. cbn [option_map].
  apply (around_generated message tag groups_).
Qed.

(** X6: [cleanMessageContent] against [generateTestSMS].  A message in which
    no signature is recognised is only normalised in its white space, and
    cleaning the SMS generated from it with a [hex] or [base64] signature
    gives the same text: the generated block and the blank before it are
    taken out again. *)
Theorem clean_undoes_generate (message : text) (t : signatureType) :
  SMSService.containsValidSignature message = false ->
  t = hex \/ t = base64 ->
  cleanMessageContent message = JS.trim (squeeze message) /\
  cleanMessageContent (generateTestSMS message t) = cleanMessageContent message.
Proof.
  intros Hnone Ht. pose proof (not_recognised message Hnone) as Hno.
  assert (Hplain : cleanMessageContent message = JS.trim (squeeze message)).
  { unfold cleanMessageContent, SMSService.signaturePatterns. cbn [fold_left].
    rewrite (removeMatch_none (SMSService.pattern SMSService.standard_hex) message),
      (removeMatch_none (SMSService.pattern SMSService.base64_signature) message),
      (removeMatch_none (SMSService.pattern SMSService.web3_signature) message),
      (removeMatch_none (SMSService.pattern SMSService.did_signature) message),
      (removeMatch_none (SMSService.pattern SMSService.ethereum_signature) message);
      try reflexivity; apply test_false, Hno; simpl; tauto. }
  split; [exact Hplain|]. rewrite Hplain.
  assert (Hpad : forall p, In p SMSService.signaturePatterns ->
            removeMatch (SMSService.pattern p) (message ++ lit " ") = message ++ lit " ").
  { intros p Hp. apply removeMatch_none. simpl in Hp.
    repeat (destruct Hp as [<- | Hp]; [apply exec_padded;
      [reflexivity | reflexivity | apply Hno; simpl; tauto] |]).
    contradiction. }
  unfold cleanMessageContent, generateTestSMS, SMSService.signaturePatterns.
  cbn [fold_left].
  destruct Ht as [-> | ->].
  - rewrite (removeMatch_generated (SMSService.pattern SMSService.standard_hex));
      [| reflexivity | apply Hno; simpl; tauto | eexists; vm_compute; reflexivity].
    rewrite !Hpad by (simpl; tauto).
    apply (trim_squeeze_snoc message " "%char eq_refl).
  - rewrite (removeMatch_none (SMSService.pattern SMSService.standard_hex)).
    2:{ rewrite exec_generated; [| reflexivity | apply Hno; simpl; tauto].
        replace (exec (SMSService.pattern SMSService.standard_hex) (signatures base64))
          with (@None MatchArray) by (vm_compute; reflexivity).
        reflexivity. }
    rewrite (removeMatch_generated (SMSService.pattern SMSService.base64_signature));
      [| reflexivity | apply Hno; simpl; tauto | eexists; vm_compute; reflexivity].
    rewrite !Hpad by (simpl; tauto).
    apply (trim_squeeze_snoc message " "%char eq_refl).
Qed.

Lemma clean_undoes_generate_witness :
  cleanMessageContent (generateTestSMS (lit "Pay  42 now ") base64)
  = cleanMessageContent (lit "Pay  42 now ").
Proof.
  apply (clean_undoes_generate (lit "Pay  42 now ") base64).
  - vm_compute. reflexivity.
  - right. reflexivity.
Defined.

End Cleaning.

(** ** The entry points of the verification service *)

Section EntryPoints.
Import Regex Language Supabase SupabaseVerificationService Effects.

(** The results of [verifyMessageSignature]: one of its two failures, or the
    verdict of the hosted procedure. *)
Lemma verifyMessageSignature_shape (env : Env) (content sg sender method : text)
    (w : World) :
  exists r w',
    verifyMessageSignature env content sg sender method w = (Fulfilled r, w') /\
    sameBackend w w' /\
    (isValid r = false -> sameTables w w') /\
    (r = failure "Verification service error" \/
     r = failure "No verification result returned" \/
     (SupabaseVerificationService.error r = None /\
      SupabaseVerificationService.success r = Some true)).
Proof.
  destruct (verifyMessage_settles (rpc_answer env) (JS.trim content)
              (JS.toLowerCase (stripHexPrefix sg)) (JS.toLowerCase sender) w)
    as (v & w0 & Hv & Hb & Ht & Hw0).
  unfold verifyMessageSignature.
  destruct (Supabase.error v) as [e|] eqn:He.
  - erewrite tryCatch_fulfilled
      by (erewrite bind_fulfilled by exact Hv; rewrite He; reflexivity).
    eexists. eexists. split; [reflexivity|].
    split; [exact Hb|]. split; [intros _; exact Ht | left; reflexivity].
  - specialize (Hw0 eq_refl). subst w0.
    destruct (data v) as [row_|] eqn:Hd.
    + destruct (is_valid row_) eqn:Hvalid.
      * destruct (saveVerificationResult_effect env (JS.trim content)
                    (JS.toLowerCase (stripHexPrefix sg)) (JS.toLowerCase sender)
                    (v_organization_id row_) (v_verification_details row_) method w)
          as (w' & Hsave & Hb' & Hp).
        erewrite tryCatch_fulfilled
          by (erewrite bind_fulfilled by exact Hv; rewrite He, Hd, Hvalid;
              erewrite bind_fulfilled by exact Hsave; reflexivity).
        eexists. exists w'. split; [reflexivity|].
        split; [exact Hb'|].
        split; [intros H; discriminate H | right; right; split; reflexivity].
      * erewrite tryCatch_fulfilled
          by (erewrite bind_fulfilled by exact Hv; rewrite He, Hd, Hvalid;
              reflexivity).
        eexists. exists w. split; [reflexivity|].
        split; [apply sameBackend_refl|].
        split; [intros _; split; reflexivity | right; right; split; reflexivity].
    + erewrite tryCatch_fulfilled
        by (erewrite bind_fulfilled by exact Hv; rewrite He, Hd; reflexivity).
      eexists. exists w. split; [reflexivity|].
      split; [apply sameBackend_refl|].
      split; [intros _; split; reflexivity | right; left; reflexivity].
Qed.

Lemma contains_unfold (s : text) :
  SMSService.containsValidSignature s
  = test reSIG s || (test reSIGNATURE s || (test reWEB3SIG s
      || (test reDID s || (test reETH s || false)))).
Proof. reflexivity. Qed.

Lemma test_exec (re : RegExp) (s : text) :
  test re s = match exec re s with Some _ => true | None => false end.
Proof. reflexivity. Qed.

(** Without a recognised tag the service's extractor returns the text as
    it is, with an empty signature and an empty sender hint. *)
Lemma svc_no_tag (now : Z) (s : text) :
  SMSService.containsValidSignature s = false ->
  parseSMSMessage now s = mkParsed s [] [] s now.
Proof.
  rewrite contains_unfold. intros H.
  repeat (apply orb_false_iff in H; destruct H as [? H]).
  unfold parseSMSMessage, signaturePatterns.
  rewrite !svc_skip by (now apply test_false). reflexivity.
Qed.

Lemma group_length (re : RegExp) (s : text) (m : MatchArray)
    (cls : list (ascii * ascii)) (k : nat) :
  (forall w marks, Matches (ignoreCase re) (nodes re) w marks ->
     exists opening payload, tagShape cls 64 k w marks opening payload) ->
  exec re s = Some m -> 64 <= length (group (S k) m).
Proof.
  intros Hshape Hm.
  destruct (payload_of_match re s m cls k 64 Hshape Hm)
    as (opening & payload & marks & Hsh & Hg & _).
  rewrite Hg. apply Hsh.
Qed.

(** With a recognised tag the signature it returns has at least 64
    characters. *)
Lemma svc_tag (now : Z) (s : text) :
  SMSService.containsValidSignature s = true ->
  64 <= length (SupabaseVerificationService.signature (parseSMSMessage now s)).
Proof.
  rewrite contains_unfold, !test_exec. intros H.
  unfold parseSMSMessage, signaturePatterns.
  destruct (exec reSIG s) as [m|] eqn:E1.
  { rewrite (svc_hit reSIG _ _ _ E1). cbn.
    apply (group_length reSIG s m hexClass 0 shape_SIG E1). }
  rewrite (svc_skip reSIG _ _ E1).
  destruct (exec reSIGNATURE s) as [m|] eqn:E2.
  { rewrite (svc_hit reSIGNATURE _ _ _ E2). cbn.
    apply (group_length reSIGNATURE s m base64Class 0 shape_SIGNATURE E2). }
  rewrite (svc_skip reSIGNATURE _ _ E2).
  destruct (exec reWEB3SIG s) as [m|] eqn:E3.
  { rewrite (svc_hit reWEB3SIG _ _ _ E3). cbn.
    pose proof (group_length reWEB3SIG s m hexClass 0 shape_WEB3SIG_64 E3). lia. }
  rewrite (svc_skip reWEB3SIG _ _ E3).
  destruct (exec reETH s) as [m|] eqn:E4.
  { rewrite (svc_hit reETH _ _ _ E4). cbn.
    pose proof (group_length reETH s m hexClass 0 shape_ETH_64 E4). lia. }
  rewrite (svc_skip reETH _ _ E4).
  destruct (exec reDID s) as [m|] eqn:E5.
  { rewrite (svc_hit reDID _ _ _ E5). cbn.
    apply (group_length reDID s m hexClass 1 shape_DID E5). }
  discriminate H.
Qed.

Lemma truthy_length (s : text) : 1 <= length s -> JS.truthy s = true.
Proof. destruct s; simpl; [lia | reflexivity]. Qed.

(** The directory is the only step of [resolveSenderAddress] that can
    reject. *)
Lemma resolveSenderAddress_rejects (env : Env) (hint : text) (phone : option text)
    (w w' : World) (e : text) :
  resolveSenderAddress env hint phone w = (Rejected e, w') ->
  directory_fault env = Threw e /\ exists c p, phone = Some (c :: p).
Proof.
  unfold resolveSenderAddress.
  destruct (JS.truthy hint && _); [discriminate|].
  destruct phone as [[|c p]|]; try discriminate.
  unfold selectWalletByPhone. unfold bind at 1. rewrite bind_get.
  destruct (directory_fault env) as [|e'|e'].
  - destruct (configured w); simpl; try discriminate.
    match goal with |- context [filter ?f ?l] => destruct (filter f l) end;
      simpl; discriminate.
  - simpl. discriminate.
  - simpl. intros H. injection H as -> _. split; [reflexivity | eauto].
Qed.


(** The ways through [verifySMSMessage]. *)
Lemma verifySMSMessage_cases (env : Env) (s : text) (phone : option text) (w : World) :
  (SMSService.containsValidSignature s = false /\
   verifySMSMessage env s phone w
     = (Fulfilled (failure "No signature found in SMS message"), w)) \/
  (SMSService.containsValidSignature s = true /\
   ((exists e w',
       directory_fault env = Threw e /\
       verifySMSMessage env s phone w
         = (Fulfilled (failure "SMS verification failed"), w') /\
       sameBackend w w' /\ sameTables w w' /\
       console w' = console w ++ [lit "SMS verification error:"]) \/
    (configured w = true /\
     verifySMSMessage env s phone w
       = (Fulfilled (failure "Could not resolve sender wallet address"), w)) \/
    (exists address,
       address <> [] /\
       verifySMSMessage env s phone w
       = verifyMessageSignature env (content (parseSMSMessage (clock w) s))
           (SupabaseVerificationService.signature (parseSMSMessage (clock w) s))
           address (lit "sms") w))).
Proof.
  destruct (SMSService.containsValidSignature s) eqn:Htag.
  - right. split; [reflexivity|].
    pose proof (svc_tag (clock w) s Htag) as Hlen.
    set (parsed := parseSMSMessage (clock w) s) in *.
    assert (Hsig : JS.truthy (SupabaseVerificationService.signature parsed) = true)
      by (apply truthy_length; lia).
    assert (Hrun : forall address r0 w0,
              resolveSenderAddress env (senderAddress parsed) phone w
                = (Fulfilled (Some address), w) ->
              address <> [] ->
              verifyMessageSignature env (content parsed)
                (SupabaseVerificationService.signature parsed) address (lit "sms") w
                = (Fulfilled r0, w0) ->
              verifySMSMessage env s phone w = (Fulfilled r0, w0)).
    { intros address r0 w0 Hres Hne Hv. unfold verifySMSMessage.
      apply tryCatch_fulfilled. rewrite bind_get. fold parsed. rewrite Hsig. cbn [negb].
      erewrite bind_fulfilled by exact Hres.
      destruct address as [|c a]; [congruence | exact Hv]. }
    assert (Hgo : forall address,
              resolveSenderAddress env (senderAddress parsed) phone w
                = (Fulfilled (Some address), w) ->
              address <> [] ->
              verifySMSMessage env s phone w
              = verifyMessageSignature env (content parsed)
                  (SupabaseVerificationService.signature parsed) address (lit "sms") w).
    { intros address Hres Hne.
      destruct (verifyMessageSignature_shape env (content parsed)
                  (SupabaseVerificationService.signature parsed) address (lit "sms") w)
        as (r0 & w0 & Hv & _).
      rewrite Hv. now apply (Hrun address). }
    destruct (resolveSenderAddress_cases env (senderAddress parsed) phone w)
      as [(H & Hne & _)|[H|[[e H]|(p & o & Hp & H0 & Hl & H)]]].
    + right. right. exists (senderAddress parsed). split; [exact Hne | now apply Hgo].
    + right. right. exists fallbackAddress.
      split; [discriminate | apply Hgo; [exact H | discriminate]].
    + left. destruct (resolveSenderAddress_rejects _ _ _ _ _ _ H) as [Hf _].
      exists e. eexists. split; [exact Hf|]. split.
      * unfold verifySMSMessage.
        erewrite tryCatch_rejected
          by (rewrite bind_get; fold parsed; rewrite Hsig; cbn [negb];
              apply bind_rejected; exact H).
        unfold bind, Supabase.consoleError, ret. reflexivity.
      * repeat split.
    + rename H0 into Hconf. destruct (wallet_address o) as [|c a] eqn:Hw.
      * right. left. split; [exact Hconf|].
        unfold verifySMSMessage. apply tryCatch_fulfilled.
        rewrite bind_get. fold parsed. rewrite Hsig. cbn [negb].
        erewrite bind_fulfilled by exact H. reflexivity.
      * right. right. exists (c :: a).
        split; [discriminate | apply Hgo; [exact H | discriminate]].
  - left. split; [reflexivity|].
    unfold verifySMSMessage. apply tryCatch_fulfilled. rewrite bind_get.
    rewrite (svc_no_tag (clock w) s Htag). reflexivity.
Qed.

(** The ways through the generic [verifyMessage]. *)
Lemma verifyMessage_cases (env : Env) (s sender : text) (w : World) :
  (SMSService.containsValidSignature s = false /\
   SupabaseVerificationService.verifyMessage env s sender w
     = (Fulfilled (failure "No signature found in message"), w)) \/
  (SMSService.containsValidSignature s = true /\
   SupabaseVerificationService.verifyMessage env s sender w
   = verifyMessageSignature env (content (parseSMSMessage (clock w) s))
       (SupabaseVerificationService.signature (parseSMSMessage (clock w) s))
       (if JS.truthy sender then sender else senderAddress (parseSMSMessage (clock w) s))
       (lit "manual") w).
Proof.
  destruct (SMSService.containsValidSignature s) eqn:Htag.
  - right. split; [reflexivity|].
    pose proof (svc_tag (clock w) s Htag) as Hlen.
    set (parsed := parseSMSMessage (clock w) s) in *.
    assert (Hsig : JS.truthy (SupabaseVerificationService.signature parsed) = true)
      by (apply truthy_length; lia).
    destruct (verifyMessageSignature_shape env (content parsed)
                (SupabaseVerificationService.signature parsed)
                (if JS.truthy sender then sender else senderAddress parsed)
                (lit "manual") w)
      as (r0 & w0 & Hv & _).
    rewrite Hv. unfold SupabaseVerificationService.verifyMessage.
    apply tryCatch_fulfilled. rewrite bind_get. fold parsed. rewrite Hsig. cbn [negb].
    exact Hv.
  - left. split; [reflexivity|].
    unfold SupabaseVerificationService.verifyMessage.
    apply tryCatch_fulfilled. rewrite bind_get.
    rewrite (svc_no_tag (clock w) s Htag). reflexivity.
Qed.

(** X7: a message in which the SMS extractor recognises no signature is
    turned away by both entry points of the verification service before
    anything is asked of the backend: the answer is the "no signature"
    failure and nothing changes, whatever the backend would have said. *)
Theorem untagged_message_is_turned_away (env : Env) (s sender : text)
    (phone : option text) (w : World) :
  SMSService.containsValidSignature s = false ->
  verifySMSMessage env s phone w
    = (Fulfilled (failure "No signature found in SMS message"), w) /\
  SupabaseVerificationService.verifyMessage env s sender w
    = (Fulfilled (failure "No signature found in message"), w).
Proof.
  intros Htag. split.
  - destruct (verifySMSMessage_cases env s phone w) as [[_ H]|[H _]];
      [exact H | congruence].
  - destruct (verifyMessage_cases env s sender w) as [[_ H]|[H _]];
      [exact H | congruence].
Qed.

Lemma untagged_message_is_turned_away_witness :
  verifySMSMessage Samples.quiet Samples.shortTag None Samples.hosted
    = (Fulfilled (failure "No signature found in SMS message"), Samples.hosted).
Proof.
  apply (untagged_message_is_turned_away Samples.quiet Samples.shortTag [] None
           Samples.hosted).
  vm_compute. reflexivity.
Defined.

(** X8: [verifySMSMessage] always settles with a result.  A result that is
    not valid leaves both tables as they were; a valid one comes from a
    message with a recognised signature and carries no error.  The "no
    signature" failure is given exactly for the messages without a
    recognised signature, and the failure of the [catch] block only when
    the directory lookup threw. *)
Theorem sms_verification_outcomes (env : Env) (s : text) (phone : option text)
    (w : World) :
  exists r w',
    verifySMSMessage env s phone w = (Fulfilled r, w') /\
    sameBackend w w' /\
    (isValid r = false -> sameTables w w') /\
    (isValid r = true ->
       SMSService.containsValidSignature s = true /\
       SupabaseVerificationService.error r = None /\
       SupabaseVerificationService.success r = Some true) /\
    (SupabaseVerificationService.error r = Some (lit "No signature found in SMS message")
       <-> SMSService.containsValidSignature s = false) /\
    (SupabaseVerificationService.error r = Some (lit "SMS verification failed") ->
       exists e, directory_fault env = Threw e) /\
    SupabaseVerificationService.error r
      <> Some (lit "Verification failed due to technical error").
Proof.
  destruct (verifySMSMessage_cases env s phone w)
    as [[Htag H]|[Htag [(e & w' & Hf & H & Hb & Ht & _)|[[_ H]|(address & _ & H)]]]].
  - exists (failure "No signature found in SMS message"), w.
    split; [exact H|]. split; [apply sameBackend_refl|].
    split; [intros _; split; reflexivity|].
    split; [intros Hv; discriminate Hv|].
    split; [split; [intros _; exact Htag | reflexivity]|].
    split; [intros He; vm_compute in He; discriminate He
           | intros He; vm_compute in He; discriminate He].
  - exists (failure "SMS verification failed"), w'.
    split; [exact H|]. split; [exact Hb|]. split; [intros _; exact Ht|].
    split; [intros Hv; discriminate Hv|].
    split; [split; [intros He; vm_compute in He; discriminate He | congruence]|].
    split; [intros _; exists e; exact Hf | intros He; vm_compute in He; discriminate He].
  - exists (failure "Could not resolve sender wallet address"), w.
    split; [exact H|]. split; [apply sameBackend_refl|].
    split; [intros _; split; reflexivity|].
    split; [intros Hv; discriminate Hv|].
    split; [split; [intros He; vm_compute in He; discriminate He | congruence]|].
    split; [intros He; vm_compute in He; discriminate He
           | intros He; vm_compute in He; discriminate He].
  - rewrite H.
    destruct (verifyMessageSignature_shape env
                (content (parseSMSMessage (clock w) s))
                (SupabaseVerificationService.signature (parseSMSMessage (clock w) s))
                address (lit "sms") w)
      as (r & w' & Hv & Hb & Ht & Hshape).
    exists r, w'. split; [exact Hv|]. split; [exact Hb|]. split; [exact Ht|].
    destruct Hshape as [-> | [-> | [He Hs]]].
    + split; [intros Hx; discriminate Hx|].
      split; [split; [intros Hx; vm_compute in Hx; discriminate Hx | congruence]|].
      split; intros Hx; vm_compute in Hx; discriminate Hx.
    + split; [intros Hx; discriminate Hx|].
      split; [split; [intros Hx; vm_compute in Hx; discriminate Hx | congruence]|].
      split; intros Hx; vm_compute in Hx; discriminate Hx.
    + split; [intros _; repeat split; assumption|].
      rewrite He.
      split; [split; [discriminate | congruence]|].
      split; discriminate.
Qed.

(** A result of [verifyMessageSignature] without an error is the verdict
    of the backend, with the message that goes with it. *)
Lemma verifyMessageSignature_message (env : Env) (content sg sender method : text)
    (w w' : World) (r : VerificationResult) :
  verifyMessageSignature env content sg sender method w = (Fulfilled r, w') ->
  SupabaseVerificationService.error r = None ->
  success r = Some true /\
  SupabaseVerificationService.message r
  = Some (if isValid r
          then lit "Message verified from " ++ render (organizationName r)
          else lit "Message verification failed").
Proof.
  destruct (verifyMessage_settles (rpc_answer env) (JS.trim content)
              (JS.toLowerCase (stripHexPrefix sg)) (JS.toLowerCase sender) w)
    as (v & w0 & Hv & Hb & Ht & Hw0).
  unfold verifyMessageSignature.
  destruct (Supabase.error v) as [e|] eqn:He.
  - erewrite tryCatch_fulfilled
      by (erewrite bind_fulfilled by exact Hv; rewrite He; reflexivity).
    intros [= <- <-] Hx. discriminate Hx.
  - specialize (Hw0 eq_refl). subst w0.
    destruct (data v) as [row_|] eqn:Hd.
    + destruct (is_valid row_) eqn:Hvalid.
      * destruct (saveVerificationResult_effect env (JS.trim content)
                    (JS.toLowerCase (stripHexPrefix sg)) (JS.toLowerCase sender)
                    (v_organization_id row_) (v_verification_details row_) method w)
          as (w1 & Hsave & _).
        erewrite tryCatch_fulfilled
          by (erewrite bind_fulfilled by exact Hv; rewrite He, Hd, Hvalid;
              erewrite bind_fulfilled by exact Hsave; reflexivity).
        intros [= <- <-] _. split; reflexivity.
      * erewrite tryCatch_fulfilled
          by (erewrite bind_fulfilled by exact Hv; rewrite He, Hd, Hvalid;
              reflexivity).
        intros [= <- <-] _. split; reflexivity.
    + erewrite tryCatch_fulfilled
        by (erewrite bind_fulfilled by exact Hv; rewrite He, Hd; reflexivity).
      intros [= <- <-] Hx. discriminate Hx.
Qed.

(** X9: the generic [verifyMessage] always settles with a result and its
    [catch] block is never entered: "Message verification failed" is never
    the [error] of its answer.  The same text is the [message] of every
    verdict of the backend that is not valid: a result without an error has
    [success] true and carries "Message verified from" with the name of the
    organization when it is valid and "Message verification failed" when it
    is not.  The error is "No signature found in message" exactly for the
    messages without a recognised signature, nothing is written unless the
    result is valid, and a sender given by the caller takes the place of
    the one found in the tag. *)
Theorem generic_verification_outcomes (env : Env) (s sender : text) (w : World) :
  exists r w',
    SupabaseVerificationService.verifyMessage env s sender w = (Fulfilled r, w') /\
    sameBackend w w' /\
    (isValid r = false -> sameTables w w') /\
    (SupabaseVerificationService.error r = Some (lit "No signature found in message")
       <-> SMSService.containsValidSignature s = false) /\
    SupabaseVerificationService.error r <> Some (lit "Message verification failed") /\
    (SupabaseVerificationService.error r = None ->
       success r = Some true /\
       SupabaseVerificationService.message r
       = Some (if isValid r
               then lit "Message verified from " ++ render (organizationName r)
               else lit "Message verification failed")) /\
    (SupabaseVerificationService.error r <> None ->
       isValid r = false /\ success r = Some false /\
       SupabaseVerificationService.message r = None) /\
    (SMSService.containsValidSignature s = true -> sender <> [] ->
       SupabaseVerificationService.verifyMessage env s sender w
       = verifyMessageSignature env (content (parseSMSMessage (clock w) s))
           (SupabaseVerificationService.signature (parseSMSMessage (clock w) s))
           sender (lit "manual") w).
Proof.
  destruct (verifyMessage_cases env s sender w) as [[Htag H]|[Htag H]].
  - exists (failure "No signature found in message"), w.
    split; [exact H|]. split; [apply sameBackend_refl|].
    split; [intros _; split; reflexivity|].
    split; [split; [intros _; exact Htag | reflexivity]|].
    split; [intros He; vm_compute in He; discriminate He|].
    split; [intros He; discriminate He|].
    split; [intros _; repeat split | congruence].
  - destruct (verifyMessageSignature_shape env
                (content (parseSMSMessage (clock w) s))
                (SupabaseVerificationService.signature (parseSMSMessage (clock w) s))
                (if JS.truthy sender then sender
                 else senderAddress (parseSMSMessage (clock w) s))
                (lit "manual") w)
      as (r & w' & Hv & Hb & Ht & Hshape).
    exists r, w'. split; [rewrite H; exact Hv|]. split; [exact Hb|]. split; [exact Ht|].
    split; [|split; [|split; [|split]]].
    + destruct Hshape as [-> | [-> | [He _]]];
        (split; [intros Hx; try rewrite He in Hx; try (vm_compute in Hx);
                 discriminate Hx | congruence]).
    + destruct Hshape as [-> | [-> | [He _]]];
        intros Hx; try rewrite He in Hx; try (vm_compute in Hx); discriminate Hx.
    + exact (verifyMessageSignature_message env _ _ _ _ w w' r Hv).
    + destruct Hshape as [-> | [-> | [He _]]];
        [intros _; repeat split | intros _; repeat split | congruence].
    + intros _ Hne. rewrite H. destruct sender; [congruence | reflexivity].
Qed.


(** With no backend configured nothing reaches the tables. *)
Lemma stand_in_writes_nothing (env : Env) (content sg sender method : text)
    (w w' : World) (r : VerificationResult) :
  configured w = false ->
  verifyMessageSignature env content sg sender method w = (Fulfilled r, w') ->
  sameTables w w'.
Proof.
  intros Hc Hrun.
  destruct (verifyMessageSignature_by_answer (rpc_answer env) content sg sender method w)
    as (r0 & _ & _ & Hall).
  destruct (Hall env eq_refl) as (w0 & Hrun0 & _ & Hinvalid & Hvalid).
  rewrite Hrun in Hrun0. injection Hrun0 as <- <-.
  destruct (isValid r) eqn:Hv; [|now apply Hinvalid].
  destruct (Hvalid eq_refl) as [_ [Hs | (Hconf & _)]]; [exact Hs | congruence].
Qed.

Section Generated.
Import SMSTools.

Lemma svc_parse_generated (now : Z) (message : text) (t : signatureType) :
  SMSService.containsValidSignature message = false ->
  t = hex \/ t = base64 ->
  exists payload,
    (64 <=? length (JS.toLowerCase (stripHexPrefix payload))) = true /\
    parseSMSMessage now (generateTestSMS message t)
    = mkParsed (JS.trim message) payload [] (generateTestSMS message t) now.
Proof.
  intros Hnone Ht. pose proof (not_recognised message Hnone) as Hno.
  unfold parseSMSMessage, generateTestSMS, signaturePatterns.
  destruct Ht as [-> | ->].
  - exists (lit "a1b2c3d4e5f6789012345678901234567890abcdef1234567890abcdef123456").
    split; [vm_compute; reflexivity|].
    assert (Hm : exec reSIG (message ++ lit " " ++ signatures hex)
                 = Some (mkMatch (length message + 1 + 0) (signatures hex)
                           [lit "a1b2c3d4e5f6789012345678901234567890abcdef1234567890abcdef123456"])).
    { rewrite (exec_generated reSIG message (signatures hex));
        [| reflexivity | apply (Hno SMSService.standard_hex); simpl; tauto].
      replace (exec reSIG (signatures hex))
        with (Some (mkMatch 0 (signatures hex)
                [lit "a1b2c3d4e5f6789012345678901234567890abcdef1234567890abcdef123456"]))
        by (vm_compute; reflexivity).
      reflexivity. }
    rewrite (svc_hit reSIG _ _ _ Hm).
    rewrite around_generated. change (lit " ") with [" "%char].
    rewrite (trim_snoc message " "%char eq_refl). reflexivity.
  - exists (lit "SGVsbG8gV29ybGQgVGhpcyBJcyBBIFRlc3QgU2lnbmF0dXJlIEZvciBEZW1vbnN0cmF0aW9u").
    split; [vm_compute; reflexivity|].
    assert (H1 : exec reSIG (message ++ lit " " ++ signatures base64) = None).
    { rewrite (exec_generated reSIG message (signatures base64));
        [| reflexivity | apply (Hno SMSService.standard_hex); simpl; tauto].
      replace (exec reSIG (signatures base64)) with (@None MatchArray)
        by (vm_compute; reflexivity).
      reflexivity. }
    assert (Hm : exec reSIGNATURE (message ++ lit " " ++ signatures base64)
                 = Some (mkMatch (length message + 1 + 0) (signatures base64)
                           [lit "SGVsbG8gV29ybGQgVGhpcyBJcyBBIFRlc3QgU2lnbmF0dXJlIEZvciBEZW1vbnN0cmF0aW9u"])).
    { rewrite (exec_generated reSIGNATURE message (signatures base64));
        [| reflexivity | apply (Hno SMSService.base64_signature); simpl; tauto].
      replace (exec reSIGNATURE (signatures base64))
        with (Some (mkMatch 0 (signatures base64)
                [lit "SGVsbG8gV29ybGQgVGhpcyBJcyBBIFRlc3QgU2lnbmF0dXJlIEZvciBEZW1vbnN0cmF0aW9u"]))
        by (vm_compute; reflexivity).
      reflexivity. }
    rewrite (svc_skip reSIG _ _ H1).
    rewrite (svc_hit reSIGNATURE _ _ _ Hm).
    rewrite around_generated. change (lit " ") with [" "%char].
    rewrite (trim_snoc message " "%char eq_refl). reflexivity.
Qed.

(** X10: the generator against the verification service without a backend.
    The SMS generated with a [hex] or [base64] signature from a message that
    is not blank and holds no signature of its own is reported valid, from
    the placeholder organization, as long as the directory lookup does not
    throw; nothing is written to the tables. *)
Theorem generated_sms_passes_stand_in (env : Env) (message : text)
    (phone : option text) (t : signatureType) (w : World) :
  configured w = false ->
  SMSService.containsValidSignature message = false ->
  JS.trim message <> [] ->
  (forall e, directory_fault env <> Threw e) ->
  t = hex \/ t = base64 ->
  exists r w',
    verifySMSMessage env (generateTestSMS message t) phone w = (Fulfilled r, w') /\
    isValid r = true /\
    organizationName r = Some (lit "Mock Organization") /\
    sameTables w w'.
Proof.
  intros Hconf Hnone Hblank Hdir Ht.
  destruct (svc_parse_generated (clock w) message t Hnone Ht) as (payload & Hlen & Hparse).
  destruct (verifySMSMessage_cases env (generateTestSMS message t) phone w)
    as [[Htag _]|[_ [(e & _ & Hf & _)|[[Hc _]|(address & _ & H)]]]].
  - exfalso. pose proof (svc_no_tag (clock w) _ Htag) as Hn.
    rewrite Hparse in Hn. injection Hn as _ Hp. subst payload.
    vm_compute in Hlen. discriminate Hlen.
  - exfalso. exact (Hdir e Hf).
  - congruence.
  - rewrite Hparse in H. cbn [content SupabaseVerificationService.signature] in H.
    destruct (verifyMessageSignature_mock env (JS.trim message) payload address
                (lit "sms") w Hconf)
      as (r & w' & details & Hrun & Hvalid & _ & Hname & _).
    exists r, w'. split; [rewrite H; exact Hrun|].
    split; [|split; [exact Hname|]].
    + rewrite Hvalid, Hlen, trim_fix. cbn [andb].
      destruct (JS.trim message); [congruence | reflexivity].
    + exact (stand_in_writes_nothing env _ _ _ _ w w' r Hconf Hrun).
Qed.

Lemma generated_sms_passes_stand_in_witness :
  exists r w',
    verifySMSMessage Samples.quiet (generateTestSMS (lit "Your code is 4711") base64)
      (Some (lit "+15550100")) Samples.offline = (Fulfilled r, w') /\
    isValid r = true.
Proof.
  destruct (generated_sms_passes_stand_in Samples.quiet (lit "Your code is 4711")
              (Some (lit "+15550100")) base64 Samples.offline)
    as (r & w' & Hrun & Hv & _).
  - reflexivity.
  - vm_compute. reflexivity.
  - vm_compute. discriminate.
  - intros e. vm_compute. discriminate.
  - right. reflexivity.
  - exists r, w'. split; assumption.
Defined.

End Generated.

End EntryPoints.

(** ** The client in front of the hosted procedures *)

Section HostedProcedure.
Import Regex RegexTools Language Supabase SupabaseVerificationService Effects Hosted.

Lemma hex_either_case (c : ascii) :
  classMatches true hexClass c = inRanges hexClass c.
Proof.
  destruct c as [[] [] [] [] [] [] [] []]; vm_compute; reflexivity.
Qed.

Lemma hex_lowerChar (c : ascii) :
  inRanges hexClass (JS.lowerChar c) = inRanges hexClass c.
Proof.
  destruct c as [[] [] [] [] [] [] [] []]; vm_compute; reflexivity.
Qed.

Lemma lowerChar_fix (c : ascii) : JS.lowerChar (JS.lowerChar c) = JS.lowerChar c.
Proof.
  destruct c as [[] [] [] [] [] [] [] []]; vm_compute; reflexivity.
Qed.

Lemma toLowerCase_fix (s : text) : JS.toLowerCase (JS.toLowerCase s) = JS.toLowerCase s.
Proof.
  unfold JS.toLowerCase. rewrite map_map. apply map_ext. apply lowerChar_fix.
Qed.

Lemma hex_toLowerCase (s : text) :
  forallb (inRanges hexClass) (JS.toLowerCase s) = forallb (inRanges hexClass) s.
Proof.
  unfold JS.toLowerCase. induction s as [|c s IH]; [reflexivity|].
  cbn [map forallb]. now rewrite hex_lowerChar, IH.
Qed.

(** The format test of the hosted procedure. *)
Lemma signatureFormat_iff (s : text) :
  match_to_end false signatureFormat s = true
  <-> 128 <= length s /\ forallb (inRanges hexClass) s = true.
Proof.
  rewrite match_to_end_iff. unfold signatureFormat. split.
  - intros [marks H]. inversion H; subst.
    match goal with Hw : Matches _ [] _ _ |- _ => inversion Hw; subst end.
    rewrite app_nil_r. split; assumption.
  - intros [Hlen Hhex]. exists (map (Nat.add (length s)) []).
    rewrite <- (app_nil_r s) at 1.
    apply M_rep; [exact Hhex | exact Hlen | exact I | constructor].
Qed.

Lemma verified_row_found (orgs : list Organization) (wallets : list OrganizationWallet)
    (sender_addr : text) :
  match filter (fun r => textEqb (r_verification_status r) (lit "verified"))
               (get_organization_by_wallet orgs wallets sender_addr) with
  | [] => forall o, In o orgs -> reachable wallets sender_addr o = true ->
                    org_verification_status o <> lit "verified"
  | r :: _ => exists o, In o orgs /\ reachable wallets sender_addr o = true /\
                        org_verification_status o = lit "verified" /\
                        r_id r = org_id o /\ r_name r = org_name o
  end.
Proof.
  destruct (filter _ _) as [|r rest] eqn:Hf.
  - intros o Hin Hreach Hst.
    assert (Hr : In (mkWalletRow (org_id o) (org_name o) (org_verification_status o))
                    (filter (fun r => textEqb (r_verification_status r) (lit "verified"))
                            (get_organization_by_wallet orgs wallets sender_addr))).
    { apply filter_In. split.
      - unfold get_organization_by_wallet. apply in_map_iff. exists o.
        split; [reflexivity|]. apply filter_In. now split.
      - cbn [r_verification_status]. now apply textEqb_eq. }
    rewrite Hf in Hr. exact Hr.
  - assert (Hr : In r (r :: rest)) by now left.
    rewrite <- Hf in Hr. apply filter_In in Hr. destruct Hr as [Hin Hst].
    unfold get_organization_by_wallet in Hin. apply in_map_iff in Hin.
    destruct Hin as (o & <- & Ho). apply filter_In in Ho. destruct Ho as [Ho Hreach].
    exists o. cbn in *. apply textEqb_eq in Hst. repeat split; assumption.
Qed.

Lemma hosted_accepts_iff (now : Z) (digest : text -> text)
    (orgs : list Organization) (wallets : list OrganizationWallet)
    (message_content signature sender_addr : text) :
  is_valid (verify_message_signature now digest orgs wallets
              message_content signature sender_addr) = true
  <-> (exists o, In o orgs /\ reachable wallets sender_addr o = true /\
                 org_verification_status o = lit "verified") /\
      128 <= length signature /\
      forallb (inRanges hexClass) signature = true.
Proof.
  unfold verify_message_signature.
  pose proof (verified_row_found orgs wallets sender_addr) as Hrow.
  destruct (filter _ (get_organization_by_wallet orgs wallets sender_addr))
    as [|r rest].
  - split; [intros H; discriminate H|].
    intros [(o & Hin & Hreach & Hst) _]. exfalso. exact (Hrow o Hin Hreach Hst).
  - destruct Hrow as (o & Hin & Hreach & Hst & Hid & Hname).
    destruct (match_to_end false signatureFormat signature) eqn:Hfmt.
    + apply signatureFormat_iff in Hfmt.
      split; [intros _|reflexivity]. split; [exists o; auto | exact Hfmt].
    + split; [intros H; discriminate H|].
      intros [_ Hok]. apply signatureFormat_iff in Hok. congruence.
Qed.

(** X11: the hosted procedure [verify_message_signature].  It reports a
    signature valid exactly when some verified organization is registered
    under the sender address (as its own address or as an active wallet)
    and the signature is at least 128 hexadecimal digits and nothing else;
    the content plays no part in the verdict.  A valid row names such an
    organization. *)
Theorem hosted_verdict (now : Z) (digest : text -> text)
    (orgs : list Organization) (wallets : list OrganizationWallet)
    (message_content signature sender_addr : text) :
  (is_valid (verify_message_signature now digest orgs wallets
               message_content signature sender_addr) = true
   <-> (exists o, In o orgs /\ reachable wallets sender_addr o = true /\
                  org_verification_status o = lit "verified") /\
       128 <= length signature /\
       forallb (inRanges hexClass) signature = true) /\
  (is_valid (verify_message_signature now digest orgs wallets
               message_content signature sender_addr) = true ->
   exists o, In o orgs /\ reachable wallets sender_addr o = true /\
             org_verification_status o = lit "verified" /\
             v_organization_id (verify_message_signature now digest orgs wallets
                                  message_content signature sender_addr)
               = Some (org_id o) /\
             v_organization_name (verify_message_signature now digest orgs wallets
                                    message_content signature sender_addr)
               = Some (org_name o)).
Proof.
  unfold verify_message_signature.
  pose proof (verified_row_found orgs wallets sender_addr) as Hrow.
  destruct (filter _ (get_organization_by_wallet orgs wallets sender_addr))
    as [|r rest].
  - split.
    + split; [intros H; discriminate H|].
      intros [(o & Hin & Hreach & Hst) _]. exfalso. exact (Hrow o Hin Hreach Hst).
    + intros H. discriminate H.
  - destruct Hrow as (o & Hin & Hreach & Hst & Hid & Hname).
    destruct (match_to_end false signatureFormat signature) eqn:Hfmt.
    + apply signatureFormat_iff in Hfmt. split.
      * split; [intros _|reflexivity]. split; [exists o; auto | exact Hfmt].
      * intros _. exists o. cbn. rewrite Hid, Hname. auto.
    + split.
      * split; [intros H; discriminate H|].
        intros [_ Hok]. apply signatureFormat_iff in Hok. congruence.
      * intros H. discriminate H.
Qed.


(** The result when the hosted procedure answers the call of the client
    with a row. *)
Lemma verifyMessageSignature_row (env : Env) (content sg sender method : text)
    (w : World) (row_ : VerificationRow) (rest : list VerificationRow) :
  configured w = true ->
  rpc_answer env (JS.trim content) (JS.toLowerCase (stripHexPrefix sg))
    (JS.toLowerCase sender)
    = Fulfilled (mkReply (Some (row_ :: rest)) None) ->
  exists r w',
    verifyMessageSignature env content sg sender method w = (Fulfilled r, w') /\
    isValid r = is_valid row_ /\
    organizationId r = v_organization_id row_ /\
    organizationName r = v_organization_name row_ /\
    verificationDetails r = v_verification_details row_ /\
    SupabaseVerificationService.error r = None.
Proof.
  intros Hc Hrpc.
  assert (Hv : Supabase.verifyMessage (rpc_answer env) (JS.trim content)
                 (JS.toLowerCase (stripHexPrefix sg)) (JS.toLowerCase sender) w
               = (Fulfilled (mkReply (Some row_) None), w)).
  { unfold Supabase.verifyMessage. rewrite bind_get, Hc, Hrpc. reflexivity. }
  unfold verifyMessageSignature.
  destruct (is_valid row_) eqn:Hvalid.
  - destruct (saveVerificationResult_effect env (JS.trim content)
                (JS.toLowerCase (stripHexPrefix sg)) (JS.toLowerCase sender)
                (v_organization_id row_) (v_verification_details row_) method w)
      as (w1 & Hsave & _).
    eexists. eexists. split.
    + apply tryCatch_fulfilled.
      erewrite bind_fulfilled by exact Hv.
      cbn [Supabase.error data]. rewrite Hvalid.
      erewrite bind_fulfilled by exact Hsave. reflexivity.
    + repeat split.
  - eexists. eexists. split.
    + apply tryCatch_fulfilled.
      erewrite bind_fulfilled by exact Hv.
      cbn [Supabase.error data]. rewrite Hvalid. reflexivity.
    + repeat split.
Qed.

Lemma reachable_primary (sender_addr : text) (o : Organization) :
  reachable [] sender_addr o = true -> wallet_address o = sender_addr.
Proof.
  unfold reachable. cbn [existsb]. rewrite orb_false_r. apply textEqb_eq.
Qed.

(** X12: the client in front of the hosted procedure.  The backend is the
    procedure of the migration, whatever it is called with.
    [verifyMessageSignature] then reports the message valid exactly when
    the signature, without one leading [0x], is at least 128 hexadecimal
    digits and a verified organization is registered under the sender
    address in lower case: the client trims, strips and lower-cases before
    it calls.  The procedure compares addresses as they are, so with no
    wallet rows an organization registered under an address with a capital
    letter in it is never found. *)
Theorem client_against_hosted (env : Env) (now : Z) (digest : text -> text)
    (wallets : list OrganizationWallet)
    (content sg sender method : text) (w : World) :
  configured w = true ->
  (forall message_content signature sender_addr,
     rpc_answer env message_content signature sender_addr
     = rpc now digest (organizations w) wallets message_content signature sender_addr) ->
  exists r w',
    verifyMessageSignature env content sg sender method w = (Fulfilled r, w') /\
    (isValid r = true
     <-> (exists o, In o (organizations w) /\
                    reachable wallets (JS.toLowerCase sender) o = true /\
                    org_verification_status o = lit "verified") /\
         128 <= length (stripHexPrefix sg) /\
         forallb (inRanges hexClass) (stripHexPrefix sg) = true) /\
    (wallets = [] ->
     (forall o, In o (organizations w) ->
                JS.toLowerCase (wallet_address o) <> wallet_address o) ->
     isValid r = false).
Proof.
  intros Hc Hrpc.
  destruct (verifyMessageSignature_row env content sg sender method w _ _ Hc
              (Hrpc _ _ _))
    as (r & w' & Hrun & Hvalid & _).
  exists r, w'. split; [exact Hrun|].
  pose proof (hosted_accepts_iff now digest (organizations w) wallets (JS.trim content)
                (JS.toLowerCase (stripHexPrefix sg)) (JS.toLowerCase sender)) as Hiff.
  rewrite <- Hvalid in Hiff.
  unfold JS.toLowerCase in Hiff at 2. rewrite length_map in Hiff.
  rewrite hex_toLowerCase in Hiff.
  split; [exact Hiff|].
  intros -> Hmixed.
  destruct (isValid r); [|reflexivity].
  destruct Hiff as [Hto _]. destruct (Hto eq_refl) as [(o & Hin & Hreach & _) _].
  apply reachable_primary in Hreach.
  exfalso. apply (Hmixed o Hin). rewrite Hreach. apply toLowerCase_fix.
Qed.

Lemma client_against_hosted_witness :
  exists r w',
    verifyMessageSignature HostedSamples.live
      (lit "Hello world ") (lit ("0x" ++ Samples.hex130))
      (lit "0x52908400098527886E0F7030069857D2E4169EE7") (lit "manual")
      HostedSamples.registry = (Fulfilled r, w') /\
    isValid r = false.
Proof.
  destruct (client_against_hosted HostedSamples.live 0 (fun _ => []) []
              (lit "Hello world ") (lit ("0x" ++ Samples.hex130))
              (lit "0x52908400098527886E0F7030069857D2E4169EE7")
              (lit "manual") HostedSamples.registry)
    as (r & w' & Hrun & _ & Hnever).
  - reflexivity.
  - reflexivity.
  - exists r, w'. split; [exact Hrun|]. apply Hnever; [reflexivity|].
    intros o [<- | []]. vm_compute. discriminate.
Defined.

(** A row the hosted procedure reports valid names an organization of the
    table. *)
Lemma hosted_row_names (now : Z) (digest : text -> text)
    (orgs : list Organization) (wallets : list OrganizationWallet)
    (message_content signature sender_addr : text) :
  is_valid (verify_message_signature now digest orgs wallets
              message_content signature sender_addr) = true ->
  exists o, In o orgs /\
    v_organization_id (verify_message_signature now digest orgs wallets
                         message_content signature sender_addr) = Some (org_id o).
Proof.
  unfold verify_message_signature.
  pose proof (verified_row_found orgs wallets sender_addr) as Hrow.
  destruct (filter _ (get_organization_by_wallet orgs wallets sender_addr))
    as [|r rest]; [intros H; discriminate H|].
  destruct Hrow as (o & Hin & _ & _ & Hid & _).
  destruct (match_to_end false signatureFormat signature);
    [|intros H; discriminate H].
  intros _. exists o. cbn. rewrite Hid. auto.
Qed.

Lemma references_listed (d : MessageData) (orgs : list Organization) (o : Organization) :
  In o orgs -> organization_id d = Some (org_id o) -> references d orgs = true.
Proof.
  intros Hin Hid. unfold references. rewrite Hid.
  apply existsb_exists. exists o. split; [exact Hin | now apply textEqb_eq].
Qed.

(** What the hosted procedure answers to the call of the client when a
    verified organization is registered under the lower-cased sender and
    the signature has the format. *)
Lemma hosted_call_accepts (env : Env) (now : Z) (digest : text -> text)
    (wallets : list OrganizationWallet) (orgs : list Organization)
    (content sg sender : text) (o : Organization) :
  (forall message_content signature sender_addr,
     rpc_answer env message_content signature sender_addr
     = rpc now digest orgs wallets message_content signature sender_addr) ->
  In o orgs ->
  reachable wallets (JS.toLowerCase sender) o = true ->
  org_verification_status o = lit "verified" ->
  128 <= length (stripHexPrefix sg) ->
  forallb (inRanges hexClass) (stripHexPrefix sg) = true ->
  exists v o',
    rpc_answer env (JS.trim content) (JS.toLowerCase (stripHexPrefix sg))
      (JS.toLowerCase sender)
      = Fulfilled (mkReply (Some [v]) None) /\
    is_valid v = true /\ In o' orgs /\ v_organization_id v = Some (org_id o').
Proof.
  intros Hrpc Hin Hreach Hst Hlen Hhex.
  set (v := verify_message_signature now digest orgs wallets (JS.trim content)
              (JS.toLowerCase (stripHexPrefix sg)) (JS.toLowerCase sender)).
  assert (Hvalid : is_valid v = true).
  { apply hosted_accepts_iff. split; [exists o; auto|].
    rewrite hex_toLowerCase. unfold JS.toLowerCase. rewrite length_map. auto. }
  destruct (hosted_row_names now digest orgs wallets _ _ _ Hvalid) as (o' & Hin' & Hid).
  exists v, o'. split; [rewrite Hrpc; reflexivity|]. auto.
Qed.

(** One verification against such a backend by a signed-in user, the write
    going through: the row is appended. *)
Lemma accepted_and_saved (env : Env) (content sg sender method : text)
    (w : World) (u : User) (v : VerificationRow) (o : Organization) :
  configured w = true -> session w = Some u ->
  rpc_answer env (JS.trim content) (JS.toLowerCase (stripHexPrefix sg))
    (JS.toLowerCase sender)
    = Fulfilled (mkReply (Some [v]) None) ->
  is_valid v = true ->
  In o (organizations w) -> v_organization_id v = Some (org_id o) ->
  save_fault env = NoFault ->
  exists r w',
    verifyMessageSignature env content sg sender method w = (Fulfilled r, w') /\
    isValid r = true /\
    sameBackend w w' /\
    verified_messages w'
      = verified_messages w
        ++ [mkVerifiedMessage (Uuid (next_uuid w))
              (verifiedRow w (JS.trim content)
                 (JS.toLowerCase (stripHexPrefix sg)) (JS.toLowerCase sender)
                 (v_organization_id v) (v_verification_details v))
              (clock w)] /\
    next_uuid w < next_uuid w'.
Proof.
  intros Hc Hs Hrpc Hvalid Hin Hid Hf.
  destruct (saveVerificationResult_inserts env (JS.trim content)
              (JS.toLowerCase (stripHexPrefix sg)) (JS.toLowerCase sender)
              (v_organization_id v) (v_verification_details v) method w u Hc Hs Hf
              (references_listed
                 (verifiedRow w (JS.trim content) (JS.toLowerCase (stripHexPrefix sg))
                    (JS.toLowerCase sender) (v_organization_id v)
                    (v_verification_details v))
                 (organizations w) o Hin Hid))
    as (w' & Hsave & Hb & Hrows & Hnext).
  assert (Hv : Supabase.verifyMessage (rpc_answer env) (JS.trim content)
                 (JS.toLowerCase (stripHexPrefix sg)) (JS.toLowerCase sender) w
               = (Fulfilled (mkReply (Some v) None), w)).
  { unfold Supabase.verifyMessage. rewrite bind_get, Hc, Hrpc. reflexivity. }
  eexists. exists w'. split.
  - unfold verifyMessageSignature. apply tryCatch_fulfilled.
    erewrite bind_fulfilled by exact Hv.
    cbn [Supabase.error data]. rewrite Hvalid.
    erewrite bind_fulfilled by exact Hsave. reflexivity.
  - split; [reflexivity|]. split; [exact Hb|]. split; [exact Hrows | exact Hnext].
Qed.

(** C4: verifying the same triple twice against the backend of the
    migration.  A signed-in user, a verified organization registered under
    the lower-cased sender, a signature of at least 128 hexadecimal digits
    (what the hosted procedure asks for) and no fault on the writes: the
    two calls leave two VerifiedMessage rows with different ids and the
    same content, signature and sender.  The client sends no
    [message_hash], so the rows never collide on
    [UNIQUE (signature, message_hash)], and it inserts, it does not
    upsert. *)
Theorem verifying_twice_duplicates (env : Env) (now : Z) (digest : text -> text)
    (wallets : list OrganizationWallet) (content sg sender method : text)
    (w : World) (u : User) (o : Organization) :
  configured w = true ->
  session w = Some u ->
  (forall message_content signature sender_addr,
     rpc_answer env message_content signature sender_addr
     = rpc now digest (organizations w) wallets message_content signature sender_addr) ->
  save_fault env = NoFault ->
  In o (organizations w) ->
  reachable wallets (JS.toLowerCase sender) o = true ->
  org_verification_status o = lit "verified" ->
  128 <= length (stripHexPrefix sg) ->
  forallb (inRanges hexClass) (stripHexPrefix sg) = true ->
  exists r1 w1 r2 w2 vm1 vm2,
    verifyMessageSignature env content sg sender method w = (Fulfilled r1, w1) /\
    verifyMessageSignature env content sg sender method w1 = (Fulfilled r2, w2) /\
    isValid r1 = true /\ isValid r2 = true /\
    verified_messages w2 = verified_messages w ++ [vm1; vm2] /\
    id vm1 <> id vm2 /\
    message_content (row vm1) = JS.trim content /\
    message_content (row vm2) = JS.trim content /\
    Supabase.signature (row vm1) = JS.toLowerCase (stripHexPrefix sg) /\
    Supabase.signature (row vm2) = JS.toLowerCase (stripHexPrefix sg) /\
    sender_address (row vm1) = JS.toLowerCase sender /\
    sender_address (row vm2) = JS.toLowerCase sender /\
    message_hash (row vm1) = None /\ message_hash (row vm2) = None.
Proof.
  intros Hc Hs Hrpc Hf Hin Hreach Hst Hlen Hhex.
  destruct (hosted_call_accepts env now digest wallets (organizations w)
              content sg sender o Hrpc Hin Hreach Hst Hlen Hhex)
    as (v & o' & Hcall & Hvalid & Hin' & Hid).
  destruct (accepted_and_saved env content sg sender method w u v o'
              Hc Hs Hcall Hvalid Hin' Hid Hf)
    as (r1 & w1 & Hrun1 & Hv1 & Hb1 & Hrows1 & Hid1).
  assert (Hc1 : configured w1 = true).
  { unfold configured in *. destruct Hb1 as (-> & _). exact Hc. }
  assert (Hs1 : session w1 = Some u).
  { destruct Hb1 as (_ & -> & _). exact Hs. }
  assert (Hin1 : In o' (organizations w1)).
  { destruct Hb1 as (_ & _ & _ & ->). exact Hin'. }
  destruct (accepted_and_saved env content sg sender method w1 u v o'
              Hc1 Hs1 Hcall Hvalid Hin1 Hid Hf)
    as (r2 & w2 & Hrun2 & Hv2 & Hb2 & Hrows2 & Hid2).
  do 6 eexists.
  split; [exact Hrun1|]. split; [exact Hrun2|].
  split; [exact Hv1|]. split; [exact Hv2|].
  split; [rewrite Hrows2, Hrows1, <- app_assoc; reflexivity|].
  split; [simpl; intros [= E]; lia|].
  repeat split.
Qed.

Lemma verifying_twice_duplicates_witness :
  exists r1 w1 r2 w2 vm1 vm2,
    verifyMessageSignature HostedSamples.backend HostedSamples.securityAlert
      (lit HostedSamples.hex128) (lit "0x2222222222222222222222222222222222222222")
      (lit "manual") HostedSamples.seeded = (Fulfilled r1, w1) /\
    verifyMessageSignature HostedSamples.backend HostedSamples.securityAlert
      (lit HostedSamples.hex128) (lit "0x2222222222222222222222222222222222222222")
      (lit "manual") w1 = (Fulfilled r2, w2) /\
    isValid r1 = true /\ isValid r2 = true /\
    verified_messages w2 = [vm1; vm2] /\
    id vm1 <> id vm2 /\
    message_content (row vm1) = message_content (row vm2) /\
    Supabase.signature (row vm1) = Supabase.signature (row vm2) /\
    sender_address (row vm1) = sender_address (row vm2).
Proof.
  destruct (verifying_twice_duplicates HostedSamples.backend 1700000000 (fun _ => []) []
              HostedSamples.securityAlert (lit HostedSamples.hex128)
              (lit "0x2222222222222222222222222222222222222222") (lit "manual")
              HostedSamples.seeded Samples.alice HostedSamples.techSolutions)
    as (r1 & w1 & r2 & w2 & vm1 & vm2 & H1 & H2 & Hv1 & Hv2 & Hrows & Hid
        & Hc1 & Hc2 & Hs1 & Hs2 & Ha1 & Ha2 & _).
  - reflexivity.
  - reflexivity.
  - reflexivity.
  - reflexivity.
  - left. reflexivity.
  - vm_compute. reflexivity.
  - reflexivity.
  - vm_compute. lia.
  - vm_compute. reflexivity.
  - exists r1, w1, r2, w2, vm1, vm2.
    repeat split; try assumption; congruence.
Defined.




Lemma hex_payload_keeps_prefix (payload : text) :
  forallb (classMatches true hexClass) payload = true ->
  stripHexPrefix payload = payload.
Proof.
  intros H. unfold stripHexPrefix.
  destruct (JS.startsWith (lit "0x") payload) eqn:Hs; [|reflexivity].
  apply startsWith_inv in Hs. rewrite Hs in H. cbn in H.
  rewrite andb_false_r in H. discriminate H.
Qed.

Lemma hex_payload_format (payload : text) :
  forallb (classMatches true hexClass) payload = true ->
  (match_to_end false signatureFormat (JS.toLowerCase payload) = true
   <-> 128 <= length payload).
Proof.
  intros H. rewrite signatureFormat_iff, hex_toLowerCase.
  unfold JS.toLowerCase. rewrite length_map.
  assert (Hsame : forallb (inRanges hexClass) payload = true).
  { rewrite <- H. clear H. induction payload as [|c p IH]; [reflexivity|].
    cbn [forallb]. now rewrite hex_either_case, IH. }
  rewrite Hsame. tauto.
Qed.

Lemma strip_prefixed (g : text) : stripHexPrefix (lit "0x" ++ g) = g.
Proof.
  unfold stripHexPrefix. rewrite (startsWith_app (lit "0x") g). reflexivity.
Qed.

Lemma shape_ETH_130 (w : text) (marks : list nat) :
  Matches true (nodes reETH) w marks ->
  exists opening payload, tagShape hexClass 130 0 w marks opening payload.
Proof.
  intros H. destruct (shape_ETH _ _ H) as (o & p & Hsh & _). now exists o, p.
Qed.

(** X13: the tags of the extractor against the format test of the hosted
    procedure, which wants at least 128 hexadecimal digits.  A [SIG] tag is
    extracted from 64 digits on, but passes the test only from 128 on; the
    signature taken from a [WEB3SIG] or an [ETH] tag always passes it (its
    [0x], put back by the extractor, is removed again by the
    normalisation). *)
Theorem tag_schemes_at_hosted_check (now : Z) (s : text) :
  (forall m, exec reSIG s = Some m ->
     (match_to_end false signatureFormat
        (JS.toLowerCase (stripHexPrefix
           (SupabaseVerificationService.signature (parseSMSMessage now s)))) = true
      <-> 128 <= length (group 1 m))) /\
  (exec reSIG s = None -> exec reSIGNATURE s = None ->
   test reWEB3SIG s = true \/ test reETH s = true ->
   match_to_end false signatureFormat
     (JS.toLowerCase (stripHexPrefix
        (SupabaseVerificationService.signature (parseSMSMessage now s)))) = true).
Proof.
  unfold parseSMSMessage, signaturePatterns. split.
  - intros m Hm. rewrite (svc_hit reSIG _ _ _ Hm). cbn.
    destruct (payload_of_match reSIG s m hexClass 0 64 shape_SIG Hm)
      as (opening & payload & marks & Hsh & Hg & _).
    rewrite Hg. destruct Hsh as (_ & _ & _ & Hhex & _).
    rewrite (hex_payload_keeps_prefix payload Hhex).
    exact (hex_payload_format payload Hhex).
  - intros H1 H2 Hor.
    rewrite (svc_skip reSIG _ _ H1), (svc_skip reSIGNATURE _ _ H2).
    set (fmt := match_to_end false signatureFormat).
    destruct (exec reWEB3SIG s) as [m|] eqn:E3.
    + rewrite (svc_hit reWEB3SIG _ _ _ E3). cbn.
      destruct (payload_of_match reWEB3SIG s m hexClass 0 128 shape_WEB3SIG E3)
        as (opening & payload & marks & Hsh & Hg & _).
      rewrite Hg. destruct Hsh as (_ & Hlen & _ & Hhex & _).
      exact (proj2 (hex_payload_format payload Hhex) Hlen).
    + rewrite (svc_skip reWEB3SIG _ _ E3).
      destruct (exec reETH s) as [m|] eqn:E4.
      * rewrite (svc_hit reETH _ _ _ E4). cbn.
        destruct (payload_of_match reETH s m hexClass 0 130 shape_ETH_130 E4)
          as (opening & payload & marks & Hsh & Hg & _).
        rewrite Hg. destruct Hsh as (_ & Hlen & _ & Hhex & _).
        apply (proj2 (hex_payload_format payload Hhex)). lia.
      * exfalso. unfold test in Hor. rewrite E3, E4 in Hor.
        destruct Hor; discriminate.
Qed.

Lemma tag_schemes_at_hosted_check_witness :
  match_to_end false signatureFormat
    (JS.toLowerCase (stripHexPrefix
       (SupabaseVerificationService.signature (parseSMSMessage 0 Samples.greeting)))) = true
  <-> 128 <= 64.
Proof.
  exact (proj1 (tag_schemes_at_hosted_check 0 Samples.greeting)
           (mkMatch 6 (lit ("[SIG:" ++ Samples.hex64 ++ "]")) [lit Samples.hex64])
           ltac:(vm_compute; reflexivity)).
Defined.

End HostedProcedure.

(** ** Organization lookups *)

Section OrganizationLookups.
Import Supabase SupabaseVerificationService Effects Hosted Organizations.

Lemma isVerifiedSender_cases (rpc : completion (Reply (list WalletRow)))
    (walletAddress : text) (w : World) :
  (configured w = false /\
   isVerifiedSender rpc walletAddress w
     = (Fulfilled (textEqb walletAddress fallbackAddress), w)) \/
  (configured w = true /\
   ((exists row_ rest,
       rpc = Fulfilled (mkReply (Some (row_ :: rest)) None) /\
       isVerifiedSender rpc walletAddress w
         = (Fulfilled (textEqb (r_verification_status row_) (lit "verified")), w)) \/
    ((forall row_ rest, rpc <> Fulfilled (mkReply (Some (row_ :: rest)) None)) /\
     exists w',
       isVerifiedSender rpc walletAddress w = (Fulfilled false, w') /\
       sameBackend w w' /\ sameTables w w' /\
       (w' = w \/ exists line, console w' = console w ++ [line])))).
Proof.
  unfold isVerifiedSender, getOrganizationInfo, getOrganizationByWallet.
  destruct (configured w) eqn:Hc.
  - right. split; [reflexivity|].
    destruct rpc as [[d [e|]]|e].
    + right. split; [intros row_ rest H; discriminate H|].
      eexists. split.
      * unfold bind at 1. unfold tryCatch. unfold bind at 1. rewrite bind_get, Hc.
        cbn. reflexivity.
      * repeat split. right. eexists. reflexivity.
    + destruct d as [[|row_ rest]|].
      * right. split; [intros row_ rest H; discriminate H|].
        exists w. split.
        -- unfold bind at 1. unfold tryCatch. unfold bind at 1. rewrite bind_get, Hc.
           cbn. reflexivity.
        -- repeat split. now left.
      * left. exists row_, rest. split; [reflexivity|].
        unfold bind at 1. unfold tryCatch. unfold bind at 1. rewrite bind_get, Hc.
        cbn. reflexivity.
      * right. split; [intros row_ rest H; discriminate H|].
        exists w. split.
        -- unfold bind at 1. unfold tryCatch. unfold bind at 1. rewrite bind_get, Hc.
           cbn. reflexivity.
        -- repeat split. now left.
    + right. split; [intros row_ rest H; discriminate H|].
      eexists. split.
      * unfold bind at 1. unfold tryCatch. unfold bind at 1. rewrite bind_get, Hc.
        cbn. reflexivity.
      * repeat split. right. eexists. reflexivity.
  - left. split; [reflexivity|].
    unfold bind at 1. unfold tryCatch. unfold bind at 1. rewrite bind_get, Hc.
    cbn [negb]. change (lit "0x1111111111111111111111111111111111111111")
      with fallbackAddress.
    destruct (textEqb walletAddress fallbackAddress); reflexivity.
Qed.


(** X14: [isVerifiedSender] never rejects and never touches the tables.
    Without a backend it answers [true] for the placeholder address
    [0x1111111111111111111111111111111111111111] and for no other; with a
    backend it answers [true] exactly when the lookup goes through without
    an error and the first row it returns is a verified organization. *)
Theorem verified_sender_outcome (rpc : completion (Reply (list WalletRow)))
    (walletAddress : text) (w : World) :
  exists b w',
    isVerifiedSender rpc walletAddress w = (Fulfilled b, w') /\
    sameBackend w w' /\ sameTables w w' /\
    (b = true -> w' = w) /\
    (configured w = false -> (b = true <-> walletAddress = fallbackAddress)) /\
    (configured w = true ->
       (b = true <->
        exists row_ rest,
          rpc = Fulfilled (mkReply (Some (row_ :: rest)) None) /\
          r_verification_status row_ = lit "verified")).
Proof.
  destruct (isVerifiedSender_cases rpc walletAddress w)
    as [[Hc H]|[Hc [(row_ & rest & Hrpc & H)|(Hno & w' & H & Hb & Ht & _)]]].
  - eexists. exists w. split; [exact H|].
    split; [apply sameBackend_refl|]. split; [split; reflexivity|].
    split; [reflexivity|]. split; [intros _; apply textEqb_eq | congruence].
  - eexists. exists w. split; [exact H|].
    split; [apply sameBackend_refl|]. split; [split; reflexivity|].
    split; [reflexivity|]. split; [congruence|]. intros _. split.
    + intros Hv. exists row_, rest. split; [exact Hrpc | now apply textEqb_eq].
    + intros (row' & rest' & Hrpc' & Hv). rewrite Hrpc in Hrpc'.
      injection Hrpc' as <- _. now apply textEqb_eq.
  - exists false, w'. split; [exact H|]. split; [exact Hb|]. split; [exact Ht|].
    split; [discriminate|]. split; [congruence|]. intros _. split; [discriminate|].
    intros (row_ & rest & Hrpc & _). exfalso. exact (Hno row_ rest Hrpc).
Qed.

Lemma only_row (orgs : list Organization) (wallet_addr : text) (o : Organization) :
  NoDup (map wallet_address orgs) ->
  In o orgs -> wallet_address o = wallet_addr ->
  get_organization_by_wallet orgs [] wallet_addr
  = [mkWalletRow (org_id o) (org_name o) (org_verification_status o)].
Proof.
  unfold get_organization_by_wallet.
  induction orgs as [|x orgs IH]; intros Hnd Hin Ha; [contradiction|].
  cbn [map] in Hnd. inversion Hnd as [|a l Hnotin Hnd']; subst a l.
  cbn [filter]. unfold reachable at 1. cbn [existsb]. rewrite orb_false_r.
  destruct Hin as [-> | Hin].
  - rewrite (proj2 (textEqb_eq _ _) Ha). cbn [map]. f_equal.
    assert (Hnone : filter (reachable [] wallet_addr) orgs = []).
    { clear IH Hnd Hnd'. induction orgs as [|y orgs IH]; [reflexivity|].
      cbn [filter]. unfold reachable at 1. cbn [existsb]. rewrite orb_false_r.
      destruct (textEqb (wallet_address y) wallet_addr) eqn:Hy.
      - exfalso. apply Hnotin. apply textEqb_eq in Hy. left. congruence.
      - apply IH. intros Hx. apply Hnotin. now right. }
    now rewrite Hnone.
  - destruct (textEqb (wallet_address x) wallet_addr) eqn:Hx.
    + exfalso. apply Hnotin. apply textEqb_eq in Hx. rewrite Hx, <- Ha.
      now apply in_map.
    + now apply IH.
Qed.

(** X15: [isVerifiedSender] in front of the hosted procedure
    [get_organization_by_wallet].  Wallet addresses are unique in
    [organizations]; with no rows in [organization_wallets] the answer is
    [true] exactly when a verified organization is registered under the
    address as it is given (the comparison is exact, case included), and
    nothing changes. *)
Theorem verified_sender_at_hosted (walletAddress : text) (w : World) :
  configured w = true ->
  NoDup (map wallet_address (organizations w)) ->
  exists b,
    isVerifiedSender (rpcOrganization (organizations w) [] walletAddress) walletAddress w
      = (Fulfilled b, w) /\
    (b = true <->
     exists o, In o (organizations w) /\ wallet_address o = walletAddress /\
               org_verification_status o = lit "verified").
Proof.
  intros Hc Hnd.
  destruct (isVerifiedSender_cases
              (rpcOrganization (organizations w) [] walletAddress) walletAddress w)
    as [[Hc' _]|[_ [(row_ & rest & Hrpc & H)|(Hno & w' & H & _)]]]; [congruence| |].
  - eexists. split; [exact H|].
    unfold rpcOrganization in Hrpc. injection Hrpc as Hrows.
    assert (Hin : In row_ (get_organization_by_wallet (organizations w) [] walletAddress))
      by (rewrite Hrows; now left).
    unfold get_organization_by_wallet in Hin. apply in_map_iff in Hin.
    destruct Hin as (o & <- & Ho). apply filter_In in Ho. destruct Ho as [Ho Hreach].
    apply reachable_primary in Hreach. cbn [r_verification_status]. split.
    + intros Hv. exists o. apply textEqb_eq in Hv. auto.
    + intros (o' & Hin' & Ha' & Hv').
      rewrite (only_row _ _ o' Hnd Hin' Ha') in Hrows. injection Hrows as Hrow _.
      apply textEqb_eq. congruence.
  - assert (Hempty : get_organization_by_wallet (organizations w) [] walletAddress = []).
    { destruct (get_organization_by_wallet (organizations w) [] walletAddress)
        as [|row_ rest] eqn:E; [reflexivity|].
      exfalso. apply (Hno row_ rest). unfold rpcOrganization. now rewrite E. }
    assert (Hrun : isVerifiedSender (rpcOrganization (organizations w) [] walletAddress)
                     walletAddress w = (Fulfilled false, w)).
    { unfold isVerifiedSender, getOrganizationInfo, getOrganizationByWallet,
        rpcOrganization.
      unfold bind at 1. unfold tryCatch. unfold bind at 1. rewrite bind_get, Hc, Hempty.
      reflexivity. }
    exists false. split; [exact Hrun|]. split; [discriminate|].
    intros (o & Hin & Ha & _). rewrite (only_row _ _ o Hnd Hin Ha) in Hempty.
    discriminate Hempty.
Qed.

Lemma verified_sender_at_hosted_witness :
  exists b,
    isVerifiedSender
      (rpcOrganization (organizations HostedSamples.registry) []
         (lit "0x52908400098527886e0f7030069857d2e4169ee7"))
      (lit "0x52908400098527886e0f7030069857d2e4169ee7") HostedSamples.registry
      = (Fulfilled b, HostedSamples.registry) /\
    b <> true.
Proof.
  destruct (verified_sender_at_hosted (lit "0x52908400098527886e0f7030069857d2e4169ee7")
              HostedSamples.registry)
    as (b & Hrun & Hiff).
  - reflexivity.
  - repeat constructor. simpl. tauto.
  - exists b. split; [exact Hrun|]. intros Hb. apply Hiff in Hb.
    destruct Hb as (o & [<- | []] & Ha & _). vm_compute in Ha. discriminate Ha.
Defined.

End OrganizationLookups.

(** ** The cache of the synchroniser *)

Section Cache.
Import DataSyncService DataSyncTools.

Lemma textEqb_refl (a : text) : Supabase.textEqb a a = true.
Proof. now apply textEqb_eq. Qed.

Lemma getItem_filter_other (k : text) (keep : text * text -> bool)
    (st : list (text * text)) :
  (forall v, keep (k, v) = true) ->
  getItem k (filter keep st) = getItem k st.
Proof.
  intros Hk. induction st as [|[k' v] st IH]; [reflexivity|].
  cbn [filter getItem]. destruct (Supabase.textEqb k k') eqn:E.
  - apply textEqb_eq in E. subst k'. rewrite Hk. cbn [getItem].
    now rewrite textEqb_refl.
  - destruct (keep (k', v)); [|exact IH]. cbn [getItem]. now rewrite E.
Qed.

Lemma getItem_setItem_other (k key v : text) (st : list (text * text)) :
  Supabase.textEqb k key = false ->
  getItem k (setItem key v st) = getItem k st.
Proof.
  intros Hk. unfold setItem. cbn [getItem]. rewrite Hk.
  apply getItem_filter_other. intros v'. cbn [fst].
  destruct (Supabase.textEqb key k) eqn:E; [|reflexivity].
  apply textEqb_eq in E. subst key. now rewrite textEqb_refl in Hk.
Qed.

Lemma getItem_setItem_same (k v : text) (st : list (text * text)) :
  getItem k (setItem k v st) = Some v.
Proof.
  unfold setItem. cbn [getItem]. now rewrite textEqb_refl.
Qed.

Lemma getItem_multiRemove_in (k : text) (keys : list text) (st : list (text * text)) :
  In k keys -> getItem k (multiRemove keys st) = None.
Proof.
  intros Hin. unfold multiRemove. induction st as [|[k' v] st IH]; [reflexivity|].
  cbn [filter fst]. destruct (existsb (Supabase.textEqb k') keys) eqn:E; cbn [negb].
  - exact IH.
  - cbn [getItem]. destruct (Supabase.textEqb k k') eqn:Ek; [|exact IH].
    apply textEqb_eq in Ek. subst k'.
    assert (Ht : existsb (Supabase.textEqb k) keys = true).
    { apply existsb_exists. exists k. split; [exact Hin | apply textEqb_refl]. }
    congruence.
Qed.

Lemma getItem_multiRemove_other (k : text) (keys : list text) (st : list (text * text)) :
  ~ In k keys -> getItem k (multiRemove keys st) = getItem k st.
Proof.
  intros Hout. unfold multiRemove. apply getItem_filter_other. intros v. cbn [fst].
  destruct (existsb (Supabase.textEqb k) keys) eqn:E; [|reflexivity].
  apply existsb_exists in E. destruct E as (k' & Hin & Hk).
  apply textEqb_eq in Hk. subst k'. contradiction.
Qed.

(** X16: [clearCache] against the readers.  Once the removal has gone
    through, [getCachedData] returns the empty array for both types whatever
    the storage answers next and parses nothing, [getSyncStatus] reports
    "Never", and every key other than the three of the cache keeps its
    value. *)
Theorem cleared_cache_reads_empty (A : Type) (parse : text -> option A) (empty : A)
    (dt er : option text) (d : Device) :
  (forall type a,
     fst (getCachedData parse empty type a (clearCache (Settles dt er) d)) = empty) /\
  (forall type dt' er',
     getCachedData parse empty type (Settles dt' er') (clearCache (Settles dt er) d)
       = (empty, clearCache (Settles dt er) d)) /\
  (forall dt' er',
     exists st,
       getSyncStatus (Settles dt' er') (clearCache (Settles dt er) d)
         = (Returned st, clearCache (Settles dt er) d) /\
       lastSync st = lit "Never" /\
       status_syncInProgress st = syncInProgress d /\ errors st = []) /\
  (forall k,
     ~ In k cacheKeys ->
     getItem k (storage (clearCache (Settles dt er) d)) = getItem k (storage d)).
Proof.
  assert (Hread : forall type dt' er',
            getCachedData parse empty type (Settles dt' er') (clearCache (Settles dt er) d)
            = (empty, clearCache (Settles dt er) d)).
  { intros type dt' er'. unfold getCachedData, clearCache. cbn [storage].
    rewrite getItem_multiRemove_in; [reflexivity|].
    destruct type; simpl; tauto. }
  split; [|split; [exact Hread|split]].
  - intros type [dt' er'|e]; [now rewrite Hread | reflexivity].
  - intros dt' er'. unfold getSyncStatus, clearCache.
    cbn [resume storage syncInProgress].
    rewrite getItem_multiRemove_in by (simpl; tauto).
    eexists. split; [reflexivity|]. repeat split.
  - intros k Hout. unfold clearCache. cbn [storage].
    now apply getItem_multiRemove_other.
Qed.

Lemma filter_snoc (A : Type) (f : A -> bool) (l : list A) (x : A) :
  filter f (l ++ [x]) = if f x then filter f l ++ [x] else filter f l.
Proof.
  rewrite filter_app. cbn [filter]. destruct (f x); [reflexivity | apply app_nil_r].
Qed.

Lemma resume_progress (d0 : Device) (a : answer) (p : pc) (d : Device) :
  progress d0 p d -> progress d0 (fst (resume a p d)) (snd (resume a p d)).
Proof.
  unfold progress.
  destruct p as [| |j|[e|]| |j|[e|]|stamp|errs|st|e]; intros [Hclock H];
    try contradiction.
  - destruct a as [dt [er|]|er]; cbn; auto.
  - destruct a as [dt er|er]; cbn; auto.
    split; [exact Hclock|]. destruct H as [Hs Hr]. exists j. cbn. now rewrite Hs.
  - cbn. split; [exact Hclock|]. right. exists e. split; [reflexivity|]. now left.
  - cbn. split; [exact Hclock|]. destruct H as (o & Hs & Hr). exists o.
    cbn. split; [exact Hs|]. rewrite Hr, <- app_assoc. reflexivity.
  - destruct a as [dt [er|]|er]; cbn; auto.
  - destruct a as [dt er|er]; cbn; auto.
    split; [exact Hclock|]. destruct H as (o & Hs & Hr). exists o, j. cbn.
    now rewrite Hs.
  - cbn. split; [exact Hclock|]. right. exists e. split; [reflexivity|].
    right. now left.
  - cbn. split; [exact Hclock|]. split; [exact Hclock | exact H].
  - destruct H as [-> H]. destruct a as [dt er|er]; cbn.
    + split; [exact Hclock|]. left. split; [reflexivity|].
      destruct H as (o & m & Hs & Hr). exists o, m. cbn. now rewrite Hs.
    + split; [exact Hclock|]. right. exists er. split; [reflexivity|].
      right. now right.
  - destruct a as [dt er|er]; cbn; auto.
  - cbn. auto.
  - cbn. auto.
Qed.

Lemma run_progress (d0 : Device) (answers : list answer) :
  forall p d, progress d0 p d ->
    progress d0 (fst (run answers p d)) (snd (run answers p d)).
Proof.
  induction answers as [|a rest IH]; intros p d H; [exact H|].
  cbn [run]. pose proof (resume_progress d0 a p d H) as Hstep.
  destruct (resume a p d) as [p' d']. now apply IH.
Qed.

Lemma gaveUp_lastSync (d0 d : Device) :
  gaveUp d0 d ->
  getItem (lit "lastSync") (storage d) = getItem (lit "lastSync") (storage d0).
Proof.
  intros [[Hs _]|[(o & Hs & _)|(o & m & Hs & _)]]; rewrite Hs;
    rewrite ?getItem_setItem_other by reflexivity; reflexivity.
Qed.

Lemma gaveUp_untouched (d0 d : Device) :
  gaveUp d0 d -> messageFetches d = messageFetches d0 -> storage d = storage d0.
Proof.
  intros [[Hs _]|[(o & _ & Hr)|(o & m & _ & Hr)]] Hm; [exact Hs| |];
    exfalso; unfold messageFetches in Hm; rewrite Hr in Hm;
    change [lit "organizations"; lit "verified_messages"]
      with ([lit "organizations"] ++ [lit "verified_messages"]) in Hm;
    rewrite app_assoc, !filter_snoc in Hm;
    change (Supabase.textEqb (lit "verified_messages") (lit "verified_messages"))
      with true in Hm;
    change (Supabase.textEqb (lit "verified_messages") (lit "organizations"))
      with false in Hm;
    cbn iota in Hm; rewrite length_app in Hm; simpl in Hm; lia.
Qed.

(** X17: what a call of [syncData] that took the guard leaves in the
    storage.  If the status it returns lists no error, the two caches and
    [lastSync] were written, in that order, [lastSync] with the time of the
    device; otherwise it lists exactly one error, [lastSync] is what it was
    before the call, and if the messages were never queried the storage is
    untouched. *)
Theorem sync_outcome (answers : list answer) (d d' : Device) (st : SyncStatus) :
  syncInProgress d = false ->
  syncData answers d = (Returned st, d') ->
  status_syncInProgress st = false /\ pendingUploads st = 0 /\
  ((errors st = [] /\
    lastSync st = orNever (Some (clock d)) /\
    exists o m,
      storage d' = setItem (lit "lastSync") (clock d)
                     (setItem (lit "cached_messages") m
                        (setItem (lit "cached_organizations") o (storage d)))) \/
   (exists e,
      errors st = [e] /\
      lastSync st = orNever (getItem (lit "lastSync") (storage d)) /\
      getItem (lit "lastSync") (storage d') = getItem (lit "lastSync") (storage d) /\
      (messageFetches d' = messageFetches d -> storage d' = storage d))).
Proof.
  intros Hflag Hrun. unfold syncData, invoke in Hrun. rewrite Hflag in Hrun.
  assert (Hstart : progress d AwaitOrganizations
                     (request (lit "organizations") (setFlag true d)))
    by (split; [reflexivity | split; reflexivity]).
  pose proof (run_progress d answers _ _ Hstart) as H.
  rewrite Hrun in H. cbn [fst snd] in H.
  destruct H as (_ & Hclose & Hlast & Hpending & Hprogress).
  split; [exact Hprogress|]. split; [exact Hpending|].
  destruct Hclose as [[Herr (o & m & Hs & _)]|(e & Herr & Hgave)].
  - left. split; [exact Herr|]. split.
    + rewrite Hlast, Hs, getItem_setItem_same. reflexivity.
    + exists o, m. exact Hs.
  - right. exists e. split; [exact Herr|].
    pose proof (gaveUp_lastSync d d' Hgave) as Hkeep.
    split; [rewrite Hlast, Hkeep; reflexivity|].
    split; [exact Hkeep|]. intros Hm. apply (gaveUp_untouched d d' Hgave).
    exact Hm.
Qed.

Lemma sync_outcome_witness :
  exists st d',
    syncData Samples.smooth Samples.handset = (Returned st, d') /\
    status_syncInProgress st = false.
Proof.
  destruct (syncData Samples.smooth Samples.handset) as [p d'] eqn:E.
  destruct p as [| |j|o| |j|o|stamp|errs|st|e];
    try (vm_compute in E; discriminate E).
  exists st, d'. split; [reflexivity|].
  exact (proj1 (sync_outcome Samples.smooth Samples.handset d' st eq_refl E)).
Defined.


Lemma outside_cacheKeys (k : text) :
  ~ In k cacheKeys ->
  Supabase.textEqb k (lit "cached_organizations") = false /\
  Supabase.textEqb k (lit "cached_messages") = false /\
  Supabase.textEqb k (lit "lastSync") = false.
Proof.
  intros Hout. repeat split;
    match goal with
    | |- Supabase.textEqb k ?key = false =>
        destruct (Supabase.textEqb k key) eqn:E; [|reflexivity];
        apply textEqb_eq in E; exfalso; apply Hout; rewrite E; simpl; tauto
    end.
Qed.

Lemma resume_frame (k : text) (a : answer) (p : pc) (d : Device) :
  ~ In k cacheKeys ->
  getItem k (storage (snd (resume a p d))) = getItem k (storage d) /\
  clock (snd (resume a p d)) = clock d.
Proof.
  intros Hout. destruct (outside_cacheKeys k Hout) as (Ho & Hm & Hl).
  destruct p as [| |j|[e|]| |j|[e|]|stamp|errs|st|e];
    try (destruct a as [dt [er|]|er]);
    cbn [resume caught store setFlag consoleError request snd storage clock];
    rewrite ?getItem_setItem_other by assumption; split; reflexivity.
Qed.

Lemma invoke_frame (d : Device) :
  storage (snd (invoke d)) = storage d /\ clock (snd (invoke d)) = clock d.
Proof.
  unfold invoke. destruct (syncInProgress d); split; reflexivity.
Qed.

(** X18: the synchroniser owns three keys of the storage and no other.
    Whatever calls of [syncData] are started and however their answers
    arrive, every other key keeps the value it had, and the clock of the
    device is not touched. *)
Theorem sync_keeps_other_keys (es : list event) (c : Config) (k : text) :
  ~ In k cacheKeys ->
  getItem k (storage (device (steps es c))) = getItem k (storage (device c)) /\
  clock (device (steps es c)) = clock (device c).
Proof.
  intros Hout. revert c. induction es as [|e es IH]; intros c; [split; reflexivity|].
  cbn [steps]. destruct (IH (step e c)) as [Hs Hc]. rewrite Hs, Hc. clear IH Hs Hc.
  destruct e as [|i a]; cbn [step].
  - pose proof (invoke_frame (device c)) as [Hs Hc].
    destruct (invoke (device c)) as [p d]. cbn [device snd] in *.
    now rewrite Hs, Hc.
  - destruct (nth_error (calls c) i) as [p|]; [|split; reflexivity].
    pose proof (resume_frame k a p (device c) Hout) as [Hs Hc].
    destruct (resume a p (device c)) as [p' d]. cbn [device snd] in *. auto.
Qed.

Lemma sync_keeps_other_keys_witness :
  getItem (lit "theme")
    (storage (device (steps [Invoke; Deliver 0 (Settles None None);
                             Deliver 0 (Settles None None)]
                        (mkConfig (store (lit "theme") (lit "dark") Samples.handset) []))))
  = Some (lit "dark").
Proof.
  rewrite (proj1 (sync_keeps_other_keys
                    [Invoke; Deliver 0 (Settles None None); Deliver 0 (Settles None None)]
                    (mkConfig (store (lit "theme") (lit "dark") Samples.handset) [])
                    (lit "theme")
                    ltac:(simpl; intros [H|[H|[H|[]]]]; discriminate H))).
  reflexivity.
Defined.

Lemma orNever_nonempty (v : option text) : orNever v <> [].
Proof.
  destruct v as [[|c s]|]; simpl; discriminate.
Qed.

Lemma resume_wellFormed (a : answer) (p : pc) (d : Device) :
  wellFormed p -> wellFormed (fst (resume a p d)).
Proof.
  destruct p as [| |j|[e|]| |j|[e|]|stamp|errs|st|e]; intros H;
    try (destruct a as [dt [er|]|er]); cbn; auto;
    try (repeat split; auto; try apply orNever_nonempty; try discriminate).
Qed.

Lemma Forall_setNth (A : Type) (P : A -> Prop) (i : nat) (x : A) (l : list A) :
  P x -> Forall P l -> Forall P (setNth i x l).
Proof.
  intros Hx Hl. revert i. induction Hl as [|y l Hy Hl IH]; intros i.
  - destruct i; constructor.
  - destruct i; cbn [setNth]; constructor; auto.
Qed.

Lemma steps_wellFormed (es : list event) :
  forall c, Forall wellFormed (calls c) -> Forall wellFormed (calls (steps es c)).
Proof.
  induction es as [|e es IH]; intros c H; [exact H|].
  cbn [steps]. apply IH. destruct e as [|i a]; cbn [step].
  - destruct (invoke (device c)) as [p d] eqn:E. cbn [calls].
    apply Forall_app. split; [exact H|]. constructor; [|constructor].
    unfold invoke in E. destruct (syncInProgress (device c));
      injection E as <- _; exact I.
  - destruct (nth_error (calls c) i) as [p|] eqn:E; [|exact H].
    pose proof (resume_wellFormed a p (device c)) as Hstep.
    destruct (resume a p (device c)) as [p' d]. cbn [calls fst] in *.
    apply Forall_setNth; [|exact H]. apply Hstep.
    apply nth_error_In in E. rewrite Forall_forall in H. now apply H.
Qed.

(** X19: the statuses the synchroniser hands out.  Start from a device with
    no call in flight; whatever calls are made and however their answers
    arrive, a status that a call returns has a [lastSync] that is not
    empty ("Never" stands in for a missing one), no pending uploads and at
    most one error, and none at all when it reports a sync in progress. *)
Theorem returned_statuses (es : list event) (d : Device) :
  Forall (fun p => forall st, p = Returned st ->
            lastSync st <> [] /\ pendingUploads st = 0 /\
            length (errors st) <= 1 /\
            (status_syncInProgress st = true -> errors st = []))
         (calls (steps es (idle d))).
Proof.
  pose proof (steps_wellFormed es (idle d) (Forall_nil _)) as H.
  rewrite Forall_forall in *. intros p Hin st ->. exact (H _ Hin).
Qed.

End Cache.

(** ** The Algorand helpers *)

Section Algorand.
Import Regex RegexTools Language AlgorandService.
Local Open Scope Z_scope.

Lemma toInt32_range (z : Z) : -2147483648 <= toInt32 z < 2147483648.
Proof.
  unfold toInt32. pose proof (Z.mod_pos_bound (z + 2147483648) 4294967296). lia.
Qed.

Lemma toInt32_small (z : Z) : -2147483648 <= z < 2147483648 -> toInt32 z = z.
Proof.
  intros H. unfold toInt32. rewrite Z.mod_small; lia.
Qed.

Lemma toInt32_congr (a b : Z) :
  (a - b) mod 4294967296 = 0 -> toInt32 a = toInt32 b.
Proof.
  intros H. unfold toInt32. f_equal.
  apply Z.mod_divide in H; [|lia]. destruct H as [k Hk].
  replace (a + 2147483648) with (b + 2147483648 + k * 4294967296) by lia.
  apply Z.mod_add. lia.
Qed.

Lemma toInt32_diff (z : Z) : exists k, toInt32 z = z + k * 4294967296.
Proof.
  unfold toInt32. exists (- ((z + 2147483648) / 4294967296)).
  pose proof (Z.div_mod (z + 2147483648) 4294967296). lia.
Qed.

Lemma hashStep_wraps (h : Z) (c : ascii) :
  hashStep h c = toInt32 (31 * h + Z.of_nat (JS.code c)).
Proof.
  unfold hashStep, band, shl. rewrite Z.land_diag.
  rewrite Z.shiftl_mul_pow2 by lia. change (2 ^ 5) with 32.
  destruct (toInt32_diff h) as [k1 Hk1].
  destruct (toInt32_diff (toInt32 h * 32)) as [k2 Hk2].
  apply toInt32_congr. rewrite Hk2, Hk1.
  replace (h + k1 * 4294967296) with (h + k1 * 4294967296) by reflexivity.
  replace ((h + k1 * 4294967296) * 32 + k2 * 4294967296 - h + Z.of_nat (JS.code c)
           - (31 * h + Z.of_nat (JS.code c)))
    with ((32 * k1 + k2) * 4294967296) by lia.
  apply Z.mod_mul. lia.
Qed.

Lemma hashValue_snoc (m : text) (c : ascii) :
  hashValue (m ++ [c]) = hashStep (hashValue m) c.
Proof.
  unfold hashValue. now rewrite fold_left_app.
Qed.

Lemma polynomial_snoc (m : text) (c : ascii) :
  polynomial (m ++ [c]) = 31 * polynomial m + Z.of_nat (JS.code c).
Proof.
  unfold polynomial. now rewrite fold_left_app.
Qed.

Lemma hashValue_polynomial (m : text) : hashValue m = toInt32 (polynomial m).
Proof.
  induction m as [|c m IH] using rev_ind; [reflexivity|].
  rewrite hashValue_snoc, polynomial_snoc, hashStep_wraps, IH.
  apply toInt32_congr.
  destruct (toInt32_diff (polynomial m)) as [k Hk]. rewrite Hk.
  replace (31 * (polynomial m + k * 4294967296) + Z.of_nat (JS.code c)
           - (31 * polynomial m + Z.of_nat (JS.code c)))
    with (31 * k * 4294967296) by lia.
  apply Z.mod_mul. lia.
Qed.


Lemma hexDigit_spec (r : Z) :
  0 <= r < 16 ->
  digitValue (hexDigit r) = r /\ inRanges lowerHex (hexDigit r) = true.
Proof.
  intros H.
  assert (Hr : r = 0 \/ r = 1 \/ r = 2 \/ r = 3 \/ r = 4 \/ r = 5 \/ r = 6 \/ r = 7 \/
               r = 8 \/ r = 9 \/ r = 10 \/ r = 11 \/ r = 12 \/ r = 13 \/ r = 14 \/
               r = 15) by lia.
  repeat (destruct Hr as [-> | Hr]; [split; vm_compute; reflexivity|]).
  subst r. split; vm_compute; reflexivity.
Qed.

Lemma hexValue_snoc (s : text) (c : ascii) :
  hexValue (s ++ [c]) = 16 * hexValue s + digitValue c.
Proof.
  unfold hexValue. now rewrite fold_left_app.
Qed.

Lemma hexDigits_value (fuel : nat) :
  forall z, 0 <= z < 16 ^ Z.of_nat fuel -> hexValue (hexDigits fuel z) = z.
Proof.
  induction fuel as [|fuel IH]; intros z Hz.
  - simpl in Hz. cbn. lia.
  - cbn [hexDigits]. rewrite hexValue_snoc.
    assert (Hmod : 0 <= z mod 16 < 16) by (apply Z.mod_pos_bound; lia).
    rewrite (proj1 (hexDigit_spec _ Hmod)).
    destruct (z <? 16) eqn:E.
    + apply Z.ltb_lt in E. rewrite Z.mod_small by lia. reflexivity.
    + apply Z.ltb_ge in E. rewrite IH.
      * pose proof (Z.div_mod z 16). lia.
      * rewrite Nat2Z.inj_succ, Z.pow_succ_r in Hz by lia.
        split; [apply Z.div_pos; lia | apply Z.div_lt_upper_bound; lia].
Qed.

Lemma hexDigits_length (fuel : nat) :
  forall z n, 0 <= z < 16 ^ Z.of_nat n -> (1 <= n)%nat ->
    (1 <= fuel)%nat ->
    (1 <= length (hexDigits fuel z) <= n)%nat.
Proof.
  induction fuel as [|fuel IH]; intros z n Hz Hn Hf; [lia|].
  cbn [hexDigits]. rewrite length_app. cbn [length].
  destruct (z <? 16) eqn:E; [cbn [length]; lia|].
  apply Z.ltb_ge in E.
  destruct n as [|[|n]]; [lia | simpl in Hz; lia |].
  destruct fuel as [|fuel]; [cbn [hexDigits length]; lia|].
  assert (Hdiv : 0 <= z / 16 < 16 ^ Z.of_nat (S n)).
  { rewrite (Nat2Z.inj_succ (S n)), Z.pow_succ_r in Hz by lia.
    split; [apply Z.div_pos; lia | apply Z.div_lt_upper_bound; lia]. }
  pose proof (IH (z / 16) (S n) Hdiv ltac:(lia) ltac:(lia)). lia.
Qed.

Lemma hexDigits_lowerHex (fuel : nat) :
  forall z, 0 <= z -> forallb (inRanges lowerHex) (hexDigits fuel z) = true.
Proof.
  induction fuel as [|fuel IH]; intros z Hz; [reflexivity|].
  cbn [hexDigits]. rewrite forallb_app. cbn [forallb].
  assert (Hmod : 0 <= z mod 16 < 16) by (apply Z.mod_pos_bound; lia).
  rewrite (proj2 (hexDigit_spec _ Hmod)).
  destruct (z <? 16); [reflexivity|].
  rewrite IH by (apply Z.div_pos; lia). reflexivity.
Qed.

Lemma enough_fuel (z : Z) : 0 <= z -> z < 16 ^ Z.of_nat (S (Z.to_nat (Z.log2 z))).
Proof.
  intros Hz. rewrite Nat2Z.inj_succ, Z2Nat.id by apply Z.log2_nonneg.
  destruct (Z.eq_dec z 0) as [-> | Hne]; [vm_compute; reflexivity|].
  assert (Hpos : 0 < z) by lia.
  pose proof (Z.log2_spec z Hpos) as [_ Hlt].
  assert (Hle : 2 ^ Z.succ (Z.log2 z) <= 16 ^ Z.succ (Z.log2 z)).
  { apply Z.pow_le_mono_l. lia. }
  lia.
Qed.

Lemma hexValue_zeros (k : nat) (s : text) :
  hexValue (repeat "0"%char k ++ s) = hexValue s.
Proof.
  unfold hexValue. rewrite fold_left_app.
  assert (Hz : fold_left (fun acc c => 16 * acc + digitValue c) (repeat "0"%char k) 0 = 0).
  { induction k as [|k IH]; [reflexivity|]. cbn [repeat fold_left].
    change (16 * 0 + digitValue "0") with 0. exact IH. }
  now rewrite Hz.
Qed.

Lemma hashValue_range (message : text) :
  -2147483648 <= hashValue message < 2147483648.
Proof.
  rewrite hashValue_polynomial. apply toInt32_range.
Qed.

Lemma hashMessage_length (message : text) :
  length (hashMessage message) = 8%nat.
Proof.
  unfold hashMessage, padStart, toString16.
  pose proof (hashValue_range message) as Hr.
  set (z := Z.abs (hashValue message)).
  assert (Hlen : (1 <= length (hexDigits (S (Z.to_nat (Z.log2 z))) z) <= 8)%nat).
  { apply hexDigits_length; [|lia|lia]. change (16 ^ Z.of_nat 8) with 4294967296.
    unfold z. lia. }
  rewrite length_app, repeat_length. lia.
Qed.

(** X20: [hashMessage] is the polynomial hash in 31 of the code units, kept
    in 32 bits.  What it returns is always exactly eight hexadecimal digits
    in lower case, and they spell the absolute value of the wrapped
    polynomial: nothing is cut off. *)
Theorem hash_is_eight_hex_digits (message : text) :
  length (hashMessage message) = 8%nat /\
  forallb (inRanges lowerHex) (hashMessage message) = true /\
  hexValue (hashMessage message) = Z.abs (toInt32 (polynomial message)).
Proof.
  unfold hashMessage, padStart, toString16.
  pose proof (hashValue_range message) as Hr.
  set (z := Z.abs (hashValue message)).
  assert (Hz : 0 <= z) by (unfold z; lia).
  assert (Hlen : (1 <= length (hexDigits (S (Z.to_nat (Z.log2 z))) z) <= 8)%nat).
  { apply hexDigits_length; [|lia|lia]. change (16 ^ Z.of_nat 8) with 4294967296.
    unfold z. lia. }
  split; [|split].
  - rewrite length_app, repeat_length. lia.
  - rewrite forallb_app. rewrite (hexDigits_lowerHex _ z Hz), andb_true_r.
    generalize (8 - length (hexDigits (S (Z.to_nat (Z.log2 z))) z))%nat.
    intros k. induction k as [|k IH]; [reflexivity | exact IH].
  - rewrite hexValue_zeros, hexDigits_value by (split; [exact Hz | now apply enough_fuel]).
    unfold z. now rewrite hashValue_polynomial.
Qed.

Lemma exact_run_iff (ic : bool) (cls : list (ascii * ascii)) (lo : nat)
    (hi : option nat) (s : text) :
  match_to_end ic [Rep cls lo hi] s = true
  <-> (lo <= length s)%nat /\ within hi (length s) /\
      forallb (classMatches ic cls) s = true.
Proof.
  rewrite match_to_end_iff. split.
  - intros [marks H]. inversion H; subst.
    match goal with Hw : Matches _ [] _ _ |- _ => inversion Hw; subst end.
    rewrite app_nil_r. auto.
  - intros (Hlo & Hhi & Hcls). exists (map (Nat.add (length s)) []).
    rewrite <- (app_nil_r s) at 1.
    apply M_rep; [exact Hcls | exact Hlo | exact Hhi | constructor].
Qed.

Lemma trimStart_pad (pad s : text) :
  forallb JS.isWhiteSpace pad = true -> JS.trimStart (pad ++ s) = JS.trimStart s.
Proof.
  induction pad as [|c pad IH]; intros H; [reflexivity|].
  cbn [forallb] in H. apply andb_true_iff in H. destruct H as [Hc Hp].
  cbn [app JS.trimStart]. rewrite Hc. now apply IH.
Qed.

Lemma trim_pad_end (s pad : text) :
  forallb JS.isWhiteSpace pad = true -> JS.trim (s ++ pad) = JS.trim s.
Proof.
  induction pad as [|c pad IH] using rev_ind; intros H; [now rewrite app_nil_r|].
  rewrite forallb_app in H. apply andb_true_iff in H. destruct H as [Hp Hc].
  cbn [forallb] in Hc. rewrite andb_true_r in Hc.
  rewrite app_assoc, (trim_snoc (s ++ pad) c Hc). now apply IH.
Qed.

Lemma trim_pad (pad s pad' : text) :
  forallb JS.isWhiteSpace pad = true -> forallb JS.isWhiteSpace pad' = true ->
  JS.trim (pad ++ s ++ pad') = JS.trim s.
Proof.
  intros Hp Hp'. rewrite app_assoc, (trim_pad_end (pad ++ s) pad' Hp').
  unfold JS.trim. now rewrite trimStart_pad.
Qed.

Lemma isValidAddress_trim (address : text) :
  isValidAddress address
  = (length (JS.trim address) =? 58)%nat
    && match_to_end false algorandAddressRegex (JS.trim address).
Proof.
  unfold isValidAddress. destruct address as [|c a]; [reflexivity|].
  cbn [JS.truthy negb]. destruct (length (JS.trim (c :: a)) =? 58)%nat; reflexivity.
Qed.

(** X21: [isValidAddress] accepts exactly the texts that, once trimmed, are
    58 characters from [A-Z] and [2-7]; white space put around an address
    does not change the answer. *)
Theorem address_format (address pad pad' : text) :
  (isValidAddress address = true
   <-> length (JS.trim address) = 58%nat /\
       forallb (inRanges base32Class) (JS.trim address) = true) /\
  (forallb JS.isWhiteSpace pad = true -> forallb JS.isWhiteSpace pad' = true ->
   isValidAddress (pad ++ address ++ pad') = isValidAddress address).
Proof.
  split.
  - rewrite isValidAddress_trim, andb_true_iff, Nat.eqb_eq.
    unfold algorandAddressRegex. rewrite exact_run_iff. cbn [within classMatches].
    split; [intros (Hl & _ & _ & Hc); auto | intros (Hl & Hc); repeat split; auto; lia].
  - intros Hp Hp'. rewrite !isValidAddress_trim. now rewrite (trim_pad pad address pad').
Qed.

Lemma address_format_witness :
  isValidAddress (lit " 7ZUECA7HFLZTXENRV24SHLU4AVPUTMTTDUFUBNBD64C73F3UHRTHAIOF6Q  ")
  = isValidAddress (lit "7ZUECA7HFLZTXENRV24SHLU4AVPUTMTTDUFUBNBD64C73F3UHRTHAIOF6Q").
Proof.
  apply (proj2 (address_format
                  (lit "7ZUECA7HFLZTXENRV24SHLU4AVPUTMTTDUFUBNBD64C73F3UHRTHAIOF6Q")
                  (lit " ") (lit "  "))); reflexivity.
Defined.

(** X22: the stand-in [verifyAlgorandMessage].  It reports a message valid
    exactly when the signature is at least 64 hexadecimal digits and
    nothing else, the public key has at least 64 characters and the message
    is not empty; it carries an error text exactly when the verdict is
    negative; and what it accepts, the stand-in of the hosted verifier
    accepts too. *)
Theorem algorand_stand_in (now network_ message signature publicKey_ : text) :
  (isValid (verifyAlgorandMessage now network_ message signature publicKey_) = true
   <-> (64 <= length signature)%nat /\
       forallb (inRanges hexClass) signature = true /\
       (64 <= length publicKey_)%nat /\ message <> []) /\
  (error (verifyAlgorandMessage now network_ message signature publicKey_) = None
   <-> isValid (verifyAlgorandMessage now network_ message signature publicKey_) = true) /\
  length (messageHash (details
            (verifyAlgorandMessage now network_ message signature publicKey_))) = 8%nat /\
  (isValid (verifyAlgorandMessage now network_ message signature publicKey_) = true ->
   forall rpc sender w,
     Supabase.configured w = false ->
     exists row_,
       Supabase.verifyMessage rpc message signature sender w
         = (Supabase.Fulfilled (Supabase.mkReply (Some row_) None), w) /\
       Supabase.is_valid row_ = true).
Proof.
  assert (Hiff : isValid (verifyAlgorandMessage now network_ message signature publicKey_)
                 = true
                 <-> (64 <= length signature)%nat /\
                     forallb (inRanges hexClass) signature = true /\
                     (64 <= length publicKey_)%nat /\ message <> []).
  { unfold verifyAlgorandMessage. cbn [isValid].
    rewrite !andb_true_iff, exact_run_iff, !Nat.leb_le, Nat.ltb_lt.
    cbn [within].
    assert (Hsame : forallb (classMatches true hexClass) signature
                    = forallb (inRanges hexClass) signature).
    { induction signature as [|c sg IH]; [reflexivity|].
      cbn [forallb]. now rewrite hex_either_case, IH. }
    rewrite Hsame.
    split.
    - intros [[[Hs (_ & _ & Hh)] Hk] Hm]. repeat split; auto.
      destruct message; [simpl in Hm; lia | discriminate].
    - intros (Hs & Hh & Hk & Hm). repeat split; auto; try lia.
      destruct message; [congruence | simpl; lia]. }
  split; [exact Hiff|]. split; [|split].
  - unfold verifyAlgorandMessage. cbn [error isValid].
    destruct (_ && _ && _); split; intros H; try reflexivity; discriminate H.
  - apply hashMessage_length.
  - intros Hv rpc sender w Hc. apply Hiff in Hv. destruct Hv as (Hs & _ & _ & Hm).
    eexists. split; [apply (verifyMessage_mock rpc message signature sender w Hc)|].
    cbn [Supabase.is_valid]. apply andb_true_iff. split.
    + now apply Nat.leb_le.
    + apply Nat.ltb_lt. destruct message; [congruence | simpl; lia].
Qed.

End Algorand.

(** ** Errors of the backend *)

Section BackendErrors.
Import Supabase SupabaseVerificationService Effects.

Lemma handleSupabaseError_run (A : Type) (e : PgError) (operation : text) (w : World) :
  exists m,
    handleSupabaseError A e operation w
      = (Fulfilled (mkReply None (Some (mkError None (Some m)))),
         mkWorld (supabaseUrl w) (session w) (clock w) (organizations w)
           (verified_messages w) (message_verification_attempts w) (next_uuid w)
           (console w ++ [lit "Supabase " ++ operation ++ lit " error:"])) /\
    m <> [] /\
    (Supabase.code e = Some (lit "23505") -> m = lit "Duplicate entry - record already exists") /\
    (Supabase.code e = Some (lit "42501") -> m = lit "Permission denied - check your access rights") /\
    (Supabase.code e = Some (lit "PGRST116") -> m = lit "No data found") /\
    (Supabase.code e = None -> forall c t, Supabase.message e = Some (c :: t) -> m = c :: t).
Proof.
  unfold handleSupabaseError, bind, Supabase.consoleError, ret.
  eexists. split; [reflexivity|].
  destruct e as [[c|] msg]; cbn [Supabase.code Supabase.message].
  - destruct (textEqb c (lit "PGRST116")) eqn:E1.
    { apply textEqb_eq in E1. subst c.
      repeat split; try discriminate; intros H; try reflexivity;
        injection H as H; vm_compute in H; discriminate H. }
    destruct (textEqb c (lit "23505")) eqn:E2.
    { apply textEqb_eq in E2. subst c.
      repeat split; try discriminate; intros H; try reflexivity;
        injection H as H; vm_compute in H; discriminate H. }
    destruct (textEqb c (lit "42501")) eqn:E3.
    { apply textEqb_eq in E3. subst c.
      repeat split; try discriminate; intros H; try reflexivity;
        injection H as H; vm_compute in H; discriminate H. }
    assert (Hm : match msg with Some (c0 :: m) => c0 :: m
                               | _ => lit "Unknown database error" end <> [])
      by (destruct msg as [[|c0 m]|]; discriminate).
    repeat split; try exact Hm; try discriminate;
      intros H; injection H as ->; rewrite textEqb_refl in *; discriminate.
  - repeat split; try discriminate.
    + destruct msg as [[|c0 m]|]; discriminate.
    + intros _ c t ->. reflexivity.
Qed.

(** X23: the remote verifier [verifyMessage] of lib/supabase never rejects
    and never answers with both a row and an error.  An error of the
    backend, a rejected call included, comes back as an error object
    without a code whose message is not empty, and leaves one line on the
    console; an answer without an error leaves nothing behind; the tables
    are not touched either way. *)
Theorem backend_errors_are_flattened
    (rpc : text -> text -> text -> completion (Reply (list VerificationRow)))
    (c sg sd : text) (w : World) :
  exists r w',
    Supabase.verifyMessage rpc c sg sd w = (Fulfilled r, w') /\
    sameTables w w' /\
    (data r = None \/ Supabase.error r = None) /\
    (Supabase.error r = None -> w' = w) /\
    (forall e, Supabase.error r = Some e ->
       configured w = true /\ Supabase.code e = None /\
       (exists m, Supabase.message e = Some m /\ m <> []) /\
       console w' = console w ++ [lit "Supabase message verification error:"]).
Proof.
  unfold Supabase.verifyMessage. rewrite bind_get.
  destruct (configured w) eqn:Hc; cbn [negb].
  - assert (Hflat : forall e,
              exists r w',
                handleSupabaseError VerificationRow e (lit "message verification") w
                  = (Fulfilled r, w') /\
                sameTables w w' /\
                (data r = None \/ Supabase.error r = None) /\
                (Supabase.error r = None -> w' = w) /\
                (forall e', Supabase.error r = Some e' ->
                   true = true /\ Supabase.code e' = None /\
                   (exists m, Supabase.message e' = Some m /\ m <> []) /\
                   console w' = console w ++ [lit "Supabase message verification error:"])).
    { intros e.
      destruct (handleSupabaseError_run VerificationRow e (lit "message verification") w)
        as (m & Hrun & Hne & _).
      eexists. eexists. split; [exact Hrun|].
      split; [split; reflexivity|]. split; [left; reflexivity|].
      split; [intros H; discriminate H|].
      intros e' He'. injection He' as <-. repeat split. exists m. auto. }
    destruct (rpc c sg sd) as [reply|ex].
    + destruct (Supabase.error reply) as [e|] eqn:He; [exact (Hflat e)|].
      eexists. exists w. split; [reflexivity|].
      split; [split; reflexivity|]. split; [right; reflexivity|].
      split; [reflexivity|]. intros e H. discriminate H.
    + exact (Hflat (mkError None (Some ex))).
  - eexists. exists w. split; [reflexivity|].
    split; [split; reflexivity|]. split; [right; reflexivity|].
    split; [reflexivity|]. intros e H. discriminate H.
Qed.

Lemma verifyMessage_configured
    (rpc : text -> text -> text -> completion (Reply (list VerificationRow)))
    (c sg sd : text) (w : World) :
  configured w = true ->
  match rpc c sg sd with
  | Fulfilled reply =>
      match Supabase.error reply with
      | None =>
          Supabase.verifyMessage rpc c sg sd w
          = (Fulfilled (mkReply match data reply with
                                | Some (first :: _) => Some first
                                | _ => None
                                end None), w)
      | Some _ =>
          exists e w', Supabase.verifyMessage rpc c sg sd w
                       = (Fulfilled (mkReply None (Some e)), w')
      end
  | Rejected _ =>
      exists e w', Supabase.verifyMessage rpc c sg sd w
                   = (Fulfilled (mkReply None (Some e)), w')
  end.
Proof.
  intros Hc. unfold Supabase.verifyMessage. rewrite bind_get, Hc. cbn [negb].
  destruct (rpc c sg sd) as [reply|ex].
  - destruct (Supabase.error reply) as [e|]; [|reflexivity].
    destruct (handleSupabaseError_run VerificationRow e (lit "message verification") w)
      as (m & Hrun & _). rewrite Hrun. eauto.
  - destruct (handleSupabaseError_run VerificationRow (mkError None (Some ex))
                (lit "message verification") w) as (m & Hrun & _).
    rewrite Hrun. eauto.
Qed.

(** X24: the two failures of [verifyMessageSignature] and where they come
    from.  "Verification service error" is the answer exactly when a
    backend is configured and its call was rejected or came back with an
    error; "No verification result returned" exactly when the call went
    through and brought no row.  Neither is possible without a backend, and
    a result with an error is never valid. *)
Theorem service_failures_classified (env : Env)
    (content sg sender method : text) (w : World) :
  exists r w',
    verifyMessageSignature env content sg sender method w = (Fulfilled r, w') /\
    (SupabaseVerificationService.error r = Some (lit "Verification service error")
     <-> configured w = true /\
         ((exists e, rpc_answer env (JS.trim content)
                       (JS.toLowerCase (stripHexPrefix sg)) (JS.toLowerCase sender)
                     = Rejected e) \/
          (exists reply e, rpc_answer env (JS.trim content)
                             (JS.toLowerCase (stripHexPrefix sg)) (JS.toLowerCase sender)
                           = Fulfilled reply /\
                           Supabase.error reply = Some e))) /\
    (SupabaseVerificationService.error r = Some (lit "No verification result returned")
     <-> configured w = true /\
         exists reply, rpc_answer env (JS.trim content)
                         (JS.toLowerCase (stripHexPrefix sg)) (JS.toLowerCase sender)
                       = Fulfilled reply /\
                       Supabase.error reply = None /\
                       (data reply = None \/ data reply = Some [])) /\
    (SupabaseVerificationService.error r <> None ->
     isValid r = false /\ SupabaseVerificationService.success r = Some false).
Proof.
  destruct (configured w) eqn:Hc.
  - pose proof (verifyMessage_configured (rpc_answer env) (JS.trim content)
                  (JS.toLowerCase (stripHexPrefix sg)) (JS.toLowerCase sender) w Hc) as Hv.
    unfold verifyMessageSignature.
    destruct (rpc_answer env (JS.trim content) (JS.toLowerCase (stripHexPrefix sg))
                (JS.toLowerCase sender)) as [reply|ex] eqn:Hrpc.
    + destruct (Supabase.error reply) as [e|] eqn:He.
      * destruct Hv as (e' & w' & Hv).
        erewrite tryCatch_fulfilled
          by (erewrite bind_fulfilled by exact Hv; reflexivity).
        eexists. eexists. split; [reflexivity|]. split; [|split].
        -- split; [intros _; split; [reflexivity|]; right; exists reply, e; auto
                  | reflexivity].
        -- split; [intros H; vm_compute in H; discriminate H|].
           intros (_ & reply' & Hr & He' & _). injection Hr as <-. congruence.
        -- intros _. split; reflexivity.
      * destruct (data reply) as [[|row_ rest]|] eqn:Hd.
        -- erewrite tryCatch_fulfilled
             by (erewrite bind_fulfilled by exact Hv; reflexivity).
           eexists. eexists. split; [reflexivity|]. split; [|split].
           ++ split; [intros H; vm_compute in H; discriminate H|].
              intros (_ & [(e & H)|(reply' & e & Hr & He')]); [discriminate H|].
              injection Hr as <-. congruence.
           ++ split; [intros _; split; [reflexivity|]; exists reply; auto | reflexivity].
           ++ intros _. split; reflexivity.
        -- destruct (is_valid row_) eqn:Hvalid.
           ++ destruct (saveVerificationResult_effect env (JS.trim content)
                          (JS.toLowerCase (stripHexPrefix sg)) (JS.toLowerCase sender)
                          (v_organization_id row_) (v_verification_details row_) method w)
                as (w' & Hsave & _).
              erewrite tryCatch_fulfilled
                by (erewrite bind_fulfilled by exact Hv;
                    cbn [Supabase.error data]; rewrite Hvalid;
                    erewrite bind_fulfilled by exact Hsave; reflexivity).
              eexists. eexists. split; [reflexivity|]. cbn [SupabaseVerificationService.error].
              split; [|split].
              ** split; [discriminate|].
                 intros (_ & [(e & H)|(reply' & e & Hr & He')]); [discriminate H|].
                 injection Hr as <-. congruence.
              ** split; [discriminate|].
                 intros (_ & reply' & Hr & _ & [Hn|Hn]); injection Hr as <-; congruence.
              ** intros H. congruence.
           ++ erewrite tryCatch_fulfilled
                by (erewrite bind_fulfilled by exact Hv;
                    cbn [Supabase.error data]; rewrite Hvalid; reflexivity).
              eexists. eexists. split; [reflexivity|]. cbn [SupabaseVerificationService.error].
              split; [|split].
              ** split; [discriminate|].
                 intros (_ & [(e & H)|(reply' & e & Hr & He')]); [discriminate H|].
                 injection Hr as <-. congruence.
              ** split; [discriminate|].
                 intros (_ & reply' & Hr & _ & [Hn|Hn]); injection Hr as <-; congruence.
              ** intros H. congruence.
        -- erewrite tryCatch_fulfilled
             by (erewrite bind_fulfilled by exact Hv; reflexivity).
           eexists. eexists. split; [reflexivity|]. split; [|split].
           ++ split; [intros H; vm_compute in H; discriminate H|].
              intros (_ & [(e & H)|(reply' & e & Hr & He')]); [discriminate H|].
              injection Hr as <-. congruence.
           ++ split; [intros _; split; [reflexivity|]; exists reply; auto | reflexivity].
           ++ intros _. split; reflexivity.
    + destruct Hv as (e' & w' & Hv).
      erewrite tryCatch_fulfilled
        by (erewrite bind_fulfilled by exact Hv; reflexivity).
      eexists. eexists. split; [reflexivity|]. split; [|split].
      * split; [intros _; split; [reflexivity|]; left; exists ex; reflexivity
               | reflexivity].
      * split; [intros H; vm_compute in H; discriminate H|].
        intros (_ & reply' & Hr & _). discriminate Hr.
      * intros _. split; reflexivity.
  - destruct (verifyMessageSignature_shape env content sg sender method w)
      as (r & w' & Hrun & _).
    destruct (verifyMessageSignature_mock env content sg sender method w Hc)
      as (r0 & w0 & details & Hrun0 & _ & Hid & _).
    rewrite Hrun in Hrun0. injection Hrun0 as <- <-.
    exists r, w'. split; [exact Hrun|].
    assert (Herr : SupabaseVerificationService.error r = None).
    { destruct (SupabaseVerificationService.error r) as [e|] eqn:E; [|reflexivity].
      exfalso. revert Hrun E Hid. clear. intros Hrun E Hid.
      destruct (verifyMessageSignature_shape env content sg sender method w)
        as (r1 & w1 & Hrun1 & _ & _ & Hshape).
      rewrite Hrun in Hrun1. injection Hrun1 as <- <-.
      destruct Hshape as [-> | [-> | [He _]]]; [discriminate Hid | discriminate Hid |].
      congruence. }
    rewrite Herr. split; [|split].
    + split; [discriminate | intros [H _]; discriminate H].
    + split; [discriminate | intros [H _]; discriminate H].
    + intros H. congruence.
Qed.

End BackendErrors.
